(** * dataset_setup/data_loader.py: metadata repair and dataset assembly

    A shallow embedding of [src/dataset_setup/data_loader.py].  Python's
    [str] is a [string] (the UTF-8 bytes of the text; every pattern the
    loader searches for is ASCII), exceptions are an explicit [result]
    type, logging, file and storage effects are a trace of events, and the
    calls into the standard library and pandas ([str.replace], [json.loads],
    [pd.to_numeric], [astype("Int64")]) are executable functions that follow
    the documented behaviour of those libraries.

    Left out of the model: the recursion limit of the interpreter and the
    limit on the number of digits of an [int] (both raise errors that are
    not decode errors, on texts far larger than a metadata cell), and the
    rounding of float64.  The statements below that depend on one of them
    bound the text, or keep to the cells that none of them touches. *)

From Stdlib Require Import Bool Arith ZArith NArith Lia List Ascii String.
Import ListNotations.
Open Scope string_scope.

Set Implicit Arguments.
Set Warnings "-register-all".

(** ** Characters and literals *)

(** The double-quote and the single-quote character. *)
Definition dq : ascii := "034"%char.
Definition sq : ascii := "'"%char.

Definition DQ : string := String dq "".
Definition SQ : string := String sq "".

Fixpoint map_chars (f : ascii -> ascii) (s : string) : string :=
  match s with
  | "" => ""
  | String c s' => String (f c) (map_chars f s')
  end.

(** Literals of this file write a backquote where the Python text has a
    double-quote character; [lit] puts the double-quotes back. *)
Definition lit (s : string) : string :=
  map_chars (fun c => if (c =? "`")%char then dq else c) s.

(** ** Python exceptions and results *)

Inductive exn : Type :=
| JSONDecodeError
| KeyError (key : string)
| TypeError
| ValueError (msg : string)
| StorageError.

Inductive result (A : Type) : Type :=
| Ok (a : A)
| Raise (e : exn).
Arguments Ok {A} a.
Arguments Raise {A} e.

Definition bind {A B} (r : result A) (k : A -> result B) : result B :=
  match r with
  | Ok a => k a
  | Raise e => Raise e
  end.

Notation "x <- r ;; k" := (bind r (fun x => k))
  (at level 61, r at next level, right associativity).

(** ** [str] operations *)

(** [str.startswith]: [startswith p s] holds when [p] is a prefix of [s]. *)
Fixpoint startswith (p s : string) : bool :=
  match p with
  | "" => true
  | String a p' =>
      match s with
      | "" => false
      | String b s' => (a =? b)%char && startswith p' s'
      end
  end.

Fixpoint drop (n : nat) (s : string) : string :=
  match n with
  | O => s
  | S k => match s with
           | "" => ""
           | String _ s' => drop k s'
           end
  end.

(** [old in s] for strings. *)
Fixpoint contains (old s : string) : bool :=
  startswith old s ||
  match s with
  | "" => false
  | String _ s' => contains old s'
  end.

(** The scan behind [str.replace] for a non-empty [old]: left to right, the
    leftmost occurrence is replaced and the scan resumes after it; [skip]
    counts the characters of a matched occurrence still to pass over. *)
Fixpoint replace_from (old new : string) (skip : nat) (s : string) : string :=
  match s with
  | "" => ""
  | String c s' =>
      match skip with
      | S k => replace_from old new k s'
      | O =>
          if startswith old s
          then new ++ replace_from old new (pred (length old)) s'
          else String c (replace_from old new 0 s')
      end
  end.

(** With an empty [old], Python inserts [new] before every character and at
    the end. *)
Fixpoint intersperse (new s : string) : string :=
  match s with
  | "" => new
  | String c s' => new ++ String c (intersperse new s')
  end.

(** [s.replace(old, new)]. *)
Definition replace (s old new : string) : string :=
  match old with
  | "" => intersperse new s
  | _ => replace_from old new 0 s
  end.

(** ** JSON values and [json.loads] *)

(** What [json.loads] returns.  A [dict] keeps its insertion order, so it is
    an association list with unique keys; a Python [float] is kept as the
    numeral that was read ([NaN], [Infinity] and [-Infinity] included). *)
Inductive json : Type :=
| JNull
| JBool (b : bool)
| JInt (z : Z)
| JFloat (lexeme : string)
| JString (s : string)
| JArray (items : list json)
| JObject (d : list (string * json)).

(** [d[k] = v] on a dict. *)
Fixpoint dict_set {V} (k : string) (v : V) (d : list (string * V))
  : list (string * V) :=
  match d with
  | [] => [(k, v)]
  | (k', v') :: d' =>
      if (k =? k')%string then (k, v) :: d' else (k', v') :: dict_set k v d'
  end.

(** [dict(pairs)]: later pairs overwrite earlier ones. *)
Definition dict_of_pairs {V} (pairs : list (string * V)) : list (string * V) :=
  fold_left (fun d kv => dict_set (fst kv) (snd kv) d) pairs [].

Fixpoint dict_get {V} (k : string) (d : list (string * V)) : option V :=
  match d with
  | [] => None
  | (k', v) :: d' => if (k =? k')%string then Some v else dict_get k d'
  end.

Definition is_ws (c : ascii) : bool :=
  (c =? " ")%char || (c =? "009")%char || (c =? "010")%char || (c =? "013")%char.

Fixpoint skip_ws (s : string) : string :=
  match s with
  | "" => ""
  | String c s' => if is_ws c then skip_ws s' else s
  end.

Definition is_digit (c : ascii) : bool :=
  (("0" <=? c) && (c <=? "9"))%char.

Definition digit_val (c : ascii) : Z :=
  (Z.of_N (N_of_ascii c) - 48)%Z.

(** The longest prefix of digits, and what follows it. *)
Fixpoint span_digits (s : string) : string * string :=
  match s with
  | "" => ("", "")
  | String c s' =>
      if is_digit c
      then let (ds, r) := span_digits s' in (String c ds, r)
      else ("", s)
  end.

Fixpoint Z_of_digits (acc : Z) (ds : string) : Z :=
  match ds with
  | "" => acc
  | String c ds' => Z_of_digits (10 * acc + digit_val c)%Z ds'
  end.

(** An optional minus sign. *)
Definition scan_minus (s : string) : bool * string :=
  match s with
  | String c r => if (c =? "-")%char then (true, r) else (false, s)
  | "" => (false, s)
  end.

(** Either a single zero or a non-zero digit followed by digits. *)
Definition scan_digits (s : string) : option (string * string) :=
  match s with
  | "" => None
  | String c r =>
      if (c =? "0")%char then Some ("0", r)
      else if is_digit c
           then let (ds, r') := span_digits r in Some (String c ds, r')
           else None
  end.

(** The integer part of a numeral. *)
Definition scan_int (s : string) : option (bool * string * string) :=
  let (neg, s1) := scan_minus s in
  match scan_digits s1 with
  | Some (ds, r) => Some (neg, ds, r)
  | None => None
  end.

(** The optional fraction: a dot followed by at least one digit. *)
Definition scan_frac (s : string) : string * string :=
  match s with
  | String c r =>
      if (c =? ".")%char
      then match span_digits r with
           | ("", _) => ("", s)
           | (ds, r') => (String c ds, r')
           end
      else ("", s)
  | "" => ("", s)
  end.

(** The optional exponent: e or E, an optional sign, at least one digit. *)
Definition scan_exp (s : string) : string * string :=
  match s with
  | String e r =>
      if ((e =? "e") || (e =? "E"))%char
      then
        let (sign, r1) :=
          match r with
          | String c r' =>
              if ((c =? "-") || (c =? "+"))%char then (String c "", r') else ("", r)
          | "" => ("", r)
          end in
        match span_digits r1 with
        | ("", _) => ("", s)
        | (ds, r2) => (String e (sign ++ ds), r2)
        end
      else ("", s)
  | "" => ("", s)
  end.

(** [NUMBER_RE] of the decoder: an [int] when there is neither fraction nor
    exponent, a [float] otherwise. *)
Definition scan_number (s : string) : option (json * string) :=
  match scan_int s with
  | None => None
  | Some (neg, ds, r) =>
      let (frac, r1) := scan_frac r in
      let (exp, r2) := scan_exp r1 in
      match frac, exp with
      | "", "" =>
          Some (JInt (if neg then (- Z_of_digits 0 ds)%Z else Z_of_digits 0 ds), r2)
      | _, _ =>
          Some (JFloat ((if neg then "-" else "") ++ ds ++ frac ++ exp), r2)
      end
  end.

Definition hex_val (c : ascii) : option N :=
  let n := N_of_ascii c in
  if is_digit c then Some (n - 48)%N
  else if (("a" <=? c) && (c <=? "f"))%char then Some (n - 87)%N
  else if (("A" <=? c) && (c <=? "F"))%char then Some (n - 55)%N
  else None.

Definition hex4 (a b c d : ascii) : option N :=
  match hex_val a, hex_val b, hex_val c, hex_val d with
  | Some x, Some y, Some z, Some w => Some (((x * 16 + y) * 16 + z) * 16 + w)%N
  | _, _, _, _ => None
  end.

(** UTF-8 bytes of a code point (a lone surrogate takes the three-byte
    form). *)
Definition utf8 (u : N) : string :=
  let b (n : N) := ascii_of_N n in
  (if u <? 128 then String (b u) ""
   else if u <? 2048 then
     String (b (192 + u / 64)) (String (b (128 + u mod 64)) "")
   else if u <? 65536 then
     String (b (224 + u / 4096))
       (String (b (128 + (u / 64) mod 64)) (String (b (128 + u mod 64)) ""))
   else
     String (b (240 + u / 262144))
       (String (b (128 + (u / 4096) mod 64))
          (String (b (128 + (u / 64) mod 64))
             (String (b (128 + u mod 64)) ""))))%N.

Definition simple_escape (e : ascii) : option ascii :=
  if (e =? dq)%char then Some dq
  else if (e =? "\")%char then Some "\"%char
  else if (e =? "/")%char then Some "/"%char
  else if (e =? "b")%char then Some "008"%char
  else if (e =? "f")%char then Some "012"%char
  else if (e =? "n")%char then Some "010"%char
  else if (e =? "r")%char then Some "013"%char
  else if (e =? "t")%char then Some "009"%char
  else None.

Definition is_high_surrogate (u : N) : bool := ((55296 <=? u) && (u <=? 56319))%N.
Definition is_low_surrogate (u : N) : bool := ((56320 <=? u) && (u <=? 57343))%N.

Definition prepend (chunk : string) (r : option (string * string))
  : option (string * string) :=
  match r with
  | Some (str, rest) => Some (chunk ++ str, rest)
  | None => None
  end.

(** [scanstring] in strict mode, started after the opening double-quote: the
    decoded text and what follows the closing double-quote. *)
Fixpoint scanstring (s : string) : option (string * string) :=
  match s with
  | "" => None
  | String c r =>
      if (c =? dq)%char then Some ("", r)
      else if (c <? " ")%char then None
      else if (c =? "\")%char then
        match r with
        | "" => None
        | String e r1 =>
            if (e =? "u")%char then
              match r1 with
              | String h1 (String h2 (String h3 (String h4 r2))) =>
                  match hex4 h1 h2 h3 h4 with
                  | None => None
                  | Some uni =>
                      if is_high_surrogate uni && startswith "\u" r2 then
                        match r2 with
                        | String _ (String _
                            (String g1 (String g2 (String g3 (String g4 r3))))) =>
                            match hex4 g1 g2 g3 g4 with
                            | None => None
                            | Some uni2 =>
                                if is_low_surrogate uni2
                                then prepend
                                       (utf8 (65536 + (uni - 55296) * 1024
                                              + (uni2 - 56320))%N)
                                       (scanstring r3)
                                else prepend (utf8 uni) (scanstring r2)
                            end
                        | _ => None
                        end
                      else prepend (utf8 uni) (scanstring r2)
                  end
              | _ => None
              end
            else
              match simple_escape e with
              | Some x => prepend (String x "") (scanstring r1)
              | None => None
              end
        end
      else prepend (String c "") (scanstring r)
  end.

(** The scanner.  [scan_once] reads one value at the head of [s];
    [JSONArray] and [JSONObject] are the loops of the decoder, entered at the
    first element and at the opening double-quote of the first key.  [fuel]
    bounds the nesting and the number of elements. *)
Fixpoint scan_once (fuel : nat) (s : string) : option (json * string) :=
  match fuel with
  | O => None
  | S n =>
      match s with
      | "" => None
      | String c r =>
          if (c =? dq)%char then
            match scanstring r with
            | Some (str, r') => Some (JString str, r')
            | None => None
            end
          else if (c =? "{")%char then
            match skip_ws r with
            | "" => None
            | String c1 r1 =>
                if (c1 =? "}")%char then Some (JObject [], r1)
                else JSONObject n (skip_ws r) []
            end
          else if (c =? "[")%char then
            match skip_ws r with
            | "" => None
            | String c1 r1 =>
                if (c1 =? "]")%char then Some (JArray [], r1)
                else JSONArray n (skip_ws r) []
            end
          else if startswith "null" s then Some (JNull, drop 4 s)
          else if startswith "true" s then Some (JBool true, drop 4 s)
          else if startswith "false" s then Some (JBool false, drop 5 s)
          else
            match scan_number s with
            | Some x => Some x
            | None =>
                if startswith "NaN" s then Some (JFloat "NaN", drop 3 s)
                else if startswith "Infinity" s
                     then Some (JFloat "Infinity", drop 8 s)
                else if startswith "-Infinity" s
                     then Some (JFloat "-Infinity", drop 9 s)
                else None
            end
      end
  end

with JSONArray (fuel : nat) (s : string) (values : list json)
  : option (json * string) :=
  match fuel with
  | O => None
  | S n =>
      match scan_once n s with
      | None => None
      | Some (value, r) =>
          match skip_ws r with
          | "" => None
          | String c r1 =>
              if (c =? "]")%char then Some (JArray (values ++ [value]), r1)
              else if (c =? ",")%char
                   then JSONArray n (skip_ws r1) (values ++ [value])
                   else None
          end
      end
  end

with JSONObject (fuel : nat) (s : string) (pairs : list (string * json))
  : option (json * string) :=
  match fuel with
  | O => None
  | S n =>
      match s with
      | "" => None
      | String c r =>
          if (c =? dq)%char then
            match scanstring r with
            | None => None
            | Some (key, r1) =>
                match skip_ws r1 with
                | "" => None
                | String c1 r2 =>
                    if (c1 =? ":")%char then
                      match scan_once n (skip_ws r2) with
                      | None => None
                      | Some (value, r3) =>
                          match skip_ws r3 with
                          | "" => None
                          | String c2 r4 =>
                              if (c2 =? "}")%char
                              then Some (JObject
                                           (dict_of_pairs (pairs ++ [(key, value)])),
                                         r4)
                              else if (c2 =? ",")%char
                                   then JSONObject n (skip_ws r4)
                                          (pairs ++ [(key, value)])
                                   else None
                          end
                      end
                    else None
                end
            end
          else None
      end
  end.

(** Every nesting level and every element consumes a character, so this much
    fuel is never exhausted. *)
Definition json_fuel (s : string) : nat := 2 * length s + 2.

(** [json.loads(s)]: one value between optional blanks, nothing after it. *)
Definition json_loads (s : string) : result json :=
  match scan_once (json_fuel s) (skip_ws s) with
  | Some (v, r) =>
      match skip_ws r with
      | "" => Ok v
      | _ => Raise JSONDecodeError
      end
  | None => Raise JSONDecodeError
  end.

(** ** Metadata repair *)

Notation "s '.[' old '=>' new ']'" := (replace s old new)
  (at level 1, left associativity, format "s .[ old  =>  new ]").

(** The text the first [json.loads] of [fix_json_structure] receives. *)
Definition tier1_text (metadata : string) : string :=
  metadata.[DQ => "TMP1"].["'" => DQ].["TMP1" => "'"].

(** The text the second [json.loads] receives. *)
Definition tier2_text (metadata : string) : string :=
  metadata.["'s" => "TMP1"]
          .["'t" => "TMP2"]
          .["'(" => "TMP3"]
          .[DQ => "'"]
          .["'" => DQ]
          .["TMP2" => "'t"]
          .["TMP1" => "'s"]
          .["TMP3" => "'("].

(** [try: return json.loads(...) except json.JSONDecodeError: return
    json.loads(...)]. *)
Definition fix_json_structure (metadata : string) : result json :=
  match json_loads (tier1_text metadata) with
  | Raise JSONDecodeError => json_loads (tier2_text metadata)
  | r => r
  end.

(** [obj[key]] for a string key: a [dict] looks the key up, every other
    value [json.loads] can return refuses a string subscript. *)
Definition getitem (obj : json) (key : string) : result json :=
  match obj with
  | JObject d =>
      match dict_get key d with
      | Some v => Ok v
      | None => Raise (KeyError key)
      end
  | _ => Raise TypeError
  end.

(** ** Effects *)

Inductive event : Type :=
| LogInfo (msg : string)
| ToCsv (path : string)
| PrintColumns
| GetPostgresConnString
| CreateEngine
| CreateTables
| Connect
| ToSql (df_name table : string).

(** A computation leaves a trace of events and ends with a value or an
    exception; what was done before an exception stays done. *)
Definition M (A : Type) : Type := (list event * result A)%type.

Definition ret {A} (a : A) : M A := ([], Ok a).

Definition lift {A} (r : result A) : M A := ([], r).

Definition emit (e : event) : M unit := ([e], Ok tt).

Definition mbind {A B} (m : M A) (k : A -> M B) : M B :=
  match m with
  | (t, Ok a) => let (t', r) := k a in ((t ++ t')%list, r)
  | (t, Raise e) => (t, Raise e)
  end.

Notation "x <~ m ;; k" := (mbind m (fun x => k))
  (at level 61, m at next level, right associativity).
Notation "m ;;; k" := (mbind m (fun _ => k))
  (at level 61, right associativity).

Fixpoint mapM {A B} (f : A -> M B) (l : list A) : M (list B) :=
  match l with
  | [] => ret []
  | a :: l' => b <~ f a ;; bs <~ mapM f l' ;; ret (b :: bs)
  end.

Definition trace {A} (m : M A) : list event := fst m.
Definition outcome {A} (m : M A) : result A := snd m.

Definition preprocess_annotator_metadata (metadata : string)
  : M (list (string * json)) :=
  emit (LogInfo "Fixing annotator metadata") ;;;
  lift (metadata_json <- fix_json_structure metadata ;;
        steps <- getitem metadata_json "Steps" ;;
        num_steps <- getitem metadata_json "Number of steps" ;;
        time_taken <- getitem metadata_json "How long did this take?" ;;
        tools <- getitem metadata_json "Tools" ;;
        num_tools <- getitem metadata_json "Number of tools" ;;
        Ok [("metadata_steps", steps);
            ("metadata_num_steps", num_steps);
            ("metadata_time_taken", time_taken);
            ("metadata_tools", tools);
            ("metadata_num_tools", num_tools)]).

(** ** The numeric coercion of pandas *)

(** A float64 value as far as the loader can tell values apart: a decimal
    [m * 10^e], an infinity or NaN.  Decimals are exact; the rounding of
    float64 is not modelled. *)
Inductive number : Type :=
| Num (m e : Z)
| Inf (negative : bool)
| NaN.

Definition is_space (c : ascii) : bool :=
  is_ws c || (c =? "011")%char || (c =? "012")%char.

Fixpoint lstrip (s : string) : string :=
  match s with
  | "" => ""
  | String c s' => if is_space c then lstrip s' else s
  end.

Fixpoint all_space (s : string) : bool :=
  match s with
  | "" => true
  | String c s' => is_space c && all_space s'
  end.

Definition lower (c : ascii) : ascii :=
  if (("A" <=? c) && (c <=? "Z"))%char
  then ascii_of_N (N_of_ascii c + 32)
  else c.

(** An optional sign in front of [s]. *)
Definition scan_sign (s : string) : bool * string :=
  match s with
  | String c r =>
      if (c =? "-")%char then (true, r)
      else if (c =? "+")%char then (false, r)
      else (false, s)
  | "" => (false, s)
  end.

(** A decimal numeral at the head of [s]: digits with an optional fraction
    (at least one digit in all) and an optional exponent. *)
Definition scan_decimal (s : string) : option (number * string) :=
  let (neg, s1) := scan_sign s in
  let (ds, s2) := span_digits s1 in
  let (fs, s3) :=
    match s2 with
    | String c r => if (c =? ".")%char then span_digits r else ("", s2)
    | "" => ("", s2)
    end in
  match ds ++ fs with
  | "" => None
  | digits =>
      let (ex, s4) :=
        match s3 with
        | String c r =>
            if ((c =? "e") || (c =? "E"))%char
            then
              let (eneg, r1) := scan_sign r in
              match span_digits r1 with
              | ("", _) => (0%Z, s3)
              | (es, r2) =>
                  ((if eneg then - Z_of_digits 0 es else Z_of_digits 0 es)%Z, r2)
              end
            else (0%Z, s3)
        | "" => (0%Z, s3)
        end in
      let m := Z_of_digits 0 digits in
      Some (Num (if neg then - m else m)%Z (ex - Z.of_nat (length fs))%Z, s4)
  end.

(** The words pandas reads as infinities and NaN, in any letter case. *)
Definition special_number (s : string) : option number :=
  let w := map_chars lower s in
  if ((w =? "inf") || (w =? "+inf") || (w =? "infinity") || (w =? "+infinity"))%string
  then Some (Inf false)
  else if ((w =? "-inf") || (w =? "-infinity"))%string then Some (Inf true)
  else if (w =? "nan")%string then Some NaN
  else None.

(** The string-to-float conversion [pd.to_numeric] applies to a [str] cell;
    [None] is the conversion error. *)
Definition floatify (s : string) : option number :=
  match special_number s with
  | Some x => Some x
  | None =>
      match scan_decimal (lstrip s) with
      | Some (x, rest) => if all_space rest then Some x else None
      | None => None
      end
  end.

(** [pd.to_numeric(..., errors="coerce")] on one cell of the column: a cell
    that is no number becomes NaN. *)
Definition to_numeric (v : json) : number :=
  match v with
  | JNull => NaN
  | JBool b => Num (if b then 1 else 0) 0
  | JInt z => Num z 0
  | JFloat lexeme =>
      match floatify lexeme with
      | Some x => x
      | None => NaN
      end
  | JString s =>
      match floatify s with
      | Some x => x
      | None => NaN
      end
  | JArray _ => NaN
  | JObject _ => NaN
  end.

(** The integer a number is equal to, if there is one. *)
Definition integer_value (x : number) : option Z :=
  match x with
  | Num m e =>
      if (0 <=? e)%Z then Some (m * 10 ^ e)%Z
      else if (m mod 10 ^ (- e) =? 0)%Z then Some (m / 10 ^ (- e))%Z
           else None
  | _ => None
  end.

(** The range of the nullable integer type. *)
Definition int64_min : Z := - 2 ^ 63.
Definition int64_max : Z := 2 ^ 63 - 1.

(** [.astype("Int64")] on one float64 cell: NaN becomes the missing value, a
    number equal to a 64-bit integer becomes that integer, anything else
    cannot be cast. *)
Definition astype_Int64 (x : number) : result (option Z) :=
  match x with
  | NaN => Ok None
  | _ =>
      match integer_value x with
      | Some z =>
          if ((int64_min <=? z) && (z <=? int64_max))%Z then Ok (Some z)
          else Raise TypeError
      | None => Raise TypeError
      end
  end.

(** A function that may raise, over a list: the first exception stops
    it. *)
Fixpoint mapR {A B} (f : A -> result B) (l : list A) : result (list B) :=
  match l with
  | [] => Ok []
  | a :: l' => b <- f a ;; bs <- mapR f l' ;; Ok (b :: bs)
  end.

(** [pd.to_numeric(column, errors="coerce").astype("Int64")]. *)
Definition coerce_num_tools (column : list json) : result (list (option Z)) :=
  mapR astype_Int64 (map to_numeric column).

(** ** Dataset assembly *)

(** A row of [pd.read_csv(file, names=dataset_headers, header=0)]; a cell is
    a JSON scalar, [JNull] for an empty one. *)
Record RawRecord : Type := {
  task_id : json;
  question : json;
  level : json;
  answer : json;
  file_name : json;
  file_path : json;
  annotator_metadata : string
}.

(** A row of the flattened, cleaned frame. *)
Module Flat.
Record t : Type := {
  task_id : json;
  question : json;
  level : json;
  answer : json;
  file_name : json;
  file_path : json;
  metadata_steps : json;
  metadata_num_steps : json;
  metadata_time_taken : json;
  metadata_tools : json;
  metadata_num_tools : option Z
}.
End Flat.

(** [isinstance(v, dict)]. *)
Definition is_dict (v : json) : bool :=
  match v with
  | JObject _ => true
  | _ => false
  end.

(** A field of a normalised row; a missing one is null. *)
Definition field (name : string) (d : list (string * json)) : json :=
  match dict_get name d with
  | Some v => v
  | None => JNull
  end.

(** [flattened_dataset_df[name]] for a column of the metadata:
    [json_normalize] spreads a dict-valued cell over columns of its own, so
    the column exists when some row holds a value that is not a dict, and is
    null in the rows where it is one. *)
Definition get_column (name : string) (metas : list (list (string * json)))
  : result (list json) :=
  let cells := map (field name) metas in
  if existsb (fun v => negb (is_dict v)) cells
  then Ok (map (fun v => if is_dict v then JNull else v) cells)
  else Raise (KeyError name).

(** ["damg7374-a1-store/" + cell]: pandas leaves a null cell null and
    concatenates a string; no other cell can be added to a [str]. *)
Definition prepend_bucket (cell : json) : result json :=
  match cell with
  | JString name => Ok (JString ("damg7374-a1-store/" ++ name))
  | JNull => Ok JNull
  | _ => Raise TypeError
  end.

(** The flattened row: the six plain columns and the five fields of the
    metadata record as columns of their own. *)
Definition flattened (r : RawRecord) (meta : list (string * json))
  (num_tools : option Z) (path : json) : Flat.t :=
  {| Flat.task_id := task_id r;
     Flat.question := question r;
     Flat.level := level r;
     Flat.answer := answer r;
     Flat.file_name := file_name r;
     Flat.file_path := path;
     Flat.metadata_steps := field "metadata_steps" meta;
     Flat.metadata_num_steps := field "metadata_num_steps" meta;
     Flat.metadata_time_taken := field "metadata_time_taken" meta;
     Flat.metadata_tools := field "metadata_tools" meta;
     Flat.metadata_num_tools := num_tools |}.

Fixpoint zip4 {A B C D E} (f : A -> B -> C -> D -> E)
  (la : list A) (lb : list B) (lc : list C) (ld : list D) : list E :=
  match la, lb, lc, ld with
  | a :: la', b :: lb', c :: lc', d :: ld' => f a b c d :: zip4 f la' lb' lc' ld'
  | _, _, _, _ => []
  end.

(** The body of the loop over the files, up to the cleaned frame:
    [apply(preprocess_annotator_metadata)] on the metadata column, the
    flattening ([to_json], [json.loads], [json_normalize] and the renaming
    of the columns), the coercion of the tool count and the rewriting of the
    path.  A row of the frame is built from the row read, its metadata
    record and the two rewritten columns.  The flattening is taken to keep
    the cells, which it does for nulls, booleans, strings and lists of such;
    it writes a float with ten decimals and an infinity as null, and a
    column of integers with a null cell comes back as floats, none of which
    is modelled. *)
Definition clean_dataset (dataset_df : list RawRecord) : M (list Flat.t) :=
  metas <~ mapM (fun r => preprocess_annotator_metadata (annotator_metadata r))
                dataset_df ;;
  lift (column <- get_column "metadata_num_tools" metas ;;
        num_tools <- coerce_num_tools column ;;
        paths <- mapR prepend_bucket (map file_name dataset_df) ;;
        Ok (zip4 flattened dataset_df metas num_tools paths)).

(** [cleaned_datasets]: the cleaned frame of each file, under its path. *)
Definition datasets : Type := list (string * list Flat.t).

Fixpoint load_loop (file_list : list (string * list RawRecord))
  (cleaned_datasets : datasets) : M datasets :=
  match file_list with
  | [] => ret cleaned_datasets
  | (file, dataset_df) :: rest =>
      flattened_dataset_df <~ clean_dataset dataset_df ;;
      emit (ToCsv "resources/cleaned_datasets/1.csv") ;;;
      emit PrintColumns ;;;
      load_loop rest (dict_set file flattened_dataset_df cleaned_datasets)
  end.

(** [file_list] is what [glob] found, each file with the rows [read_csv]
    gives for it. *)
Definition load_datasets_from_filesystem
  (file_list : list (string * list RawRecord)) : M datasets :=
  if (List.length file_list =? 0)%nat
  then lift (Raise (ValueError
                      "There are no datasets available in the resources path"))
  else load_loop file_list [].

Section Main.

(** The outcome of each call into the storage layer ([models.db],
    sqlalchemy, [DataFrame.to_sql]), which is outside this file. *)
Variable storage : event -> result unit.

Definition call (e : event) : M unit := ([e], storage e).

Fixpoint store_all (dataframes : datasets) : M unit :=
  match dataframes with
  | [] => ret tt
  | (df_name, df) :: rest =>
      call (ToSql df_name "test_cases") ;;;
      emit (LogInfo ("Created table `test_cases` from " ++ df_name)) ;;;
      store_all rest
  end.

Definition main (file_list : list (string * list RawRecord)) : M unit :=
  dataframes <~ load_datasets_from_filesystem file_list ;;
  call GetPostgresConnString ;;;
  call CreateEngine ;;;
  call CreateTables ;;;
  call Connect ;;;
  store_all dataframes ;;;
  emit (LogInfo "Completed loading datasets to database").

End Main.

(** ** Specification-side definitions *)

(** Exchanging the two quote characters. *)
Definition swap_quote (c : ascii) : ascii :=
  if (c =? dq)%char then sq
  else if (c =? sq)%char then dq
  else c.

(** The three patterns Tier 2 protects: an apostrophe before [s], [t] or an
    opening parenthesis. *)
Inductive contraction : Type := CS | CT | CP.

Definition contraction_of (c : ascii) : option contraction :=
  if (c =? "s")%char then Some CS
  else if (c =? "t")%char then Some CT
  else if (c =? "(")%char then Some CP
  else None.

Definition head_contraction (s : string) : bool :=
  match s with
  | String x _ => match contraction_of x with Some _ => true | None => false end
  | "" => false
  end.

(** What Tier 2 does to a text, said directly: a single-quote that does not
    start one of the protected patterns becomes a double-quote, every other
    character stays. *)
Fixpoint requote (s : string) : string :=
  match s with
  | "" => ""
  | String c s' =>
      String (if (c =? sq)%char && negb (head_contraction s') then dq else c)
             (requote s')
  end.

(** Every single-quote of [s] starts one of the protected patterns. *)
Fixpoint contractions_only (s : string) : bool :=
  match s with
  | "" => true
  | String c s' =>
      (negb (c =? sq)%char || head_contraction s') && contractions_only s'
  end.

(** None of the sentinels of [fix_json_structure] occurs in [s]. *)
Definition sentinel_free (s : string) : bool :=
  negb (contains "TMP1" s) && negb (contains "TMP2" s)
  && negb (contains "TMP3" s).

(** The quote characters, and the texts that hold one. *)
Definition is_quote (c : ascii) : bool := (c =? dq)%char || (c =? sq)%char.

Fixpoint has_quote (s : string) : bool :=
  match s with
  | "" => false
  | String c s' => is_quote c || has_quote s'
  end.

(** The text with its two quote characters exchanged. *)
Definition swap_quotes (s : string) : string := map_chars swap_quote s.

(** ** Texts as token sequences *)

Section Tokens.

Variable A : Type.

(** The text a token sequence stands for under a rendering of the
    tokens. *)
Fixpoint render (r : A -> string) (l : list A) : string :=
  match l with
  | [] => ""
  | a :: l' => r a ++ render r l'
  end.

Variables old new : string.
Variables r r' : A -> string.

(** One [replace] turns the rendering [r] into [r']: a token is either an
    occurrence of [old] that [r'] renders as [new], or a stretch both
    render alike in which no occurrence starts. *)
Inductive stage : list A -> Prop :=
| stage_nil : stage []
| stage_hit a l :
    r a = old -> r' a = new -> stage l -> stage (a :: l)
| stage_keep a l :
    r' a = r a ->
    (forall u c v, r a = u ++ String c v ->
                   startswith old (String c v ++ render r l) = false) ->
    stage l -> stage (a :: l).

End Tokens.

(** [x in p] for a character. *)
Fixpoint char_in (x : ascii) (p : string) : bool :=
  match p with
  | "" => false
  | String y p' => (x =? y)%char || char_in x p'
  end.

(** A text as the sequence of its characters, and a character as a
    text. *)
Definition chars : string -> list ascii := list_ascii_of_string.

Definition one (c : ascii) : string := String c "".

(** The renderings of a character after each of the three replacements. *)
Definition tier1_a (c : ascii) : string :=
  if (c =? dq)%char then "TMP1" else one c.

Definition tier1_b (c : ascii) : string :=
  if (c =? dq)%char then "TMP1" else if (c =? sq)%char then DQ else one c.

Definition tier1_c (c : ascii) : string := one (swap_quote c).

(** ** Tier 2 on tokens *)

(** A text read as Tier 2 reads it: protected patterns and single
    characters. *)
Inductive tok : Type :=
| Ch (c : ascii)
| Ap (k : contraction).

Definition contraction_char (k : contraction) : ascii :=
  match k with
  | CS => "s"
  | CT => "t"
  | CP => "("
  end%char.

Definition sentinel (k : contraction) : string :=
  match k with
  | CS => "TMP1"
  | CT => "TMP2"
  | CP => "TMP3"
  end.

Definition plain (k : contraction) : string :=
  String sq (String (contraction_char k) "").

(** A token as text: [prot] tells which patterns stand behind their
    sentinel, [q] is what has happened to single characters. *)
Definition show (prot : contraction -> bool) (q : ascii -> ascii) (t : tok)
  : string :=
  match t with
  | Ch c => one (q c)
  | Ap k => if prot k then sentinel k else plain k
  end.

Fixpoint tokens (s : string) : list tok :=
  match s with
  | "" => []
  | String c s' =>
      if (c =? sq)%char then
        match s' with
        | String x s'' =>
            match contraction_of x with
            | Some k => Ap k :: tokens s''
            | None => Ch c :: tokens s'
            end
        | "" => [Ch c]
        end
      else Ch c :: tokens s'
  end.

(** No single-quote token stands before a character that would make it a
    protected pattern. *)
Fixpoint wf (l : list tok) : Prop :=
  match l with
  | [] => True
  | Ch c :: l' =>
      (c = sq -> match l' with
                 | Ch x :: _ => contraction_of x = None
                 | _ => True
                 end) /\ wf l'
  | Ap _ :: l' => wf l'
  end.

(** What the replacements of Tier 2 have made of a single character: nothing
    yet, double-quotes turned into single-quotes, every quote turned into a
    double-quote. *)
Definition q0 (c : ascii) : ascii := c.
Definition q1 (c : ascii) : ascii := if (c =? dq)%char then sq else c.
Definition q2 (c : ascii) : ascii := if is_quote c then dq else c.

(** Sets of protected patterns. *)
Definition none (k : contraction) : bool := false.
Definition all (k : contraction) : bool := true.
Definition only (k j : contraction) : bool :=
  match k, j with
  | CS, CS | CT, CT | CP, CP => true
  | _, _ => false
  end.
Definition either (p p' : contraction -> bool) (j : contraction) : bool :=
  p j || p' j.

(** ** The scenarios of the specification *)

Definition C1_input : string :=
  lit "{'Steps': ['Open file', 'Read it'], 'Number of steps': 2, 'How long did this take?': `5 minutes`, 'Tools': [], 'Number of tools': 0}".

Definition C1_record : list (string * json) :=
  [("metadata_steps", JArray [JString "Open file"; JString "Read it"]);
   ("metadata_num_steps", JInt 2);
   ("metadata_time_taken", JString "5 minutes");
   ("metadata_tools", JArray []);
   ("metadata_num_tools", JInt 0)].

Definition C4_input : string :=
  lit "{`Steps`: [`Ask the user what's needed`], `Number of steps`: 1, `How long did this take?`: `1 minute`, `Tools`: [], `Number of tools`: `none`}".

Definition C4_value : json :=
  JObject
    [("Steps", JArray [JString "Ask the user what's needed"]);
     ("Number of steps", JInt 1);
     ("How long did this take?", JString "1 minute");
     ("Tools", JArray []);
     ("Number of tools", JString "none")].

Definition C4_record : list (string * json) :=
  [("metadata_steps", JArray [JString "Ask the user what's needed"]);
   ("metadata_num_steps", JInt 1);
   ("metadata_time_taken", JString "1 minute");
   ("metadata_tools", JArray []);
   ("metadata_num_tools", JString "none")].

Definition C3_input : string :=
  lit "{`Steps`: [`Open TMP1, don't close it`], `Number of steps`: 1, `How long did this take?`: `1 minute`, `Tools`: [], `Number of tools`: 0}".

Definition C3_value : json :=
  JObject
    [("Steps", JArray [JString "Open TMP1, don't close it"]);
     ("Number of steps", JInt 1);
     ("How long did this take?", JString "1 minute");
     ("Tools", JArray []);
     ("Number of tools", JInt 0)].

Definition C8_input : string :=
  lit "{`Steps`: [], `Number of steps`: 0, `How long did this take?`: `1 minute`, `Tools`: [], `Number of tools`: 1.5}".

(** A row whose metadata is the text [metadata] and whose file is
    [name]. *)
Definition row_of (name : json) (metadata : string) : RawRecord :=
  {| task_id := JString "task";
     question := JString "question";
     level := JInt 1;
     answer := JString "answer";
     file_name := name;
     file_path := JNull;
     annotator_metadata := metadata |}.

(** Tier 2 as the specification words it: protect, exchange the two quote
    characters, restore. *)
Definition tier2_claimed (metadata : string) : string :=
  (swap_quotes (metadata.["'s" => "TMP1"].["'t" => "TMP2"].["'(" => "TMP3"]))
    .["TMP2" => "'t"].["TMP1" => "'s"].["TMP3" => "'("].

(** The five keys of the annotator metadata and the fields they become. *)
Definition metadata_keys : list string :=
  ["Steps"; "Number of steps"; "How long did this take?"; "Tools";
   "Number of tools"].

Definition metadata_fields : list string :=
  ["metadata_steps"; "metadata_num_steps"; "metadata_time_taken";
   "metadata_tools"; "metadata_num_tools"].

(** A non-empty text of decimal digits. *)
Fixpoint digits_only (s : string) : bool :=
  match s with
  | "" => true
  | String c s' => is_digit c && digits_only s'
  end.

Definition all_digits (ds : string) : bool :=
  negb (ds =? "")%string && digits_only ds.


(** The integers float64 holds exactly. *)
Definition float_exact (z : Z) : bool :=
  ((- 2 ^ 53 <=? z) && (z <=? 2 ^ 53))%Z.





(** What the rewriting of the path leaves in one cleaned frame: its rows
    carry the file names of the rows read, in order, and each path is what
    ["damg7374-a1-store/" + file_name] gives for the row's own file name. *)
Definition clean_frame (rows : list RawRecord) (df : list Flat.t) : Prop :=
  map Flat.file_name df = map file_name rows
  /\ forall row, In row df ->
                 prepend_bucket (Flat.file_name row) = Ok (Flat.file_path row).

(** The path a cleaned row has for its file name: the bucket prefix
    followed by the name when the name is a string, and null when the name
    is empty. *)
Definition path_rewritten (name path : json) : Prop :=
  (name = JNull /\ path = JNull)
  \/ exists s, name = JString s /\ path = JString ("damg7374-a1-store/" ++ s).

(** The longest run of decimal digits in a text, and the number of its
    opening brackets and braces.  No integer of the text has more digits
    than the first, and no value of it is nested deeper than the second. *)
Fixpoint digit_run (s : string) : nat :=
  match s with
  | "" => 0
  | String c s' => if is_digit c then S (digit_run s') else 0
  end.

Fixpoint max_digit_run (s : string) : nat :=
  match s with
  | "" => 0
  | String _ s' => Nat.max (digit_run s) (max_digit_run s')
  end.

Fixpoint count_open (s : string) : nat :=
  match s with
  | "" => 0
  | String c s' =>
      (if ((c =? "[") || (c =? "{"))%char then 1 else 0) + count_open s'
  end.

(** ** The rest of the module *)

(** [transfer_attachment]: the body is the placeholder [...], so the call
    does nothing and returns [None]; nothing in the module calls it. *)
Definition transfer_attachment (source_file_path : string) : option string :=
  None.

(** ** What the loader and the entry point are checked against *)

(** The events that reach the storage layer. *)
Definition is_storage (e : event) : bool :=
  match e with
  | GetPostgresConnString | CreateEngine | CreateTables | Connect
  | ToSql _ _ => true
  | _ => false
  end.

(** What a run of the loader that succeeds leaves behind: for each file, in
    order, one log line per row, the write of the cleaned frame and the
    print of its columns. *)
Definition loader_trace (file_list : list (string * list RawRecord))
  : list event :=
  flat_map
    (fun fr => repeat (LogInfo "Fixing annotator metadata")
                      (List.length (snd fr))
               ++ [ToCsv "resources/cleaned_datasets/1.csv"; PrintColumns])%list
    file_list.

(** What [main] does once the frames are there.  The log line after each
    write is given up to the elapsed time it ends with. *)
Definition storage_plan (dataframes : datasets) : list event :=
  ([GetPostgresConnString; CreateEngine; CreateTables; Connect]
   ++ flat_map
        (fun fd => [ToSql (fst fd) "test_cases";
                    LogInfo ("Created table `test_cases` from " ++ fst fd)])
        dataframes
   ++ [LogInfo "Completed loading datasets to database"])%list.

(** A plan carried out step by step: a storage event is a call that may
    raise, any other event just happens. *)
Fixpoint run_plan (storage : event -> result unit) (plan : list event)
  : M unit :=
  match plan with
  | [] => ret tt
  | ev :: rest =>
      (if is_storage ev then ([ev], storage ev) else emit ev) ;;;
      run_plan storage rest
  end.

(** The cells of the tool-count column the cast accepts whatever the other
    cells of the column are: null, a list, a string that spells no number, a
    string of digits or an integer that float64 holds exactly. *)
Definition castable (v : json) : bool :=
  match v with
  | JNull | JArray _ => true
  | JInt z => float_exact z
  | JString s =>
      match floatify s with
      | None => true
      | Some _ => all_digits s && float_exact (Z_of_digits 0 s)
      end
  | JBool _ | JFloat _ | JObject _ => false
  end.

(** What serialising the frame and reading it back keeps as it is inside a
    list: no float (they are written with ten decimals), no integer beyond
    64 bits, no object. *)
Fixpoint plain_item (v : json) : bool :=
  match v with
  | JNull | JBool _ | JString _ => true
  | JInt z => ((int64_min <=? z) && (z <=? int64_max))%Z
  | JFloat _ => false
  | JArray items => forallb plain_item items
  | JObject _ => false
  end.

(** The cells of a metadata column that come back as they are whatever the
    other cells of the column hold: null, booleans, strings and lists of
    plain items.  (A column of integers turns into floats when one of its
    cells is null, and an object is spread over columns of its own.) *)
Definition plain_cell (v : json) : bool :=
  match v with
  | JNull | JBool _ | JString _ => true
  | JArray items => forallb plain_item items
  | JInt _ | JFloat _ | JObject _ => false
  end.

(** A cleaned row against the row it was read from: the same file name, the
    path computed from it, and the five metadata columns holding what the
    repaired metadata of that very row gives for the five keys (for the
    cells that do not depend on the rest of their column). *)
Definition cleaned_row (r : RawRecord) (row : Flat.t) : Prop :=
  Flat.file_name row = file_name r
  /\ prepend_bucket (file_name r) = Ok (Flat.file_path row)
  /\ exists metadata_json steps num_steps time_taken tools num_tools,
       fix_json_structure (annotator_metadata r) = Ok metadata_json
       /\ getitem metadata_json "Steps" = Ok steps
       /\ getitem metadata_json "Number of steps" = Ok num_steps
       /\ getitem metadata_json "How long did this take?" = Ok time_taken
       /\ getitem metadata_json "Tools" = Ok tools
       /\ getitem metadata_json "Number of tools" = Ok num_tools
       /\ (plain_cell steps = true -> Flat.metadata_steps row = steps)
       /\ (plain_cell num_steps = true ->
           Flat.metadata_num_steps row = num_steps)
       /\ (plain_cell time_taken = true ->
           Flat.metadata_time_taken row = time_taken)
       /\ (plain_cell tools = true -> Flat.metadata_tools row = tools)
       /\ (castable num_tools = true ->
           astype_Int64 (to_numeric num_tools)
           = Ok (Flat.metadata_num_tools row)).

(** The row [r] with another cell in its [file_path] column. *)
Definition with_file_path (path : json) (r : RawRecord) : RawRecord :=
  {| task_id := task_id r;
     question := question r;
     level := level r;
     answer := answer r;
     file_name := file_name r;
     file_path := path;
     annotator_metadata := annotator_metadata r |}.


(** ** Python literals *)

(** The texts Python's [repr] writes for the kind of value a metadata cell
    holds, which is what [fix_json_structure] is there to read: strings,
    integers, lists and dicts with string keys.  [PInt neg ds] is the
    integer with the decimal digits [ds] and a minus sign when [neg]
    holds. *)
Inductive py : Type :=
| PStr (s : string)
| PInt (neg : bool) (ds : string)
| PList (items : list py)
| PDict (d : list (string * py)).

Section PyInd.

Variable P : py -> Prop.
Hypothesis HStr : forall s, P (PStr s).
Hypothesis HInt : forall neg ds, P (PInt neg ds).
Hypothesis HList : forall items, Forall P items -> P (PList items).
Hypothesis HDict : forall d, Forall (fun kv => P (snd kv)) d -> P (PDict d).

(** Induction on a literal, with the property at hand for every item of a
    list and every value of a dict. *)
Fixpoint py_induction (p : py) : P p :=
  match p with
  | PStr s => HStr s
  | PInt neg ds => HInt neg ds
  | PList items =>
      HList ((fix go (l : list py) : Forall P l :=
                match l with
                | [] => Forall_nil P
                | x :: l' => Forall_cons x (py_induction x) (go l')
                end) items)
  | PDict d =>
      HDict ((fix go (l : list (string * py))
                : Forall (fun kv => P (snd kv)) l :=
                match l with
                | [] => Forall_nil _
                | (k, v) :: l' =>
                    Forall_cons (P := fun kv => P (snd kv)) (k, v)
                                (py_induction v) (go l')
                end) d)
  end.

End PyInd.

(** [sep.join(l)]. *)
Fixpoint join (sep : string) (l : list string) : string :=
  match l with
  | [] => ""
  | x :: l' =>
      match l' with
      | [] => x
      | _ => x ++ sep ++ join sep l'
      end
  end.

Definition quoted (q : ascii) (s : string) : string :=
  String q (s ++ String q "").

(** The text of a literal: items and pairs are separated by a comma and a
    blank, a key and its value by a colon and a blank; [str] writes a
    string. *)
Fixpoint py_text (str : string -> string) (p : py) : string :=
  match p with
  | PStr s => str s
  | PInt neg ds => (if neg then "-" else "") ++ ds
  | PList items => "[" ++ join ", " (map (py_text str) items) ++ "]"
  | PDict d =>
      "{" ++ join ", " (map (fun kv => str (fst kv) ++ ": "
                                       ++ py_text str (snd kv)) d) ++ "}"
  end.

(** [repr] of a string of printable ASCII characters without backslash:
    between double-quotes when it holds a single-quote and no double-quote,
    between single-quotes otherwise.  (A string that holds both quotes, a
    backslash or a character that is not printable is written with escapes;
    the literals the theorems are stated for hold none.) *)
Definition str_repr (s : string) : string :=
  if contains "'" s && negb (contains DQ s) then quoted dq s else quoted sq s.

(** [repr(p)]. *)
Definition py_repr (p : py) : string := py_text str_repr p.

(** The same literal as JSON writes it, every string between
    double-quotes. *)
Definition py_json (p : py) : string := py_text (quoted dq) p.

(** The value a literal denotes. *)
Fixpoint py_value (p : py) : json :=
  match p with
  | PStr s => JString s
  | PInt neg ds =>
      JInt (if neg then (- Z_of_digits 0 ds)%Z else Z_of_digits 0 ds)
  | PList items => JArray (map py_value items)
  | PDict d => JObject (map (fun kv => (fst kv, py_value (snd kv))) d)
  end.

(** The characters that [repr] writes as they are and that a JSON string
    holds as they are: the printable characters of ASCII, from the blank to
    the tilde, other than the double-quote and the backslash.  ([repr]
    writes a control character, a delete or a non-printable character
    beyond ASCII with a backslash, which the decoder reads as an escape or
    refuses.) *)
Definition json_char (c : ascii) : bool :=
  (c <=? "~")%char
  && (negb (c =? dq)%char && negb (c =? "\")%char && negb (c <? " ")%char).

Fixpoint json_text (s : string) : bool :=
  match s with
  | "" => true
  | String c s' => json_char c && json_text s'
  end.

(** The strings without any quote. *)
Definition plain_text (s : string) : bool :=
  json_text s && negb (contains "'" s).

(** The strings the second attempt of [fix_json_structure] copes with: every
    single-quote in them starts 's, 't or '(, and a string without
    single-quote, which [repr] writes between single-quotes, does not start
    with s, t or an opening parenthesis, as its opening quote would be taken
    for one of the three patterns. *)
Definition tier2_string (s : string) : bool :=
  json_text s && contractions_only s
  && (contains "'" s || negb (head_contraction s)).

(** The digits of an integer as [repr] writes them: a single zero, or
    digits that do not start with a zero. *)
Definition canonical (ds : string) : bool :=
  match ds with
  | "" => false
  | String c ds' =>
      if (c =? "0")%char then (ds' =? "")%string
      else is_digit c && digits_only ds'
  end.

Fixpoint distinct (keys : list string) : bool :=
  match keys with
  | [] => true
  | k :: ks => negb (existsb (String.eqb k) ks) && distinct ks
  end.

(** The literals whose strings and keys all satisfy [ok]; integers are
    canonical and of at most 4300 digits (Python refuses to read longer
    ones), and no dict has a key twice. *)
Fixpoint py_ok (ok : string -> bool) (p : py) : bool :=
  match p with
  | PStr s => ok s
  | PInt _ ds => canonical ds && (length ds <=? 4300)%nat
  | PList items => forallb (py_ok ok) items
  | PDict d =>
      distinct (map fst d)
      && forallb (fun kv => ok (fst kv) && py_ok ok (snd kv)) d
  end.

(** The literals with a string or a key that satisfies [hit]. *)
Fixpoint py_any (hit : string -> bool) (p : py) : bool :=
  match p with
  | PStr s => hit s
  | PInt _ _ => false
  | PList items => existsb (py_any hit) items
  | PDict d => existsb (fun kv => hit (fst kv) || py_any hit (snd kv)) d
  end.

(** A literal with a single-quote in one of its strings. *)
Definition has_apostrophe (p : py) : bool := py_any (contains "'") p.

(** How deep lists and dicts are nested. *)
Fixpoint py_depth (p : py) : nat :=
  match p with
  | PStr _ | PInt _ _ => 0
  | PList items => S (list_max (map py_depth items))
  | PDict d => S (list_max (map (fun kv => py_depth (snd kv)) d))
  end.

(** The literals [fix_json_structure] reads back, by its first attempt when
    no string holds a single-quote and by its second otherwise. *)
Definition repairable (p : py) : bool :=
  if has_apostrophe p
  then py_ok tier2_string p && sentinel_free (py_repr p)
  else py_ok plain_text p && negb (contains "TMP1" (py_repr p)).

(** What may follow a value inside a list or a dict, or nothing at all. *)
Definition closes (r : string) : bool :=
  match r with
  | "" => true
  | String c _ => ((c =? ",") || (c =? "]") || (c =? "}"))%char
  end.

(** The first character of a literal's text, whichever quote its strings
    are between. *)
Definition opens (c : ascii) : bool :=
  ((c =? dq) || (c =? sq) || (c =? "-") || is_digit c || (c =? "[")
   || (c =? "{"))%char.

(** A key of a dict with its value, as JSON writes them. *)
Definition pair_text (kv : string * py) : string :=
  quoted dq (fst kv) ++ ": " ++ py_json (snd kv).

(** The decoder reads the JSON text of [p] at the head of a text, gives the
    value of [p] and stops behind it, with any fuel of at least twice the
    length of the text. *)
Definition reads (p : py) : Prop :=
  forall rest n,
    closes rest = true -> 2 * length (py_json p) <= n ->
    scan_once n (py_json p ++ rest) = Some (py_value p, rest).

(** The text the first attempt hands to the decoder. *)
Definition py_tier1 (p : py) : string := swap_quotes (py_repr p).

(** ** Rows the loader can clean *)

(** The literals whose integers fit in 64 bits, as writing the frame
    requires. *)
Fixpoint py_small (p : py) : bool :=
  match p with
  | PStr _ => true
  | PInt neg ds =>
      let z := Z_of_digits 0 ds in
      let v := if neg then (- z)%Z else z in
      ((int64_min <=? v) && (v <=? int64_max))%Z
  | PList items => forallb py_small items
  | PDict d => forallb (fun kv => py_small (snd kv)) d
  end.

(** A row whose metadata is the text of a dict [fix_json_structure] reads
    back, with the five keys, integers of 64 bits and a tool count the cast
    accepts, and whose file name is a string or empty. *)
Definition cleanable (r : RawRecord) : Prop :=
  (exists d steps num_steps time_taken tools num_tools,
      annotator_metadata r = py_repr (PDict d)
      /\ repairable (PDict d) = true
      /\ py_depth (PDict d) <= 100
      /\ py_small (PDict d) = true
      /\ dict_get "Steps" d = Some steps
      /\ dict_get "Number of steps" d = Some num_steps
      /\ dict_get "How long did this take?" d = Some time_taken
      /\ dict_get "Tools" d = Some tools
      /\ dict_get "Number of tools" d = Some num_tools
      /\ castable (py_value num_tools) = true)
  /\ (file_name r = JNull \/ exists name, file_name r = JString name).

(** * Proofs *)

(** ** Strings *)

Lemma startswith_nil (s : string) : startswith "" s = true.
Proof. reflexivity. Qed.

Lemma startswith_cons (a b : ascii) (p t : string) :
  startswith (String a p) (String b t) = ((a =? b)%char && startswith p t).
Proof. reflexivity. Qed.

Lemma startswith_other (a b : ascii) (p t : string) :
  a <> b -> startswith (String a p) (String b t) = false.
Proof.
  intros H. rewrite startswith_cons. now destruct (Ascii.eqb_spec a b).
Qed.

Lemma startswith_app (p t : string) : startswith p (p ++ t) = true.
Proof.
  induction p as [|a p IH]; simpl.
  - reflexivity.
  - now rewrite Ascii.eqb_refl.
Qed.

Lemma contains_tail (p : string) (c : ascii) (s : string) :
  contains p (String c s) = false -> contains p s = false.
Proof.
  simpl. intros H. apply orb_false_iff in H. tauto.
Qed.

Lemma contains_head (p s : string) :
  contains p s = false -> startswith p s = false.
Proof.
  destruct s; simpl; intros H; apply orb_false_iff in H; tauto.
Qed.

Lemma contains_app_r (p u v : string) :
  contains p (u ++ v) = false -> contains p v = false.
Proof.
  induction u as [|c u IH]; simpl; auto.
  intros H. apply orb_false_iff in H. tauto.
Qed.

(** ** The replacement scan *)

Section Replace.

Variables old new : string.
Hypothesis old_not_empty : old <> "".

Lemma replace_unfold (s : string) :
  replace s old new = replace_from old new 0 s.
Proof. unfold replace. destruct old; [congruence | reflexivity]. Qed.

Lemma replace_from_skip (u t : string) :
  replace_from old new (length u) (u ++ t) = replace_from old new 0 t.
Proof. induction u as [|c u IH]; simpl; auto. Qed.

Lemma replace_nil : replace "" old new = "".
Proof. now rewrite replace_unfold. Qed.

(** An occurrence at the head is replaced and passed over. *)
Lemma replace_hit (t : string) :
  replace (old ++ t) old new = new ++ replace t old new.
Proof.
  rewrite !replace_unfold.
  pose proof (startswith_app old t) as Hp.
  pose proof (replace_from_skip (drop 1 old) t) as Hs.
  destruct old as [|a o]; [congruence|].
  simpl in *. rewrite Ascii.eqb_refl in *. simpl in *.
  now rewrite Hp, Hs.
Qed.

(** A character that starts no occurrence is copied. *)
Lemma replace_miss (c : ascii) (t : string) :
  startswith old (String c t) = false ->
  replace (String c t) old new = String c (replace t old new).
Proof.
  intros H. rewrite !replace_unfold. cbn [replace_from]. now rewrite H.
Qed.

(** A stretch in which no occurrence starts is copied. *)
Lemma replace_keep (w t : string) :
  (forall u c v, w = u ++ String c v ->
                 startswith old (String c v ++ t) = false) ->
  replace (w ++ t) old new = w ++ replace t old new.
Proof.
  induction w as [|c w IH]; intros H; [reflexivity|].
  change (String c w ++ t) with (String c (w ++ t)).
  rewrite replace_miss.
  - simpl. f_equal. apply IH. intros u c' v ->.
    apply (H (String c u)). reflexivity.
  - apply (H "" c w). reflexivity.
Qed.

End Replace.

(** ** Replacement on token sequences *)

Section Render.

Variable A : Type.
Variables old new : string.
Variables r r' : A -> string.

Lemma replace_render (l : list A) :
  old <> "" -> stage old new r r' l ->
  replace (render r l) old new = render r' l.
Proof.
  intros Hne H. induction H as [|a l Ha Ha' _ IH|a l Ha Hno _ IH]; simpl.
  - now apply replace_nil.
  - rewrite Ha, Ha', replace_hit by assumption. now rewrite IH.
  - rewrite Ha, replace_keep by assumption. now rewrite IH.
Qed.

End Render.

(** If a rendering keeps every character of [p] as it is and starts every
    other token with a character foreign to [p], an occurrence of [p] at the
    head of the rendered text is one of the plain text. *)
Lemma startswith_render (A : Type) (r r0 : A -> string) (p : string) :
  (forall a, (exists c, r a = String c "" /\ r0 a = String c "")
             \/ (exists x w, r a = String x w /\ char_in x p = false)) ->
  forall l, startswith p (render r l) = true ->
            startswith p (render r0 l) = true.
Proof.
  induction p as [|y p IH]; intros Hr l.
  - intros _. apply startswith_nil.
  - destruct l as [|a l]; simpl; [discriminate|].
    destruct (Hr a) as [(c & -> & ->)|(x & w & -> & Hx)]; simpl.
    + intros H. apply andb_true_iff in H. destruct H as [H1 H2].
      rewrite H1. simpl. apply IH; auto.
      intros b. destruct (Hr b) as [?|(x & w & E & Hx)]; [now left|right].
      exists x, w. split; auto. simpl in Hx.
      apply orb_false_iff in Hx. tauto.
    + simpl in Hx. apply orb_false_iff in Hx. destruct Hx as [Hx _].
      rewrite Ascii.eqb_sym, Hx. discriminate.
Qed.

Lemma keep_nil (old t : string) :
  forall u c v, "" = u ++ String c v ->
                startswith old (String c v ++ t) = false.
Proof. intros [|? ?] c v H; discriminate. Qed.

Lemma keep_cons (old t : string) (x : ascii) (w : string) :
  startswith old (String x (w ++ t)) = false ->
  (forall u c v, w = u ++ String c v ->
                 startswith old (String c v ++ t) = false) ->
  forall u c v, String x w = u ++ String c v ->
                startswith old (String c v ++ t) = false.
Proof.
  intros H0 H [|y u] c v E; simpl in E; injection E as -> ->.
  - exact H0.
  - eapply H. reflexivity.
Qed.

Ltac keep_stretch :=
  repeat (apply keep_cons; [try reflexivity|]); try apply keep_nil.

(** A character in front of a rendered text starts no sentinel unless the
    plain text has the sentinel there. *)
Lemma sentinel_miss (A : Type) (r r0 : A -> string) (y : ascii) (p : string) :
  (forall a, (exists c, r a = String c "" /\ r0 a = String c "")
             \/ (exists x w, r a = String x w /\ char_in x p = false)) ->
  forall (x : ascii) (l : list A),
    contains (String y p) (String x (render r0 l)) = false ->
    startswith (String y p) (String x (render r l)) = false.
Proof.
  intros Hr x l Hc. apply contains_head in Hc.
  destruct (startswith (String y p) (String x (render r l))) eqn:E; auto.
  simpl in E, Hc. apply andb_true_iff in E. destruct E as [E1 E2].
  rewrite E1 in Hc. simpl in Hc.
  erewrite startswith_render in Hc; eauto.
Qed.

(** ** Tier 1 as a character map *)

Lemma render_chars (f : ascii -> ascii) (s : string) :
  render (fun c => one (f c)) (chars s) = map_chars f s.
Proof. induction s as [|c s IH]; simpl; congruence. Qed.

Lemma render_one (s : string) : render one (chars s) = s.
Proof. induction s as [|c s IH]; simpl; congruence. Qed.

Lemma tier1_stage_a (l : list ascii) : stage DQ "TMP1" one tier1_a l.
Proof.
  induction l as [|c l IH]; [constructor|].
  unfold tier1_a. destruct (Ascii.eqb_spec c dq) as [->|Hc].
  - apply stage_hit; auto.
  - apply stage_keep; auto.
    + unfold tier1_a. now destruct (Ascii.eqb_spec c dq).
    + unfold one. keep_stretch. apply startswith_other. congruence.
Qed.

Lemma tier1_stage_b (l : list ascii) : stage "'" DQ tier1_a tier1_b l.
Proof.
  induction l as [|c l IH]; [constructor|].
  destruct (Ascii.eqb_spec c dq) as [->|Hd].
  - apply stage_keep; auto.
    change (tier1_a dq) with "TMP1". keep_stretch.
  - destruct (Ascii.eqb_spec c sq) as [->|Hs].
    + apply stage_hit; auto.
    + apply stage_keep; auto; unfold tier1_a, tier1_b.
      * destruct (Ascii.eqb_spec c dq); [tauto|].
        now destruct (Ascii.eqb_spec c sq).
      * destruct (Ascii.eqb_spec c dq); [tauto|].
        unfold one. keep_stretch. apply startswith_other.
        fold sq. congruence.
Qed.

Lemma tier1_b_heads (a : ascii) :
  (exists c, tier1_b a = String c "" /\ one a = String c "")
  \/ (exists x w, tier1_b a = String x w /\ char_in x "MP1" = false).
Proof.
  unfold tier1_b.
  destruct (Ascii.eqb_spec a dq); [right; now eexists _, _|].
  destruct (Ascii.eqb_spec a sq); [right; now eexists _, _|].
  left. now exists a.
Qed.

Lemma tier1_stage_c (l : list ascii) :
  contains "TMP1" (render one l) = false ->
  stage "TMP1" "'" tier1_b tier1_c l.
Proof.
  induction l as [|c l IH]; intros Hc; [constructor|].
  assert (Hl : contains "TMP1" (render one l) = false)
    by (eapply contains_tail; exact Hc).
  destruct (Ascii.eqb_spec c dq) as [->|Hd].
  - apply stage_hit; auto.
  - destruct (Ascii.eqb_spec c sq) as [->|Hs].
    + apply stage_keep; auto.
      change (tier1_b sq) with DQ. unfold DQ. keep_stretch.
    + apply stage_keep; auto; unfold tier1_b, tier1_c, swap_quote.
      * destruct (Ascii.eqb_spec c dq); [tauto|].
        now destruct (Ascii.eqb_spec c sq).
      * destruct (Ascii.eqb_spec c dq); [tauto|].
        destruct (Ascii.eqb_spec c sq); [tauto|].
        unfold one. keep_stretch.
        apply sentinel_miss with (r0 := one); [apply tier1_b_heads|exact Hc].
Qed.

Lemma tier1_text_swap (s : string) :
  contains "TMP1" s = false -> tier1_text s = map_chars swap_quote s.
Proof.
  intros H. unfold tier1_text.
  rewrite <- (render_one s) at 1.
  rewrite (replace_render (r := one) (r' := tier1_a)),
          (replace_render (r := tier1_a) (r' := tier1_b)),
          (replace_render (r := tier1_b) (r' := tier1_c)).
  - apply render_chars.
  - discriminate.
  - apply tier1_stage_c. now rewrite render_one.
  - discriminate.
  - apply tier1_stage_b.
  - discriminate.
  - apply tier1_stage_a.
Qed.

(** ** Tier 2 on tokens *)

Lemma tokens_other (x : ascii) (s : string) :
  x <> sq -> tokens (String x s) = Ch x :: tokens s.
Proof.
  intros H. cbn [tokens]. now destruct (Ascii.eqb_spec x sq).
Qed.

Lemma contraction_not_quote (x : ascii) (k : contraction) :
  contraction_of x = Some k -> x = contraction_char k /\ x <> sq.
Proof.
  unfold contraction_of.
  destruct (Ascii.eqb_spec x "s") as [->|]; [intros [= <-]; now split|].
  destruct (Ascii.eqb_spec x "t") as [->|]; [intros [= <-]; now split|].
  destruct (Ascii.eqb_spec x "(") as [->|]; [intros [= <-]; now split|].
  discriminate.
Qed.

Lemma contraction_char_of (k : contraction) :
  contraction_of (contraction_char k) = Some k.
Proof. now destruct k. Qed.

(** The cases of [tokens] on a non-empty text. *)
Lemma tokens_cases (c : ascii) (s : string) :
  (exists k s', c = sq /\ s = String (contraction_char k) s'
                /\ tokens (String c s) = Ap k :: tokens s'
                /\ tokens s = Ch (contraction_char k) :: tokens s')
  \/ (tokens (String c s) = Ch c :: tokens s
      /\ (c = sq -> head_contraction s = false)).
Proof.
  destruct (Ascii.eqb_spec c sq) as [->|Hc].
  - destruct s as [|x s'].
    + right. now split.
    + destruct (contraction_of x) as [k|] eqn:E.
      * left. exists k, s'. destruct (contraction_not_quote _ E) as [-> Hx].
        repeat split; auto.
        -- cbn [tokens]. rewrite Ascii.eqb_refl. now rewrite contraction_char_of.
        -- now apply tokens_other.
      * right. cbn [tokens head_contraction]. rewrite Ascii.eqb_refl, E.
        now split.
  - right. split; [now apply tokens_other | tauto].
Qed.

Lemma tokens_plain (s : string) : render (show none q0) (tokens s) = s.
Proof.
  induction s as [|c s IH]; [reflexivity|].
  destruct (tokens_cases c s) as [(k & s' & -> & -> & -> & E)|[-> _]].
  - rewrite E in IH. simpl in IH. injection IH as IH.
    simpl. unfold plain. simpl. now rewrite IH.
  - simpl. now rewrite IH.
Qed.

Lemma tokens_wf (s : string) : wf (tokens s).
Proof.
  induction s as [|c s IH]; [exact I|].
  destruct (tokens_cases c s) as [(k & s' & -> & -> & -> & E)|[-> Hh]].
  - rewrite E in IH. simpl in IH. simpl. tauto.
  - simpl. split; auto. intros Hc. specialize (Hh Hc).
    destruct s as [|x s']; [exact I|].
    destruct (tokens_cases x s') as [(k & s'' & -> & -> & -> & E)|[-> _]];
      [exact I|].
    simpl in Hh. now destruct (contraction_of x).
Qed.

Lemma tokens_requote (s : string) :
  render (show none q2) (tokens s) = requote s.
Proof.
  induction s as [|c s IH]; [reflexivity|].
  destruct (tokens_cases c s) as [(k & s' & -> & -> & -> & E)|[-> Hh]].
  - rewrite E in IH. simpl in IH. injection IH as Hk IH.
    cbn [render show none plain requote head_contraction].
    rewrite contraction_char_of, Ascii.eqb_refl. simpl. rewrite IH.
    f_equal. f_equal.
    destruct k; reflexivity.
  - cbn [render show requote]. rewrite IH. unfold one. simpl. f_equal.
    unfold q2, is_quote.
    destruct (Ascii.eqb_spec c sq) as [->|Hs].
    + rewrite Hh by reflexivity. reflexivity.
    + simpl. destruct (Ascii.eqb_spec c dq) as [->|]; reflexivity.
Qed.

Lemma only_refl (k : contraction) : only k k = true.
Proof. now destruct k. Qed.

(** The text after a single-quote token does not start with the character
    of a protected pattern. *)
Lemma wf_no_contraction (prot : contraction -> bool) (k : contraction)
  (l : list tok) (p : string) :
  wf (Ch sq :: l) ->
  startswith (String (contraction_char k) p) (render (show prot q0) l) = false.
Proof.
  intros [H _]. specialize (H eq_refl).
  destruct l as [|[x|j] l]; [reflexivity| |].
  - cbn [render show]. unfold one, q0. cbn [append].
    apply startswith_other.
    intros E. subst x. now rewrite contraction_char_of in H.
  - cbn [render show].
    destruct (prot j), j, k; reflexivity.
Qed.

(** Protecting pattern [k]: [replace] puts its sentinel in place of every
    token of that pattern. *)
Lemma protect_stage (k : contraction) (prot : contraction -> bool)
  (l : list tok) :
  prot k = false -> wf l ->
  stage (plain k) (sentinel k)
        (show prot q0) (show (either prot (only k)) q0) l.
Proof.
  intros Hk. induction l as [|[c|j] l IH]; intros Hwf; [constructor| |].
  - apply stage_keep; [reflexivity| |apply IH; apply Hwf].
    cbn [show]. unfold one, q0. keep_stretch.
    destruct (Ascii.eqb_spec c sq) as [->|Hc].
    + unfold plain. rewrite startswith_cons, Ascii.eqb_refl.
      cbn [andb append]. now apply wf_no_contraction.
    + apply startswith_other. unfold plain. congruence.
  - assert (Hl : stage (plain k) (sentinel k) (show prot q0)
                   (show (either prot (only k)) q0) l) by (apply IH, Hwf).
    destruct (only k j) eqn:E.
    + assert (j = k) as -> by (destruct k, j; easy).
      apply stage_hit; auto; cbn [show]; unfold either.
      * now rewrite Hk.
      * now rewrite only_refl, orb_true_r.
    + apply stage_keep; auto; cbn [show].
      * unfold either. now rewrite E, orb_false_r.
      * destruct (prot j), j, k; try discriminate E; cbn [sentinel plain];
          keep_stretch.
Qed.

Lemma quote_stage_1 (prot : contraction -> bool) (l : list tok) :
  stage DQ "'" (show prot q0) (show prot q1) l.
Proof.
  induction l as [|[c|j] l IH]; [constructor| |].
  - destruct (Ascii.eqb_spec c dq) as [->|Hc].
    + apply stage_hit; auto.
    + apply stage_keep; auto; cbn [show]; unfold one, q0, q1.
      * now destruct (Ascii.eqb_spec c dq).
      * keep_stretch. apply startswith_other. congruence.
  - apply stage_keep; auto. cbn [show].
    destruct (prot j), j; cbn [sentinel plain]; keep_stretch.
Qed.

Lemma quote_stage_2 (l : list tok) :
  stage "'" DQ (show all q1) (show all q2) l.
Proof.
  induction l as [|[c|j] l IH]; [constructor| |].
  - destruct (is_quote c) eqn:E.
    + apply stage_hit; auto; cbn [show]; unfold q1, q2; rewrite ?E.
      * unfold is_quote in E. destruct (Ascii.eqb_spec c dq); [reflexivity|].
        simpl in E. now apply Ascii.eqb_eq in E as ->.
      * reflexivity.
    + unfold is_quote in E. apply orb_false_iff in E. destruct E as [E1 E2].
      apply stage_keep; auto; cbn [show]; unfold q1, q2, is_quote.
      * now rewrite E1, E2.
      * rewrite E1. unfold one. keep_stretch. apply startswith_other.
        apply Ascii.eqb_neq in E2. fold sq. congruence.
  - apply stage_keep; auto. cbn [show all].
    destruct j; cbn [sentinel]; keep_stretch.
Qed.

Lemma show_heads (prot : contraction -> bool) (k : contraction) (a : tok) :
  (exists c, show prot q2 a = String c "" /\ show none q0 a = String c "")
  \/ (exists x w, show prot q2 a = String x w
                  /\ char_in x (drop 1 (sentinel k)) = false).
Proof.
  destruct a as [c|j]; cbn [show].
  - unfold q2. destruct (is_quote c) eqn:E.
    + right. exists dq, "". split; [reflexivity|]. now destruct k.
    + left. now exists c.
  - right. destruct (prot j), j, k; now eexists _, _.
Qed.

(** Restoring pattern [k]: when the plain text holds no sentinel of [k],
    [replace] finds exactly the tokens standing behind it. *)
Lemma restore_stage (k : contraction) (prot : contraction -> bool)
  (l : list tok) :
  prot k = false ->
  contains (sentinel k) (render (show none q0) l) = false ->
  stage (sentinel k) (plain k)
        (show (either prot (only k)) q2) (show prot q2) l.
Proof.
  intros Hk. induction l as [|[c|j] l IH]; intros Hc; [constructor| |].
  - assert (Hl : contains (sentinel k) (render (show none q0) l) = false)
      by (eapply contains_tail; exact Hc).
    apply stage_keep; auto. cbn [show]. unfold one. keep_stretch.
    unfold q2. destruct (is_quote c) eqn:E.
    + destruct k; reflexivity.
    + assert (Hs : sentinel k = String "T" (drop 1 (sentinel k)))
        by now destruct k.
      rewrite Hs. cbn [append].
      apply sentinel_miss with (r0 := show none q0); [apply show_heads|].
      rewrite <- Hs. exact Hc.
  - assert (Hl : contains (sentinel k) (render (show none q0) l) = false)
      by (eapply contains_app_r; exact Hc).
    destruct (only k j) eqn:E.
    + assert (j = k) as -> by (destruct k, j; easy).
      apply stage_hit; auto; cbn [show]; unfold either.
      * now rewrite only_refl, orb_true_r.
      * now rewrite Hk.
    + apply stage_keep; auto; cbn [show].
      * unfold either. now rewrite E, orb_false_r.
      * unfold either. rewrite E, orb_false_r.
        destruct (prot j), j, k; try discriminate E; cbn [sentinel plain];
          keep_stretch.
Qed.

Lemma render_ext (A : Type) (r r' : A -> string) (l : list A) :
  (forall a, r a = r' a) -> render r l = render r' l.
Proof.
  intros H. induction l as [|a l IH]; simpl; [reflexivity|].
  now rewrite H, IH.
Qed.

Lemma show_ext (p p' : contraction -> bool) (q : ascii -> ascii)
  (l : list tok) :
  (forall k, p k = p' k) -> render (show p q) l = render (show p' q) l.
Proof.
  intros H. apply render_ext. intros [c|k]; simpl; [reflexivity|].
  now rewrite H.
Qed.

Lemma sentinel_free_each (s : string) :
  sentinel_free s = true ->
  forall k, contains (sentinel k) s = false.
Proof.
  unfold sentinel_free. intros H k.
  apply andb_true_iff in H. destruct H as [H H3].
  apply andb_true_iff in H. destruct H as [H1 H2].
  apply negb_true_iff in H1, H2, H3. now destruct k.
Qed.

(** The protecting half of Tier 2, on any text. *)
Lemma tier2_protect (s : string) :
  s.["'s" => "TMP1"].["'t" => "TMP2"].["'(" => "TMP3"].[DQ => "'"].["'" => DQ]
  = render (show all q2) (tokens s).
Proof.
  pose proof (tokens_wf s) as Hwf.
  rewrite <- (tokens_plain s) at 1.
  rewrite (replace_render (old := plain CS) (new := sentinel CS)
             (r := show none q0) (r' := show (either none (only CS)) q0));
    [|discriminate|now apply protect_stage].
  rewrite (replace_render (old := plain CT) (new := sentinel CT)
             (r' := show (either (either none (only CS)) (only CT)) q0));
    [|discriminate|now apply protect_stage].
  rewrite (replace_render (old := plain CP) (new := sentinel CP)
             (r' := show (either (either (either none (only CS)) (only CT))
                                 (only CP)) q0));
    [|discriminate|now apply protect_stage].
  rewrite (replace_render (r' := show (either (either (either none (only CS))
                                                 (only CT)) (only CP)) q1));
    [|discriminate|apply quote_stage_1].
  rewrite show_ext with (p' := all) by (now intros []).
  rewrite (replace_render (r' := show all q2));
    [reflexivity|discriminate|apply quote_stage_2].
Qed.

(** The restoring half, on a text without sentinels. *)
Lemma tier2_restore (s : string) :
  sentinel_free s = true ->
  (render (show all q2) (tokens s))
    .["TMP2" => "'t"].["TMP1" => "'s"].["TMP3" => "'("]
  = render (show none q2) (tokens s).
Proof.
  intros Hs. pose proof (sentinel_free_each s Hs) as Hk.
  rewrite <- (tokens_plain s) in Hk.
  rewrite show_ext
    with (p' := either (either (either none (only CP)) (only CS)) (only CT))
    by (now intros []).
  rewrite (replace_render (old := sentinel CT) (new := plain CT)
             (r' := show (either (either none (only CP)) (only CS)) q2));
    [|discriminate|now apply restore_stage].
  rewrite (replace_render (old := sentinel CS) (new := plain CS)
             (r' := show (either none (only CP)) q2));
    [|discriminate|now apply restore_stage].
  rewrite (replace_render (old := sentinel CP) (new := plain CP)
             (r' := show none q2));
    [reflexivity|discriminate|now apply restore_stage].
Qed.

Lemma tier2_text_requote (s : string) :
  sentinel_free s = true -> tier2_text s = requote s.
Proof.
  intros Hs. unfold tier2_text.
  now rewrite tier2_protect, tier2_restore, tokens_requote.
Qed.

Lemma requote_id (s : string) : contractions_only s = true -> requote s = s.
Proof.
  induction s as [|c s IH]; [reflexivity|].
  cbn [contractions_only requote]. intros H.
  apply andb_true_iff in H. destruct H as [H1 H2].
  rewrite IH by assumption. f_equal.
  destruct (c =? sq)%char; [|reflexivity].
  simpl in H1. now rewrite H1.
Qed.

(** ** Tier 2 on any text *)

Lemma startswith_split (p s : string) :
  startswith p s = true -> s = p ++ drop (length p) s.
Proof.
  revert s. induction p as [|a p IH]; intros s H; [reflexivity|].
  destruct s as [|c s]; [discriminate|].
  cbn [startswith] in H. apply andb_true_iff in H. destruct H as [H1 H2].
  apply Ascii.eqb_eq in H1 as <-. cbn [length drop append].
  f_equal. now apply IH.
Qed.

Lemma contractions_only_app (u v : string) :
  contractions_only (u ++ v) = true -> contractions_only v = true.
Proof.
  induction u as [|c u IH]; [auto|]. cbn [append contractions_only].
  intros H. apply andb_true_iff in H. tauto.
Qed.

Lemma length_append (u v : string) : length (u ++ v) = length u + length v.
Proof. induction u as [|c u IH]; simpl; congruence. Qed.

(** Restoring a pattern keeps the property that every single-quote starts a
    protected pattern. *)
Lemma restore_contractions (k : contraction) (t : string) :
  contractions_only t = true ->
  contractions_only (t.[sentinel k => plain k]) = true.
Proof.
  remember (length t) as n eqn:En.
  assert (Hn : length t <= n) by lia. clear En. revert t Hn.
  assert (Hne : sentinel k <> "") by now destruct k.
  induction n as [|n IH]; intros t Hn H.
  - destruct t; [now rewrite replace_nil|cbn [length] in Hn; lia].
  - destruct t as [|c t']; [now rewrite replace_nil|].
    destruct (startswith (sentinel k) (String c t')) eqn:E.
    + apply startswith_split in E. rewrite E in H |- *.
      apply contractions_only_app in H.
      rewrite replace_hit by assumption.
      assert (Hl : length (drop (length (sentinel k)) (String c t')) <= n).
      { apply (f_equal length) in E. rewrite length_append in E.
        cbn [length] in E, Hn. destruct k; cbn [sentinel length] in *; lia. }
      specialize (IH _ Hl H).
      set (R := (drop (length (sentinel k)) (String c t'))
                  .[sentinel k => plain k]) in *.
      unfold plain. cbn [append contractions_only].
      rewrite IH, Ascii.eqb_refl. cbn [negb orb head_contraction].
      rewrite contraction_char_of.
      now destruct k.
    + rewrite replace_miss by assumption.
      cbn [contractions_only] in H |- *.
      apply andb_true_iff in H. destruct H as [H1 H2].
      cbn [length] in Hn. rewrite (IH t') by (assumption || lia).
      rewrite andb_true_r.
      destruct (c =? sq)%char; [|reflexivity]. cbn [negb orb] in H1 |- *.
      destruct t' as [|x t2]; [discriminate|]. cbn [head_contraction] in H1.
      destruct (contraction_of x) as [j|] eqn:Ej; [|discriminate].
      destruct (contraction_not_quote _ Ej) as [-> _].
      rewrite replace_miss
        by (first [assumption | destruct k, j; reflexivity]).
      cbn [head_contraction]. now rewrite contraction_char_of.
Qed.

Lemma protected_no_quote (l : list tok) :
  contractions_only (render (show all q2) l) = true.
Proof.
  induction l as [|[c|k] l IH]; [reflexivity| |].
  - cbn [render show]. unfold one. cbn [append contractions_only].
    rewrite IH, andb_true_r. unfold q2, is_quote.
    destruct (Ascii.eqb_spec c dq) as [->|]; [reflexivity|].
    destruct (Ascii.eqb_spec c sq) as [->|Hs]; [reflexivity|].
    cbn [orb]. now destruct (Ascii.eqb_spec c sq).
  - cbn [render show all]. destruct k; cbn [sentinel append contractions_only];
      now rewrite IH.
Qed.

(** Whatever the input, the only single-quotes in the Tier 2 text are those
    of restored patterns. *)
Lemma tier2_text_contractions (s : string) :
  contractions_only (tier2_text s) = true.
Proof.
  unfold tier2_text. rewrite tier2_protect.
  apply (restore_contractions CP), (restore_contractions CS),
        (restore_contractions CT), protected_no_quote.
Qed.

(** ** The decoder on a text with exchanged quotes *)

(** A test that does not tell the two quotes apart does not see the
    exchange. *)
Lemma swap_blind (f : ascii -> bool) (c : ascii) :
  f dq = f sq -> f (swap_quote c) = f c.
Proof.
  intros H. unfold swap_quote.
  destruct (Ascii.eqb_spec c dq) as [->|]; [now rewrite H|].
  destruct (Ascii.eqb_spec c sq) as [->|]; [now rewrite H|].
  reflexivity.
Qed.

Lemma swap_other (c : ascii) : is_quote c = false -> swap_quote c = c.
Proof.
  unfold is_quote, swap_quote. intros H. apply orb_false_iff in H.
  destruct H as [-> ->]. reflexivity.
Qed.

Lemma is_quote_blind (f : ascii -> bool) (c : ascii) :
  f c = true -> f dq = false -> f sq = false -> is_quote c = false.
Proof.
  intros Hc Hd Hs. unfold is_quote.
  destruct (Ascii.eqb_spec c dq) as [->|]; [congruence|].
  destruct (Ascii.eqb_spec c sq) as [->|]; [congruence|].
  reflexivity.
Qed.

Lemma skip_ws_swap (s : string) :
  skip_ws (swap_quotes s) = swap_quotes (skip_ws s).
Proof.
  induction s as [|c s IH]; [reflexivity|].
  cbn [swap_quotes map_chars skip_ws].
  rewrite (swap_blind is_ws) by reflexivity.
  destruct (is_ws c); [exact IH | reflexivity].
Qed.

Lemma skip_ws_quote (s : string) : has_quote (skip_ws s) = has_quote s.
Proof.
  induction s as [|c s IH]; [reflexivity|].
  cbn [skip_ws]. destruct (is_ws c) eqn:E; [|reflexivity].
  rewrite IH. cbn [has_quote].
  now rewrite (@is_quote_blind is_ws c).
Qed.

Lemma span_digits_swap (s : string) :
  span_digits (swap_quotes s)
  = (fst (span_digits s), swap_quotes (snd (span_digits s))).
Proof.
  induction s as [|c s IH]; [reflexivity|].
  cbn [swap_quotes map_chars span_digits].
  rewrite (swap_blind is_digit) by reflexivity.
  destruct (is_digit c) eqn:E; [|reflexivity].
  fold (swap_quotes s). rewrite IH.
  rewrite (@swap_other c (@is_quote_blind is_digit c E eq_refl eq_refl)).
  now destruct (span_digits s).
Qed.

Lemma span_digits_quote (s : string) :
  has_quote (snd (span_digits s)) = has_quote s.
Proof.
  induction s as [|c s IH]; [reflexivity|].
  cbn [span_digits]. destruct (is_digit c) eqn:E; [|reflexivity].
  destruct (span_digits s) as [ds r]. cbn [snd] in *. rewrite IH.
  cbn [has_quote]. now rewrite (@is_quote_blind is_digit c).
Qed.

Lemma startswith_swap (p s : string) :
  has_quote p = false -> startswith p (swap_quotes s) = startswith p s.
Proof.
  revert s. induction p as [|a p IH]; intros s Hp; [reflexivity|].
  cbn [has_quote] in Hp. apply orb_false_iff in Hp. destruct Hp as [Ha Hp].
  destruct s as [|c s]; [reflexivity|].
  cbn [swap_quotes map_chars startswith]. fold (swap_quotes s).
  rewrite IH by assumption. f_equal.
  apply (swap_blind (fun c => (a =? c)%char)).
  unfold is_quote in Ha. apply orb_false_iff in Ha.
  now destruct Ha as [-> ->].
Qed.

Lemma drop_swap (n : nat) (s : string) :
  drop n (swap_quotes s) = swap_quotes (drop n s).
Proof.
  revert s. induction n as [|n IH]; intros [|c s]; try reflexivity.
  apply IH.
Qed.

Lemma startswith_drop_quote (p s : string) :
  has_quote p = false -> startswith p s = true ->
  has_quote (drop (length p) s) = has_quote s.
Proof.
  revert s. induction p as [|a p IH]; intros s Hp H; [reflexivity|].
  destruct s as [|c s]; [discriminate|].
  cbn [has_quote] in Hp. apply orb_false_iff in Hp. destruct Hp as [Ha Hp].
  cbn [startswith] in H. apply andb_true_iff in H. destruct H as [H1 H2].
  apply Ascii.eqb_eq in H1 as <-.
  cbn [length drop has_quote]. rewrite Ha. now apply IH.
Qed.

Lemma quote_cases (c : ascii) : is_quote c = true -> c = dq \/ c = sq.
Proof.
  unfold is_quote. intros H. apply orb_true_iff in H.
  destruct H as [H|H]; apply Ascii.eqb_eq in H; auto.
Qed.

Lemma swap_cons (c : ascii) (r : string) :
  is_quote c = false ->
  swap_quotes (String c r) = String c (swap_quotes r).
Proof.
  intros Q. cbn [swap_quotes map_chars]. now rewrite (@swap_other c Q).
Qed.

(** Case analysis on the head of a text under the exchange: a quote, on
    which the scanner at hand computes, or a character the exchange
    keeps. *)
Ltac head_case c r Q Hs :=
  destruct (is_quote c) eqn:Q;
  [ destruct (quote_cases c Q); subst c; try reflexivity
  | pose proof (swap_cons c r Q) as Hs; rewrite ?Hs ].

Lemma scan_minus_swap (s : string) :
  scan_minus (swap_quotes s)
  = (fst (scan_minus s), swap_quotes (snd (scan_minus s))).
Proof.
  destruct s as [|c r]; [reflexivity|]. head_case c r Q Hs.
  unfold scan_minus. destruct (c =? "-")%char; cbn [fst snd]; now rewrite ?Hs.
Qed.

Lemma scan_minus_quote (s : string) :
  has_quote (snd (scan_minus s)) = has_quote s.
Proof.
  destruct s as [|c r]; [reflexivity|].
  unfold scan_minus. destruct (Ascii.eqb_spec c "-") as [->|]; reflexivity.
Qed.

Lemma scan_digits_swap (s : string) :
  scan_digits (swap_quotes s)
  = match scan_digits s with
    | Some (ds, r) => Some (ds, swap_quotes r)
    | None => None
    end.
Proof.
  destruct s as [|c r]; [reflexivity|]. head_case c r Q Hs.
  unfold scan_digits. destruct (c =? "0")%char; [reflexivity|].
  destruct (is_digit c); [|reflexivity].
  rewrite span_digits_swap. now destruct (span_digits r).
Qed.

Lemma scan_digits_quote (s ds r : string) :
  scan_digits s = Some (ds, r) -> has_quote r = has_quote s.
Proof.
  destruct s as [|c s]; [discriminate|]. unfold scan_digits.
  destruct (Ascii.eqb_spec c "0") as [->|_]; [now intros [= <- <-]|].
  destruct (is_digit c) eqn:E; [|discriminate].
  pose proof (span_digits_quote s) as H.
  destruct (span_digits s) as [ds' r']. intros [= <- <-].
  cbn [has_quote snd] in *. now rewrite (@is_quote_blind is_digit c).
Qed.

Lemma scan_int_swap (s : string) :
  scan_int (swap_quotes s)
  = match scan_int s with
    | Some (neg, ds, r) => Some (neg, ds, swap_quotes r)
    | None => None
    end.
Proof.
  unfold scan_int. rewrite scan_minus_swap.
  destruct (scan_minus s) as [neg s1]. cbn [fst snd].
  rewrite scan_digits_swap. now destruct (scan_digits s1) as [[ds r]|].
Qed.

Lemma scan_int_quote (s : string) (neg : bool) (ds r : string) :
  scan_int s = Some (neg, ds, r) -> has_quote r = has_quote s.
Proof.
  unfold scan_int. pose proof (scan_minus_quote s) as H.
  destruct (scan_minus s) as [neg' s1]. cbn [snd] in H.
  destruct (scan_digits s1) as [[ds' r']|] eqn:E; [|discriminate].
  intros [= <- <- <-]. rewrite <- H. eapply scan_digits_quote; eauto.
Qed.

Lemma scan_frac_swap (s : string) :
  scan_frac (swap_quotes s)
  = (fst (scan_frac s), swap_quotes (snd (scan_frac s))).
Proof.
  destruct s as [|c r]; [reflexivity|]. head_case c r Q Hs.
  unfold scan_frac. destruct (c =? ".")%char; cbn [fst snd]; rewrite ?Hs;
    [|reflexivity].
  rewrite span_digits_swap. destruct (span_digits r) as [[|d ds] r'];
    cbn [fst snd]; now rewrite ?Hs.
Qed.

Lemma scan_frac_quote (s : string) :
  has_quote (snd (scan_frac s)) = has_quote s.
Proof.
  destruct s as [|c r]; [reflexivity|]. unfold scan_frac.
  destruct (Ascii.eqb_spec c ".") as [->|]; [|reflexivity].
  pose proof (span_digits_quote r) as H.
  destruct (span_digits r) as [[|d ds] r']; cbn [snd] in *; [reflexivity|].
  now rewrite H.
Qed.

Lemma scan_exp_swap (s : string) :
  scan_exp (swap_quotes s)
  = (fst (scan_exp s), swap_quotes (snd (scan_exp s))).
Proof.
  destruct s as [|e r]; [reflexivity|]. head_case e r Q Hs.
  unfold scan_exp. destruct ((e =? "e")%char || (e =? "E")%char);
    cbn [fst snd]; rewrite ?Hs; [|reflexivity].
  destruct r as [|c r'].
  - cbn -[swap_quotes]. now rewrite ?Hs.
  - head_case c r' Qc Hc.
    + cbn -[swap_quotes]. now rewrite ?Hs.
    + cbn -[swap_quotes]. now rewrite ?Hs.
    + destruct ((c =? "-")%char || (c =? "+")%char).
      * rewrite span_digits_swap.
        destruct (span_digits r') as [[|d ds] r2]; cbn [fst snd];
          now rewrite ?Hs, ?Hc.
      * rewrite <- Hc, span_digits_swap.
        destruct (span_digits (String c r')) as [[|d ds] r2]; cbn [fst snd];
          now rewrite ?Hs.
Qed.

Lemma scan_exp_quote (s : string) :
  has_quote (snd (scan_exp s)) = has_quote s.
Proof.
  destruct s as [|e r]; [reflexivity|]. unfold scan_exp.
  destruct ((e =? "e")%char || (e =? "E")%char) eqn:Ee; [|reflexivity].
  assert (He : is_quote e = false).
  { apply orb_true_iff in Ee. destruct Ee as [H|H];
      apply Ascii.eqb_eq in H; now subst e. }
  destruct r as [|c r']; [reflexivity|].
  destruct ((c =? "-")%char || (c =? "+")%char) eqn:Ec.
  - assert (Hc : is_quote c = false).
    { apply orb_true_iff in Ec. destruct Ec as [H|H];
        apply Ascii.eqb_eq in H; now subst c. }
    pose proof (span_digits_quote r') as H.
    destruct (span_digits r') as [[|d ds] r2]; cbn [snd] in *; [reflexivity|].
    cbn [has_quote]. now rewrite H, He, Hc.
  - pose proof (span_digits_quote (String c r')) as H.
    destruct (span_digits (String c r')) as [[|d ds] r2]; cbn [snd] in *;
      [reflexivity|].
    rewrite H. cbn [has_quote]. now rewrite He.
Qed.

Lemma scan_number_swap (s : string) :
  scan_number (swap_quotes s)
  = match scan_number s with
    | Some (v, r) => Some (v, swap_quotes r)
    | None => None
    end.
Proof.
  unfold scan_number. rewrite scan_int_swap.
  destruct (scan_int s) as [[[neg ds] r]|]; [|reflexivity].
  rewrite scan_frac_swap. destruct (scan_frac r) as [frac r1]. cbn [fst snd].
  rewrite scan_exp_swap. destruct (scan_exp r1) as [exp r2]. cbn [fst snd].
  destruct frac, exp; reflexivity.
Qed.

Lemma scan_number_quote (s : string) (v : json) (r : string) :
  scan_number s = Some (v, r) -> has_quote r = has_quote s.
Proof.
  unfold scan_number.
  destruct (scan_int s) as [[[neg ds] r0]|] eqn:E; [|discriminate].
  apply scan_int_quote in E.
  pose proof (scan_frac_quote r0) as Hf.
  destruct (scan_frac r0) as [frac r1]. cbn [snd] in Hf.
  pose proof (scan_exp_quote r1) as He.
  destruct (scan_exp r1) as [exp r2]. cbn [snd] in He.
  destruct frac, exp; intros [= <- <-]; congruence.
Qed.

Lemma JSONObject_swap (fuel : nat) (s : string) (pairs : list (string * json))
  (x : json * string) :
  JSONObject fuel s pairs = Some x ->
  JSONObject fuel (swap_quotes s) pairs = None.
Proof.
  destruct fuel as [|n]; [discriminate|].
  destruct s as [|c r]; [discriminate|]. cbn [JSONObject].
  destruct (Ascii.eqb_spec c dq) as [->|]; [|discriminate].
  intros _. reflexivity.
Qed.

Lemma has_quote_cons (c : ascii) (r : string) :
  is_quote c = false -> has_quote (String c r) = has_quote r.
Proof. intros H. cbn [has_quote]. now rewrite H. Qed.

Lemma some_pair_inv (A B : Type) (a a' : A) (b b' : B) :
  Some (a, b) = Some (a', b') -> a' = a /\ b' = b.
Proof. now intros [= -> ->]. Qed.

(** The decoder on the exchanged text: it either fails, or it has read a
    stretch without quotes and gives the same value. *)
Lemma scan_swap (fuel : nat) :
  (forall s v r, scan_once fuel s = Some (v, r) ->
     scan_once fuel (swap_quotes s) = None
     \/ (scan_once fuel (swap_quotes s) = Some (v, swap_quotes r)
         /\ has_quote r = has_quote s))
  /\ (forall s values v r, JSONArray fuel s values = Some (v, r) ->
     JSONArray fuel (swap_quotes s) values = None
     \/ (JSONArray fuel (swap_quotes s) values = Some (v, swap_quotes r)
         /\ has_quote r = has_quote s)).
Proof.
  induction fuel as [|n [IHv IHa]]; [split; discriminate|]. split.
  - intros s v r0 H. destruct s as [|c r]; [discriminate|].
    head_case c r Q Hs.
    + left. reflexivity.
    + cbn in H. discriminate.
    + cbn [scan_once] in H |- *. rewrite <- !Hs.
      rewrite !startswith_swap, !drop_swap, scan_number_swap, !skip_ws_swap
        by reflexivity.
      pose proof (has_quote_cons c r Q) as Hq.
      assert (Hd : (c =? dq)%char = false)
        by (unfold is_quote in Q; now apply orb_false_iff in Q).
      rewrite Hd in *.
      destruct (c =? "{")%char.
      { pose proof (skip_ws_quote r) as Hw.
        destruct (skip_ws r) as [|c1 r1]; [discriminate|].
        cbn [swap_quotes map_chars]. fold (swap_quotes r1).
        rewrite (swap_blind (fun x => (x =? "}")%char)) by reflexivity.
        destruct (Ascii.eqb_spec c1 "}") as [->|].
        - destruct (some_pair_inv H) as [-> ->]. right. split; [reflexivity|].
          rewrite Hq, <- Hw. reflexivity.
        - left. apply JSONObject_swap in H. exact H. }
      destruct (c =? "[")%char.
      { pose proof (skip_ws_quote r) as Hw.
        destruct (skip_ws r) as [|c1 r1]; [discriminate|].
        cbn [swap_quotes map_chars]. fold (swap_quotes r1).
        rewrite (swap_blind (fun x => (x =? "]")%char)) by reflexivity.
        destruct (Ascii.eqb_spec c1 "]") as [->|].
        - destruct (some_pair_inv H) as [-> ->]. right. split; [reflexivity|].
          rewrite Hq, <- Hw. reflexivity.
        - destruct (IHa _ _ _ _ H) as [E|[E E']]; [now left|right].
          split; [exact E|]. now rewrite E', Hw. }
      destruct (startswith "null" (String c r)) eqn:E1.
      { destruct (some_pair_inv H) as [-> ->]. right. split; [reflexivity|].
        now apply (@startswith_drop_quote "null"). }
      destruct (startswith "true" (String c r)) eqn:E2.
      { destruct (some_pair_inv H) as [-> ->]. right. split; [reflexivity|].
        now apply (@startswith_drop_quote "true"). }
      destruct (startswith "false" (String c r)) eqn:E3.
      { destruct (some_pair_inv H) as [-> ->]. right. split; [reflexivity|].
        now apply (@startswith_drop_quote "false"). }
      destruct (scan_number (String c r)) as [[v' r']|] eqn:E4.
      { destruct (some_pair_inv H) as [-> ->]. right. split; [reflexivity|].
        eapply scan_number_quote; eauto. }
      destruct (startswith "NaN" (String c r)) eqn:E5.
      { destruct (some_pair_inv H) as [-> ->]. right. split; [reflexivity|].
        now apply (@startswith_drop_quote "NaN"). }
      destruct (startswith "Infinity" (String c r)) eqn:E6.
      { destruct (some_pair_inv H) as [-> ->]. right. split; [reflexivity|].
        now apply (@startswith_drop_quote "Infinity"). }
      destruct (startswith "-Infinity" (String c r)) eqn:E7; [|discriminate].
      destruct (some_pair_inv H) as [-> ->]. right. split; [reflexivity|].
      now apply (@startswith_drop_quote "-Infinity").
  - intros s values v r0 H. cbn [JSONArray] in H |- *.
    destruct (scan_once n s) as [[value r1]|] eqn:E; [|discriminate].
    destruct (IHv _ _ _ E) as [->|[-> Hq]]; [now left|].
    rewrite skip_ws_swap. pose proof (skip_ws_quote r1) as Hw.
    destruct (skip_ws r1) as [|c r2]; [discriminate|].
    cbn [swap_quotes map_chars]. fold (swap_quotes r2).
    rewrite (swap_blind (fun x => (x =? "]")%char)) by reflexivity.
    rewrite (swap_blind (fun x => (x =? ",")%char)) by reflexivity.
    destruct (Ascii.eqb_spec c "]") as [->|].
    + destruct (some_pair_inv H) as [-> ->]. right. split; [reflexivity|].
      rewrite <- Hq, <- Hw. reflexivity.
    + destruct (Ascii.eqb_spec c ",") as [->|]; [|discriminate].
      rewrite skip_ws_swap.
      destruct (IHa _ _ _ _ H) as [E'|[E' E'']]; [now left|right].
      split; [exact E'|].
      rewrite E'', skip_ws_quote, <- Hq, <- Hw. reflexivity.
Qed.

Lemma length_swap (s : string) : length (swap_quotes s) = length s.
Proof.
  unfold swap_quotes. induction s as [|c s IH]; simpl; congruence.
Qed.

Lemma swap_no_quote (s : string) : has_quote s = false -> swap_quotes s = s.
Proof.
  induction s as [|c s IH]; [reflexivity|]. cbn [has_quote].
  intros H. apply orb_false_iff in H. destruct H as [H1 H2].
  rewrite swap_cons by assumption. now rewrite IH.
Qed.

(** A text that is JSON and holds a quote is no JSON after the exchange. *)
Lemma json_loads_swap (s : string) (v : json) :
  json_loads s = Ok v -> has_quote s = true ->
  json_loads (swap_quotes s) = Raise JSONDecodeError.
Proof.
  unfold json_loads, json_fuel. intros H Hq.
  rewrite length_swap, skip_ws_swap.
  destruct (scan_once (2 * length s + 2) (skip_ws s)) as [[v' r]|] eqn:E;
    [|discriminate].
  destruct (proj1 (scan_swap _) _ _ _ E) as [->|[-> Hr]]; [reflexivity|].
  exfalso. rewrite skip_ws_quote in Hr.
  pose proof (skip_ws_quote r) as Hw.
  destruct (skip_ws r); [|discriminate]. cbn in Hw. congruence.
Qed.


(** ** The fuel of the decoder is enough *)

Lemma skip_ws_length (s : string) : length (skip_ws s) <= length s.
Proof.
  induction s as [|c s IH]; [reflexivity|]. cbn [skip_ws].
  destruct (is_ws c); cbn [length]; lia.
Qed.

Lemma span_digits_length (s : string) :
  length (snd (span_digits s)) <= length s.
Proof.
  induction s as [|c s IH]; [reflexivity|]. cbn [span_digits].
  destruct (is_digit c); [|reflexivity].
  destruct (span_digits s). cbn [snd length] in *. lia.
Qed.

Lemma drop_length (p s : string) :
  startswith p s = true -> length (drop (length p) s) + length p = length s.
Proof.
  revert s. induction p as [|a p IH]; intros s H; [cbn; lia|].
  destruct s as [|c s]; [discriminate|].
  cbn [startswith] in H. apply andb_true_iff in H. destruct H as [_ H].
  cbn [length drop]. specialize (IH s H). lia.
Qed.

Lemma prepend_length (chunk : string) (x : option (string * string))
  (str r : string) :
  prepend chunk x = Some (str, r) -> exists str', x = Some (str', r).
Proof.
  destruct x as [[str' r']|]; [|discriminate].
  intros [= _ <-]. now exists str'.
Qed.

Lemma scanstring_length (s str r : string) :
  scanstring s = Some (str, r) -> length r < length s.
Proof.
  remember (length s) as n eqn:En.
  assert (Hn : length s <= n) by lia. clear En.
  revert s str r Hn. induction n as [|n IH]; intros s str r Hn H.
  - destruct s; [discriminate|cbn [length] in Hn; lia].
  - destruct s as [|c s1]; [discriminate|]. cbn [length] in Hn.
    cbn [scanstring] in H.
    destruct (c =? dq)%char; [injection H as _ <-; cbn [length]; lia|].
    destruct (c <? " ")%char; [discriminate|].
    destruct (c =? "\")%char.
    + destruct s1 as [|e s2]; [discriminate|]. cbn [length] in Hn |- *.
      destruct (e =? "u")%char.
      * destruct s2 as [|h1 [|h2 [|h3 [|h4 s3]]]]; try discriminate.
        cbn [length] in Hn |- *.
        destruct (hex4 h1 h2 h3 h4) as [uni|]; [|discriminate].
        destruct (is_high_surrogate uni && startswith "\u" s3).
        -- destruct s3 as [|b1 [|b2 [|g1 [|g2 [|g3 [|g4 s4]]]]]];
             try discriminate.
           destruct (hex4 g1 g2 g3 g4) as [uni2|]; [|discriminate].
           destruct (is_low_surrogate uni2);
             apply prepend_length in H; destruct H as [str' H];
             apply IH in H; cbn [length] in *; lia.
        -- apply prepend_length in H. destruct H as [str' H].
           apply IH in H; lia.
      * destruct (simple_escape e); [|discriminate].
        apply prepend_length in H. destruct H as [str' H].
        apply IH in H; lia.
    + apply prepend_length in H. destruct H as [str' H].
      apply IH in H; cbn [length]; lia.
Qed.

Lemma scan_number_length (s : string) (v : json) (r : string) :
  scan_number s = Some (v, r) -> length r < length s.
Proof.
  unfold scan_number, scan_int.
  assert (Hm : length (snd (scan_minus s)) <= length s).
  { destruct s as [|c s]; [reflexivity|]. unfold scan_minus.
    destruct (c =? "-")%char; cbn [snd length]; lia. }
  destruct (scan_minus s) as [neg s1]. cbn [snd] in Hm.
  destruct (scan_digits s1) as [[ds r0]|] eqn:E; [|discriminate].
  assert (Hd : length r0 < length s1).
  { destruct s1 as [|c s1]; [discriminate|]. unfold scan_digits in E.
    destruct (c =? "0")%char; [injection E as _ <-; cbn [length]; lia|].
    destruct (is_digit c); [|discriminate].
    pose proof (span_digits_length s1) as H.
    destruct (span_digits s1). injection E as _ <-. cbn [snd length] in *.
    lia. }
  assert (Hf : length (snd (scan_frac r0)) <= length r0).
  { destruct r0 as [|c r0]; [reflexivity|]. unfold scan_frac.
    destruct (c =? ".")%char; [|reflexivity].
    pose proof (span_digits_length r0) as H.
    destruct (span_digits r0) as [[|d ds'] r']; cbn [snd length] in *; lia. }
  destruct (scan_frac r0) as [frac r1]. cbn [snd] in Hf.
  assert (He : length (snd (scan_exp r1)) <= length r1).
  { destruct r1 as [|e r1]; [reflexivity|]. unfold scan_exp.
    destruct ((e =? "e")%char || (e =? "E")%char); [|reflexivity].
    destruct r1 as [|c r1]; [reflexivity|].
    destruct ((c =? "-")%char || (c =? "+")%char).
    - pose proof (span_digits_length r1) as H.
      destruct (span_digits r1) as [[|d ds'] r']; cbn [snd length] in *; lia.
    - pose proof (span_digits_length (String c r1)) as H.
      destruct (span_digits (String c r1)) as [[|d ds'] r'];
        cbn [snd length] in *; lia. }
  destruct (scan_exp r1) as [exp r2]. cbn [snd] in He.
  destruct frac, exp; intros [= _ <-]; lia.
Qed.

(** A value that is read with some fuel has consumed characters, and is
    read alike with any fuel of at least twice their number. *)
Lemma scan_fuel (n : nat) :
  (forall s v r, scan_once n s = Some (v, r) ->
     length r < length s
     /\ forall m, 2 * (length s - length r) <= m ->
                  scan_once m s = Some (v, r))
  /\ (forall s values v r, JSONArray n s values = Some (v, r) ->
     length r < length s
     /\ forall m, 2 * (length s - length r) <= m ->
                  JSONArray m s values = Some (v, r))
  /\ (forall s pairs v r, JSONObject n s pairs = Some (v, r) ->
     length r < length s
     /\ forall m, 2 * (length s - length r) <= m ->
                  JSONObject m s pairs = Some (v, r)).
Proof.
  induction n as [|n (IHv & IHa & IHo)];
    [split; [|split]; discriminate|].
  split; [|split].
  - intros s v r0 H. destruct s as [|c r]; [discriminate|].
    cbn [scan_once] in H.
    destruct (c =? dq)%char eqn:E0.
    { destruct (scanstring r) as [[str r']|] eqn:Es; [|discriminate].
      pose proof (scanstring_length _ Es) as Hl. injection H as <- <-.
      split; [cbn [length]; lia|].
      intros [|m] Hm; [cbn [length] in Hm; lia|].
      cbn [scan_once]. now rewrite E0, Es. }
    destruct (c =? "{")%char eqn:E1.
    { pose proof (skip_ws_length r) as Hw.
      destruct (skip_ws r) as [|c1 r1] eqn:Er; [discriminate|].
      cbn [length] in Hw.
      destruct (c1 =? "}")%char eqn:E2.
      - injection H as <- <-. split; [cbn [length]; lia|].
        intros [|m] Hm; [cbn [length] in Hm; lia|].
        cbn [scan_once]. now rewrite E0, E1, Er, E2.
      - destruct (IHo _ _ _ _ H) as [Hl Hm']. cbn [length] in Hl.
        split; [cbn [length]; lia|].
        intros [|m] Hm; [cbn [length] in Hm; lia|].
        cbn [scan_once]. rewrite E0, E1, Er, E2. apply Hm'.
        cbn [length] in *. lia. }
    destruct (c =? "[")%char eqn:E2.
    { pose proof (skip_ws_length r) as Hw.
      destruct (skip_ws r) as [|c1 r1] eqn:Er; [discriminate|].
      cbn [length] in Hw.
      destruct (c1 =? "]")%char eqn:E3.
      - injection H as <- <-. split; [cbn [length]; lia|].
        intros [|m] Hm; [cbn [length] in Hm; lia|].
        cbn [scan_once]. now rewrite E0, E1, E2, Er, E3.
      - destruct (IHa _ _ _ _ H) as [Hl Hm']. cbn [length] in Hl.
        split; [cbn [length]; lia|].
        intros [|m] Hm; [cbn [length] in Hm; lia|].
        cbn [scan_once]. rewrite E0, E1, E2, Er, E3. apply Hm'.
        cbn [length] in *. lia. }
    assert (Hrest : forall m, scan_once (S m) (String c r) = Some (v, r0)).
    { intros m. cbn [scan_once]. now rewrite E0, E1, E2. }
    assert (Hl : length r0 < length (String c r));
      [|split; [exact Hl|intros [|m] Hm; [lia|apply Hrest]]].
    clear Hrest.
    destruct (startswith "null" (String c r)) eqn:L1.
    { destruct (some_pair_inv H) as [_ ->]. pose proof (drop_length "null" _ L1) as Hd.
      cbn [length] in *. lia. }
    destruct (startswith "true" (String c r)) eqn:L2.
    { destruct (some_pair_inv H) as [_ ->]. pose proof (drop_length "true" _ L2) as Hd.
      cbn [length] in *. lia. }
    destruct (startswith "false" (String c r)) eqn:L3.
    { destruct (some_pair_inv H) as [_ ->]. pose proof (drop_length "false" _ L3) as Hd.
      cbn [length] in *. lia. }
    destruct (scan_number (String c r)) as [[v' r']|] eqn:L4.
    { destruct (some_pair_inv H) as [_ ->]. now apply scan_number_length in L4. }
    destruct (startswith "NaN" (String c r)) eqn:L5.
    { destruct (some_pair_inv H) as [_ ->]. pose proof (drop_length "NaN" _ L5) as Hd.
      cbn [length] in *. lia. }
    destruct (startswith "Infinity" (String c r)) eqn:L6.
    { destruct (some_pair_inv H) as [_ ->]. pose proof (drop_length "Infinity" _ L6) as Hd.
      cbn [length] in *. lia. }
    destruct (startswith "-Infinity" (String c r)) eqn:L7; [|discriminate].
    destruct (some_pair_inv H) as [_ ->]. pose proof (drop_length "-Infinity" _ L7) as Hd.
    cbn [length] in *. lia.
  - intros s values v r0 H. cbn [JSONArray] in H.
    destruct (scan_once n s) as [[value r1]|] eqn:E; [|discriminate].
    destruct (IHv _ _ _ E) as [Hl Hv].
    pose proof (skip_ws_length r1) as Hw.
    destruct (skip_ws r1) as [|c r2] eqn:Er; [discriminate|].
    cbn [length] in Hw.
    destruct (c =? "]")%char eqn:E1.
    + injection H as <- <-. split; [lia|].
      intros [|m] Hm; [lia|]. cbn [JSONArray].
      rewrite Hv by lia. now rewrite Er, E1.
    + destruct (c =? ",")%char eqn:E2; [|discriminate].
      pose proof (skip_ws_length r2) as Hw2.
      destruct (IHa _ _ _ _ H) as [Hl' Ha]. split; [lia|].
      intros [|m] Hm; [lia|]. cbn [JSONArray].
      rewrite Hv by lia. rewrite Er, E1, E2. apply Ha. lia.
  - intros s pairs v r0 H. destruct s as [|c r]; [discriminate|].
    cbn [JSONObject] in H.
    destruct (c =? dq)%char eqn:E0; [|discriminate].
    destruct (scanstring r) as [[key r1]|] eqn:Es; [|discriminate].
    pose proof (scanstring_length _ Es) as Hs.
    pose proof (skip_ws_length r1) as Hw1.
    destruct (skip_ws r1) as [|c1 r2] eqn:Er1; [discriminate|].
    cbn [length] in Hw1.
    destruct (c1 =? ":")%char eqn:E1; [|discriminate].
    pose proof (skip_ws_length r2) as Hw2.
    destruct (scan_once n (skip_ws r2)) as [[value r3]|] eqn:Ev;
      [|discriminate].
    destruct (IHv _ _ _ Ev) as [Hl Hv].
    pose proof (skip_ws_length r3) as Hw3.
    destruct (skip_ws r3) as [|c2 r4] eqn:Er3; [discriminate|].
    cbn [length] in Hw3.
    destruct (c2 =? "}")%char eqn:E2.
    + injection H as <- <-. split; [cbn [length]; lia|].
      intros [|m] Hm; [cbn [length] in Hm; lia|]. cbn [JSONObject].
      rewrite E0, Es, Er1, E1, Hv by (cbn [length] in Hm; lia).
      now rewrite Er3, E2.
    + destruct (c2 =? ",")%char eqn:E3; [|discriminate].
      pose proof (skip_ws_length r4) as Hw4.
      destruct (IHo _ _ _ _ H) as [Hl' Ho]. split; [cbn [length]; lia|].
      intros [|m] Hm; [cbn [length] in Hm; lia|]. cbn [JSONObject].
      rewrite E0, Es, Er1, E1, Hv by (cbn [length] in Hm; lia).
      rewrite Er3, E2, E3. apply Ho. cbn [length] in Hm. lia.
Qed.

(** [json_loads] never fails for want of fuel: a text that some amount of
    fuel reads to its end is read by [json_loads]. *)
Lemma json_loads_complete (s : string) (n : nat) (v : json) (r : string) :
  scan_once n (skip_ws s) = Some (v, r) -> skip_ws r = "" ->
  json_loads s = Ok v.
Proof.
  intros H Hr. unfold json_loads, json_fuel.
  destruct (proj1 (scan_fuel n) _ _ _ H) as [_ Hm].
  rewrite Hm, Hr; [reflexivity|].
  pose proof (skip_ws_length s). lia.
Qed.

(** ** The entry point *)

(** When the loader raises, [main] ends with the same exception and has done
    nothing more than the loader. *)
Lemma main_stops_with_loader (storage : event -> result unit)
  (file_list : list (string * list RawRecord)) (e : exn) :
  outcome (load_datasets_from_filesystem file_list) = Raise e ->
  main storage file_list
  = (trace (load_datasets_from_filesystem file_list), Raise e).
Proof.
  unfold main, outcome, trace, mbind.
  destruct (load_datasets_from_filesystem file_list) as [t [dfs|e']];
    cbn [fst snd]; [discriminate|].
  now intros [= ->].
Qed.

(** ** The tool count *)

Lemma digit_not (c x : ascii) :
  is_digit c = true -> is_digit x = false -> (c =? x)%char = false.
Proof.
  intros Hc Hx. destruct (Ascii.eqb_spec c x) as [->|]; congruence.
Qed.

Lemma span_digits_all (s : string) :
  digits_only s = true -> span_digits s = (s, "").
Proof.
  induction s as [|c s IH]; [reflexivity|]. cbn [digits_only span_digits].
  intros H. apply andb_true_iff in H. destruct H as [-> H].
  now rewrite (IH H).
Qed.

Lemma append_empty (s : string) : s ++ "" = s.
Proof. induction s as [|c s IH]; simpl; congruence. Qed.

Lemma floatify_digits (ds : string) :
  all_digits ds = true -> floatify ds = Some (Num (Z_of_digits 0 ds) 0).
Proof.
  unfold all_digits. intros H. apply andb_true_iff in H.
  destruct H as [Hne Hd]. destruct ds as [|c ds]; [discriminate|].
  pose proof Hd as Hd'. cbn [digits_only] in Hd'.
  apply andb_true_iff in Hd'. destruct Hd' as [Hc _].
  assert (Hl : lower c = c).
  { unfold lower. destruct (("A" <=? c)%char && (c <=? "Z")%char) eqn:E;
      [|reflexivity].
    exfalso. unfold is_digit in Hc.
    apply andb_true_iff in Hc, E. destruct Hc as [_ H9], E as [HA _].
    unfold Ascii.leb, Ascii.compare in *.
    destruct (N.compare_spec (N_of_ascii c) (N_of_ascii "9"));
      destruct (N.compare_spec (N_of_ascii "A") (N_of_ascii c));
      try discriminate; cbn in *; lia. }
  unfold floatify, special_number.
  cbn [map_chars]. rewrite Hl. cbn [String.eqb].
  rewrite !(digit_not c) by (assumption || reflexivity). cbn [andb orb].
  assert (Hs : is_space c = false).
  { unfold is_space, is_ws.
    now rewrite !(digit_not c) by (assumption || reflexivity). }
  cbn [lstrip]. rewrite Hs. unfold scan_decimal, scan_sign.
  rewrite !(digit_not c) by (assumption || reflexivity).
  rewrite (span_digits_all _ Hd). rewrite append_empty.
  cbn [all_space length Z.of_nat Z.sub Z.opp]. reflexivity.
Qed.









(** * The claims *)

(** ** C1: the single-quoted scenario *)

(** C1, as stated, fails: on the scenario's input the Tier 1 text is not
    JSON (the value that was double-quoted is single-quoted after the
    exchange), so Tier 1 does not succeed. *)
Lemma C1_tier1_does_not_parse :
  ~ (exists v, json_loads (tier1_text C1_input) = Ok v).
Proof. intros [v H]. vm_compute in H. discriminate. Qed.

(** C1, amended: on the scenario's input Tier 1 raises the decode error,
    the Tier 2 text parses, and [preprocess_annotator_metadata] returns the
    record of the scenario. *)
Theorem C1_single_quoted_scenario :
  json_loads (tier1_text C1_input) = Raise JSONDecodeError
  /\ fix_json_structure C1_input = json_loads (tier2_text C1_input)
  /\ preprocess_annotator_metadata C1_input
     = ([LogInfo "Fixing annotator metadata"], Ok C1_record).
Proof. repeat split; vm_compute; reflexivity. Qed.

(** ** C2: what Tier 2 computes *)

(** C2, as stated, fails: Tier 2 does not exchange the quotes.  A
    double-quote stays a double-quote in the text handed to the decoder,
    where the exchange the claim describes would make it a single-quote. *)
Lemma C2_double_quote_is_kept :
  tier2_text DQ <> tier2_claimed DQ
  /\ contains DQ DQ = true
  /\ contains SQ (tier2_text DQ) = false.
Proof. split; [|split]; vm_compute; congruence. Qed.

(** C2, amended: Tier 2 is tried exactly when the first [json.loads] raises
    the decode error; its text protects the three patterns, turns every
    double-quote into a single-quote and then every single-quote into a
    double-quote, and restores the patterns.  Whatever the input, the only
    single-quotes of the text handed to the decoder are those that start a
    restored pattern; on a text without the sentinels that text is the input
    in which each single-quote that does not start a protected pattern has
    become a double-quote and nothing else has changed. *)
Theorem C2_tier2_text (metadata : string) :
  (forall v, json_loads (tier1_text metadata) = Ok v ->
             fix_json_structure metadata = Ok v)
  /\ (json_loads (tier1_text metadata) = Raise JSONDecodeError ->
      fix_json_structure metadata = json_loads (tier2_text metadata))
  /\ contractions_only (tier2_text metadata) = true
  /\ (sentinel_free metadata = true ->
      tier2_text metadata = requote metadata).
Proof.
  unfold fix_json_structure. split; [|split; [|split]].
  - now intros v ->.
  - now intros ->.
  - apply tier2_text_contractions.
  - apply tier2_text_requote.
Qed.

Lemma C2_tier2_text_witness :
  fix_json_structure C4_input = json_loads (tier2_text C4_input)
  /\ tier2_text C4_input = requote C4_input
  /\ fix_json_structure "[1]" = Ok (JArray [JInt 1]).
Proof.
  destruct (C2_tier2_text C4_input) as (_ & H2 & _ & H3).
  destruct (C2_tier2_text "[1]") as (H1 & _).
  split; [|split].
  - apply H2. vm_compute. reflexivity.
  - apply H3. vm_compute. reflexivity.
  - apply H1. vm_compute. reflexivity.
Defined.

(** ** C3: double-quoted JSON with contractions *)

(** C3, as stated, fails: a well-formed double-quoted metadata text whose
    only single-quote starts ['t] is not recovered when a step also holds
    the text of a sentinel; the restoring [replace] rewrites it. *)
Lemma C3_sentinel_in_text :
  ~ (forall metadata v,
        json_loads metadata = Ok v ->
        contractions_only metadata = true ->
        fix_json_structure metadata = Ok v).
Proof.
  intros H. specialize (H C3_input C3_value).
  assert (E : fix_json_structure C3_input = Ok C3_value)
    by (apply H; vm_compute; reflexivity).
  vm_compute in E. discriminate.
Qed.

(** What comes back on that input: the step reads ['s] where the data had
    the sentinel. *)
Lemma C3_sentinel_rewritten :
  json_loads C3_input = Ok C3_value
  /\ getitem C3_value "Steps" = Ok (JArray [JString "Open TMP1, don't close it"])
  /\ (metadata_json <- fix_json_structure C3_input ;;
      getitem metadata_json "Steps")
     = Ok (JArray [JString "Open 's, don't close it"]).
Proof. split; [|split]; vm_compute; reflexivity. Qed.

(** C3, amended: for every text that is JSON, whose single-quotes all start
    one of the three patterns, and that holds none of the sentinels, the
    Tier 2 text is the input itself, byte for byte, [fix_json_structure]
    returns the value the input denotes, and Tier 1 fails whenever the text
    holds a quote at all.  The text holds no run of more than 4300 digits
    and at most 100 opening brackets and braces: beyond that the decoder of
    Python refuses the digits of an integer or exceeds the recursion limit,
    with errors that are no decode errors and that this [json_loads] does
    not have. *)
Theorem C3_contractions_recovered (metadata : string) (v : json) :
  json_loads metadata = Ok v ->
  contractions_only metadata = true ->
  sentinel_free metadata = true ->
  max_digit_run metadata <= 4300 ->
  count_open metadata <= 100 ->
  tier2_text metadata = metadata
  /\ fix_json_structure metadata = Ok v
  /\ (has_quote metadata = true ->
      json_loads (tier1_text metadata) = Raise JSONDecodeError).
Proof.
  intros Hv Hc Hs _ _.
  assert (H2 : tier2_text metadata = metadata)
    by (rewrite tier2_text_requote by assumption; now apply requote_id).
  assert (H1 : tier1_text metadata = swap_quotes metadata).
  { apply tier1_text_swap. now apply (sentinel_free_each _ Hs CS). }
  assert (Hq : has_quote metadata = true ->
               json_loads (tier1_text metadata) = Raise JSONDecodeError).
  { intros Hq. rewrite H1. eapply json_loads_swap; eauto. }
  split; [exact H2|split; [|exact Hq]].
  unfold fix_json_structure.
  destruct (has_quote metadata) eqn:E.
  - rewrite Hq by reflexivity. now rewrite H2.
  - rewrite H1, swap_no_quote by assumption. now rewrite Hv.
Qed.

Lemma C3_contractions_recovered_witness :
  tier2_text C4_input = C4_input
  /\ fix_json_structure C4_input = Ok C4_value
  /\ (has_quote C4_input = true ->
      json_loads (tier1_text C4_input) = Raise JSONDecodeError).
Proof.
  apply (@C3_contractions_recovered C4_input C4_value);
    try (vm_compute; reflexivity); vm_compute; lia.
Defined.

(** ** C4: the double-quoted scenario with a contraction *)

(** C4: on the scenario's input Tier 1 raises the decode error, Tier 2
    parses and keeps the step text, [what's needed] included, as it was, and
    the coercion of the tool count turns ["none"] into the missing value. *)
Theorem C4_contraction_scenario :
  json_loads (tier1_text C4_input) = Raise JSONDecodeError
  /\ tier2_text C4_input = C4_input
  /\ fix_json_structure C4_input = Ok C4_value
  /\ preprocess_annotator_metadata C4_input
     = ([LogInfo "Fixing annotator metadata"], Ok C4_record)
  /\ field "metadata_steps" C4_record
     = JArray [JString "Ask the user what's needed"]
  /\ contains "what's needed" "Ask the user what's needed" = true
  /\ coerce_num_tools [field "metadata_num_tools" C4_record] = Ok [None]
  /\ outcome (clean_dataset [row_of JNull C4_input])
     = Ok [flattened (row_of JNull C4_input) C4_record None JNull].
Proof. repeat split; vm_compute; reflexivity. Qed.

(** ** C5: both tiers failing *)

(** C5: when neither text is JSON, [fix_json_structure] raises the decode
    error of the second [json.loads]; nothing is returned, and
    [preprocess_annotator_metadata] raises it too. *)
Theorem C5_both_tiers_fail (metadata : string) :
  json_loads (tier1_text metadata) = Raise JSONDecodeError ->
  json_loads (tier2_text metadata) = Raise JSONDecodeError ->
  fix_json_structure metadata = Raise JSONDecodeError
  /\ preprocess_annotator_metadata metadata
     = ([LogInfo "Fixing annotator metadata"], Raise JSONDecodeError).
Proof.
  intros H1 H2.
  assert (H : fix_json_structure metadata = Raise JSONDecodeError)
    by (unfold fix_json_structure; now rewrite H1).
  split; [exact H|].
  unfold preprocess_annotator_metadata. cbn [lift mbind emit bind].
  now rewrite H.
Qed.

Lemma C5_both_tiers_fail_witness :
  fix_json_structure "{'Steps': " = Raise JSONDecodeError
  /\ preprocess_annotator_metadata "{'Steps': "
     = ([LogInfo "Fixing annotator metadata"], Raise JSONDecodeError).
Proof.
  apply (C5_both_tiers_fail "{'Steps': "); vm_compute; reflexivity.
Defined.

(** ** C6: the five keys *)

Lemma preprocess_outcome (metadata : string) :
  outcome (preprocess_annotator_metadata metadata)
  = (metadata_json <- fix_json_structure metadata ;;
     steps <- getitem metadata_json "Steps" ;;
     num_steps <- getitem metadata_json "Number of steps" ;;
     time_taken <- getitem metadata_json "How long did this take?" ;;
     tools <- getitem metadata_json "Tools" ;;
     num_tools <- getitem metadata_json "Number of tools" ;;
     Ok [("metadata_steps", steps);
         ("metadata_num_steps", num_steps);
         ("metadata_time_taken", time_taken);
         ("metadata_tools", tools);
         ("metadata_num_tools", num_tools)]).
Proof.
  unfold preprocess_annotator_metadata, outcome, lift, emit, mbind.
  now destruct (fix_json_structure metadata).
Qed.

(** C6, as stated, fails: the text [[]] is JSON, [fix_json_structure]
    succeeds on it, none of the five keys is in the value, and what is raised
    is a type error, not a key error. *)
Lemma C6_not_an_object :
  ~ (forall metadata v,
        fix_json_structure metadata = Ok v ->
        (exists record,
            outcome (preprocess_annotator_metadata metadata) = Ok record)
        \/ (exists key,
               outcome (preprocess_annotator_metadata metadata)
               = Raise (KeyError key))).
Proof.
  intros H.
  destruct (H "[]" (JArray []) eq_refl) as [[record E]|[key E]];
    vm_compute in E; discriminate.
Qed.

Ltac missing_key k :=
  split;
  [ discriminate
  | split;
    [ intros ? [= <-] Hall; exfalso; apply (Hall k);
      [cbn [In metadata_keys]; tauto | assumption]
    | split;
      [ intros ? [= <-] _; exists k;
        split; [cbn [In metadata_keys]; tauto | split; [assumption|reflexivity]]
      | discriminate ] ] ].

(** C6, amended: when [fix_json_structure] succeeds with a JSON object, the
    five keys are looked up by name; if all are there the result is the
    record of exactly the five fields holding their values, and if one is
    missing a key error for a missing key is raised and no field is
    defaulted.  When it succeeds with a value that is not an object, a type
    error is raised. *)
Theorem C6_five_keys (metadata : string) (v : json) :
  fix_json_structure metadata = Ok v ->
  (forall record,
      outcome (preprocess_annotator_metadata metadata) = Ok record ->
      map fst record = metadata_fields
      /\ exists d, v = JObject d
                   /\ map (fun key => dict_get key d) metadata_keys
                      = map (fun kv => Some (snd kv)) record)
  /\ (forall d, v = JObject d ->
        (forall key, In key metadata_keys -> dict_get key d <> None) ->
        exists record,
          outcome (preprocess_annotator_metadata metadata) = Ok record)
  /\ (forall d, v = JObject d ->
        (exists key, In key metadata_keys /\ dict_get key d = None) ->
        exists key, In key metadata_keys /\ dict_get key d = None
                    /\ outcome (preprocess_annotator_metadata metadata)
                       = Raise (KeyError key))
  /\ (is_dict v = false ->
      outcome (preprocess_annotator_metadata metadata) = Raise TypeError).
Proof.
  intros H. rewrite preprocess_outcome, H. cbn [bind].
  destruct v as [| | | | | |d];
    try (split; [discriminate|split; [discriminate|split; [discriminate|]]];
         reflexivity).
  cbn [getitem is_dict].
  destruct (dict_get "Steps" d) as [v1|] eqn:E1;
    [destruct (dict_get "Number of steps" d) as [v2|] eqn:E2;
     [destruct (dict_get "How long did this take?" d) as [v3|] eqn:E3;
      [destruct (dict_get "Tools" d) as [v4|] eqn:E4;
       [destruct (dict_get "Number of tools" d) as [v5|] eqn:E5|]|]|]|];
    cbn [bind].
  1: { split; [|split; [|split; [|discriminate]]].
       - intros record [= <-]. split; [reflexivity|].
         exists d. split; [reflexivity|]. cbn [map metadata_keys snd].
         now rewrite E1, E2, E3, E4, E5.
       - intros d' [= <-] _. now eexists.
       - intros d' [= <-] [key [Hin Hnone]]. exfalso.
         cbn [In metadata_keys] in Hin.
         destruct Hin as [<-|[<-|[<-|[<-|[<-|[]]]]]]; congruence. }
  - missing_key "Number of tools".
  - missing_key "Tools".
  - missing_key "How long did this take?".
  - missing_key "Number of steps".
  - missing_key "Steps".
Qed.

Lemma C6_five_keys_witness :
  map fst C4_record = metadata_fields
  /\ outcome (preprocess_annotator_metadata (lit "{`Steps`: []}"))
     = Raise (KeyError "Number of steps")
  /\ outcome (preprocess_annotator_metadata "[]") = Raise TypeError.
Proof.
  split; [|split].
  - apply (proj1 (@C6_five_keys C4_input C4_value eq_refl) C4_record eq_refl).
  - destruct (proj1 (proj2 (proj2
       (@C6_five_keys (lit "{`Steps`: []}") (JObject [("Steps", JArray [])])
          eq_refl))) _ eq_refl) as (key & Hin & Hnone & E).
    + exists "Number of steps". split; [cbn; tauto | reflexivity].
    + rewrite E. f_equal. f_equal.
      cbn [In metadata_keys] in Hin.
      destruct Hin as [<-|[<-|[<-|[<-|[<-|[]]]]]];
        vm_compute in E; congruence.
  - apply (proj2 (proj2 (proj2 (@C6_five_keys "[]" (JArray []) eq_refl)))).
    reflexivity.
Defined.

(** ** C7: no source files *)

(** C7: with no matching file the loader raises the [ValueError] at once,
    and [main] ends with it before any event, so before the connection
    string is asked for and before any engine or connection exists,
    whatever the storage layer would have done. *)
Theorem C7_no_files (storage : event -> result unit) :
  load_datasets_from_filesystem []
  = ([], Raise (ValueError
                  "There are no datasets available in the resources path"))
  /\ outcome (main storage [])
     = Raise (ValueError
                "There are no datasets available in the resources path")
  /\ trace (main storage []) = [].
Proof.
  split; [reflexivity|].
  rewrite (main_stops_with_loader storage [] eq_refl). now split.
Qed.

(** ** C8: the coercion of the tool count *)


Lemma float_exact_int64 (z : Z) :
  float_exact z = true ->
  ((int64_min <=? z) && (z <=? int64_max))%Z = true.
Proof.
  unfold float_exact, int64_min, int64_max. intros H.
  apply andb_true_iff in H. destruct H as [H1 H2].
  apply Z.leb_le in H1, H2. apply andb_true_iff.
  split; apply Z.leb_le; lia.
Qed.




Lemma mapR_raises (A B : Type) (f : A -> result B) (l : list A) (a : A)
  (e : exn) :
  In a l -> f a = Raise e -> exists e', mapR f l = Raise e'.
Proof.
  intros Hin Ha. induction l as [|x l IH]; [destruct Hin|].
  cbn [mapR]. destruct (f x) as [b|e0] eqn:Ex; [|now exists e0].
  cbn [bind]. destruct Hin as [->|Hin]; [congruence|].
  destruct (IH Hin) as [e' ->]. now exists e'.
Qed.

(** The number 1.5 anywhere in the column makes the coercion raise. *)
Lemma C8_fraction_in_column (column : list json) :
  In (JFloat "1.5") column -> exists e, coerce_num_tools column = Raise e.
Proof.
  intros H. unfold coerce_num_tools.
  apply (@mapR_raises _ _ astype_Int64 _ (to_numeric (JFloat "1.5")) TypeError);
    [|reflexivity].
  now apply in_map.
Qed.



(** The scenario behind the counterexample, through the loader: a row whose
    tool count is 1.5 stops the cleaning of its file with the cast error. *)
Lemma C8_fraction_in_dataset :
  outcome (clean_dataset [row_of JNull C8_input]) = Raise TypeError.
Proof. vm_compute. reflexivity. Qed.

(** ** C9: the rewritten file path *)

Lemma mbind_ok (A B : Type) (m : M A) (k : A -> M B) (t : list event)
  (b : B) :
  mbind m k = (t, Ok b) ->
  exists t1 a t2, m = (t1, Ok a) /\ k a = (t2, Ok b).
Proof.
  unfold mbind. destruct m as [t1 [a|e]]; [|discriminate].
  destruct (k a) as [t2 r] eqn:E. intros [= <- ->]. now exists t1, a, t2.
Qed.

Lemma bind_ok (A B : Type) (r : result A) (k : A -> result B) (b : B) :
  bind r k = Ok b -> exists a, r = Ok a /\ k a = Ok b.
Proof. destruct r as [a|e]; [|discriminate]. intros H. now exists a. Qed.

Lemma mapM_length (A B : Type) (f : A -> M B) (l : list A)
  (t : list event) (bs : list B) :
  mapM f l = (t, Ok bs) -> List.length bs = List.length l.
Proof.
  revert t bs. induction l as [|a l IH]; intros t bs H.
  - now injection H as <- <-.
  - cbn [mapM] in H. apply mbind_ok in H. destruct H as (t1 & b & t2 & _ & H).
    apply mbind_ok in H. destruct H as (t3 & bs' & t4 & H & E).
    injection E as <- <-. cbn [List.length]. f_equal. eapply IH; eauto.
Qed.

Lemma mapR_length (A B : Type) (f : A -> result B) (l : list A)
  (bs : list B) :
  mapR f l = Ok bs -> List.length bs = List.length l.
Proof.
  revert bs. induction l as [|a l IH]; intros bs H.
  - now injection H as <-.
  - cbn [mapR] in H. apply bind_ok in H. destruct H as (b & _ & H).
    apply bind_ok in H. destruct H as (bs' & H & E).
    injection E as <-. cbn [List.length]. f_equal. now apply IH.
Qed.

(** The rows of a cleaned frame are the rows read, in order, each with the
    path computed from its own file name. *)
Lemma cleaned_rows (rows : list RawRecord) (metas : list (list (string * json)))
  (nts : list (option Z)) (paths : list json) :
  List.length metas = List.length rows ->
  List.length nts = List.length rows ->
  mapR prepend_bucket (map file_name rows) = Ok paths ->
  map Flat.file_name (zip4 flattened rows metas nts paths) = map file_name rows
  /\ forall row, In row (zip4 flattened rows metas nts paths) ->
                 prepend_bucket (Flat.file_name row) = Ok (Flat.file_path row).
Proof.
  revert metas nts paths.
  induction rows as [|r rows IH]; intros metas nts paths Hm Hn Hp.
  - split; [reflexivity|intros row []].
  - destruct metas as [|meta metas]; [discriminate|].
    destruct nts as [|nt nts]; [discriminate|].
    cbn [map mapR] in Hp. apply bind_ok in Hp. destruct Hp as (p & Hp & H).
    apply bind_ok in H. destruct H as (ps & Hps & E). injection E as <-.
    injection Hm as Hm. injection Hn as Hn.
    destruct (IH metas nts ps Hm Hn Hps) as [IH1 IH2].
    cbn [zip4 map]. split.
    + now rewrite IH1.
    + intros row [<-|Hin]; [exact Hp|now apply IH2].
Qed.

Lemma clean_dataset_frame (rows : list RawRecord) (t : list event)
  (df : list Flat.t) :
  clean_dataset rows = (t, Ok df) -> clean_frame rows df.
Proof.
  unfold clean_dataset. intros H.
  apply mbind_ok in H. destruct H as (t1 & metas & t2 & Hmetas & H).
  unfold lift in H. injection H as _ H.
  apply bind_ok in H. destruct H as (column & Hcol & H).
  apply bind_ok in H. destruct H as (nts & Hnts & H).
  apply bind_ok in H. destruct H as (paths & Hpaths & H).
  injection H as <-.
  apply mapM_length in Hmetas.
  apply cleaned_rows; auto.
  unfold coerce_num_tools in Hnts. apply mapR_length in Hnts.
  rewrite Hnts, length_map.
  unfold get_column in Hcol.
  destruct (existsb _ _); [|discriminate]. injection Hcol as <-.
  now rewrite !length_map.
Qed.

Lemma dict_set_In (V : Type) (k : string) (v : V) (d : list (string * V))
  (k' : string) (v' : V) :
  In (k', v') (dict_set k v d) -> (k', v') = (k, v) \/ In (k', v') d.
Proof.
  induction d as [|[k0 v0] d IH]; cbn [dict_set].
  - intros [H|[]]. now left.
  - destruct (k =? k0)%string.
    + intros [H|H]; [now left|right; now right].
    + intros [H|H]; [right; now left|].
      destruct (IH H) as [E|E]; [now left|right; now right].
Qed.

Lemma load_loop_frames (file_list : list (string * list RawRecord))
  (cleaned : datasets) (t : list event) (dfs : datasets) :
  load_loop file_list cleaned = (t, Ok dfs) ->
  forall file df, In (file, df) dfs ->
    In (file, df) cleaned
    \/ exists rows, In (file, rows) file_list /\ clean_frame rows df.
Proof.
  revert cleaned t. induction file_list as [|[f rows] rest IH];
    intros cleaned t H file df Hin.
  - injection H as _ <-. now left.
  - cbn [load_loop] in H.
    apply mbind_ok in H. destruct H as (t1 & df0 & t2 & Hdf & H).
    apply mbind_ok in H. destruct H as (t3 & [] & t4 & _ & H).
    apply mbind_ok in H. destruct H as (t5 & [] & t6 & _ & H).
    destruct (IH _ _ H file df Hin) as [Hc|(rows' & Hr & Hf)].
    + apply dict_set_In in Hc. destruct Hc as [[= -> ->]|Hc]; [|now left].
      right. exists rows. split; [now left|].
      eapply clean_dataset_frame; eauto.
    + right. exists rows'. split; [now right|assumption].
Qed.

(** Every file of the list has had its frame built when the loop ends
    normally. *)
Lemma load_loop_cleans (file_list : list (string * list RawRecord))
  (cleaned : datasets) (t : list event) (dfs : datasets) :
  load_loop file_list cleaned = (t, Ok dfs) ->
  forall file rows, In (file, rows) file_list ->
    exists t' df, clean_dataset rows = (t', Ok df).
Proof.
  revert cleaned t. induction file_list as [|[f rows0] rest IH];
    intros cleaned t H file rows Hin; [destruct Hin|].
  cbn [load_loop] in H.
  apply mbind_ok in H. destruct H as (t1 & df0 & t2 & Hdf & H).
  apply mbind_ok in H. destruct H as (t3 & [] & t4 & _ & H).
  apply mbind_ok in H. destruct H as (t5 & [] & t6 & _ & H).
  destruct Hin as [[= <- <-]|Hin]; [now exists t1, df0|].
  eapply IH; eauto.
Qed.

Lemma clean_frame_paths (rows : list RawRecord) (df : list Flat.t) :
  clean_frame rows df ->
  forall row, In row df ->
    path_rewritten (Flat.file_name row) (Flat.file_path row).
Proof.
  intros [_ Hp] row Hrow. specialize (Hp row Hrow). unfold path_rewritten.
  destruct (Flat.file_name row) as [| | | |name| |]; try discriminate.
  - left. now injection Hp as <-.
  - right. exists name. now injection Hp as <-.
Qed.

(** The scenario of C9, through the loader. *)
Lemma report_pdf_path :
  outcome (load_datasets_from_filesystem
             [("validation_all.csv", [row_of (JString "report.pdf") C4_input])])
  = Ok [("validation_all.csv",
         [flattened (row_of (JString "report.pdf") C4_input) C4_record None
            (JString "damg7374-a1-store/report.pdf")])].
Proof. vm_compute. reflexivity. Qed.

(** C9, as stated, fails: a row whose file name is empty comes out of the
    loader with a null file path, which is not the bucket prefix followed by
    anything. *)
Lemma C9_empty_file_name :
  ~ (forall file_list t dfs,
        load_datasets_from_filesystem file_list = (t, Ok dfs) ->
        forall file df row, In (file, df) dfs -> In row df ->
          exists name,
            Flat.file_path row = JString ("damg7374-a1-store/" ++ name)).
Proof.
  intros H.
  destruct (H [("validation_all.csv", [row_of JNull C4_input])] _ _ eq_refl
              "validation_all.csv" _
              (flattened (row_of JNull C4_input) C4_record None JNull)
              (or_introl eq_refl) (or_introl eq_refl)) as [name E].
  discriminate.
Qed.

(** C9, amended: when the loader returns, a frame was built for every file
    of the list, and in that frame, as in every frame of the dict returned,
    the rows carry the file names of the rows read, in order, and the path
    of a row is the bucket prefix followed by the row's own file name when
    that is a string ([report.pdf] becomes [damg7374-a1-store/report.pdf]),
    and null when the file name is empty. *)
Theorem C9_file_path (file_list : list (string * list RawRecord))
  (t : list event) (dfs : datasets) :
  load_datasets_from_filesystem file_list = (t, Ok dfs) ->
  (forall file rows, In (file, rows) file_list ->
     exists t' df,
       clean_dataset rows = (t', Ok df)
       /\ map Flat.file_name df = map file_name rows
       /\ forall row, In row df ->
            path_rewritten (Flat.file_name row) (Flat.file_path row))
  /\ (forall file df, In (file, df) dfs ->
        exists rows,
          In (file, rows) file_list
          /\ map Flat.file_name df = map file_name rows
          /\ forall row, In row df ->
               path_rewritten (Flat.file_name row) (Flat.file_path row)).
Proof.
  unfold load_datasets_from_filesystem.
  destruct (List.length file_list =? 0)%nat; [discriminate|].
  intros H. split.
  - intros file rows Hin.
    destruct (load_loop_cleans _ _ H _ _ Hin) as (t' & df & E).
    exists t', df. split; [exact E|].
    pose proof (clean_dataset_frame _ E) as Hf.
    split; [exact (proj1 Hf)|]. now apply (clean_frame_paths Hf).
  - intros file df Hin.
    destruct (load_loop_frames _ _ H _ _ Hin) as [[]|(rows & Hr & Hf)].
    exists rows. split; [assumption|].
    split; [exact (proj1 Hf)|]. now apply (clean_frame_paths Hf).
Qed.

Lemma C9_file_path_witness :
  (forall file rows,
      In (file, rows)
         [("validation_all.csv",
           [row_of (JString "report.pdf") C4_input; row_of JNull C4_input])] ->
      exists t' df,
        clean_dataset rows = (t', Ok df)
        /\ map Flat.file_name df = map file_name rows
        /\ forall row, In row df ->
             path_rewritten (Flat.file_name row) (Flat.file_path row))
  /\ (forall file df,
        In (file, df)
           [("validation_all.csv",
             [flattened (row_of (JString "report.pdf") C4_input) C4_record
                None (JString "damg7374-a1-store/report.pdf");
              flattened (row_of JNull C4_input) C4_record None JNull])] ->
        exists rows,
          In (file, rows)
             [("validation_all.csv",
               [row_of (JString "report.pdf") C4_input;
                row_of JNull C4_input])]
          /\ map Flat.file_name df = map file_name rows
          /\ forall row, In row df ->
               path_rewritten (Flat.file_name row) (Flat.file_path row)).
Proof.
  eapply (@C9_file_path
            [("validation_all.csv",
              [row_of (JString "report.pdf") C4_input;
               row_of JNull C4_input])]).
  vm_compute. reflexivity.
Defined.

(** ** C10: Tier 1 exchanges the quotes *)

Lemma swap_quote_involutive (c : ascii) : swap_quote (swap_quote c) = c.
Proof.
  unfold swap_quote.
  destruct (Ascii.eqb_spec c dq) as [->|]; [reflexivity|].
  destruct (Ascii.eqb_spec c sq) as [->|]; [reflexivity|].
  destruct (Ascii.eqb_spec c dq); [tauto|].
  now destruct (Ascii.eqb_spec c sq).
Qed.

Lemma swap_quotes_involutive (s : string) : swap_quotes (swap_quotes s) = s.
Proof.
  unfold swap_quotes. induction s as [|c s IH]; simpl; [reflexivity|].
  now rewrite swap_quote_involutive, IH.
Qed.

Lemma contains_unfold (p s : string) :
  contains p s = startswith p s || match s with
                                   | "" => false
                                   | String _ s' => contains p s'
                                   end.
Proof. now destruct s. Qed.

Lemma contains_swap (p s : string) :
  has_quote p = false -> contains p (swap_quotes s) = contains p s.
Proof.
  intros Hp. induction s as [|c s IH].
  - reflexivity.
  - rewrite (contains_unfold p (swap_quotes (String c s))).
    rewrite (contains_unfold p (String c s)).
    rewrite startswith_swap by assumption.
    cbn [swap_quotes map_chars]. fold (swap_quotes s). now rewrite IH.
Qed.

(** C10: on a text without the sentinel [TMP1] the Tier 1 transformation
    exchanges the two quote characters and keeps every other character, so
    applying it twice gives the text back; on the text [TMP1] itself it does
    not exchange quotes but rewrites the sentinel. *)
Theorem C10_tier1_exchanges_quotes :
  (forall s, contains "TMP1" s = false ->
             tier1_text s = swap_quotes s /\ tier1_text (tier1_text s) = s)
  /\ (exists s, contains "TMP1" s = true
                /\ tier1_text s <> swap_quotes s
                /\ tier1_text (tier1_text s) <> s).
Proof.
  split.
  - intros s H. split; [now apply tier1_text_swap|].
    rewrite (tier1_text_swap s H), tier1_text_swap.
    + apply swap_quotes_involutive.
    + now rewrite contains_swap.
  - exists "TMP1". repeat split; vm_compute; discriminate.
Qed.

Lemma C10_tier1_exchanges_quotes_witness :
  tier1_text "it's" = swap_quotes "it's"
  /\ tier1_text (tier1_text "it's") = "it's".
Proof.
  apply (proj1 C10_tier1_exchanges_quotes "it's"). reflexivity.
Defined.

(** * Further properties *)

(** ** Computations with a trace *)

Lemma mbind_ok_trace (A B : Type) (m : M A) (k : A -> M B) (t : list event)
  (b : B) :
  mbind m k = (t, Ok b) ->
  exists t1 a t2, m = (t1, Ok a) /\ k a = (t2, Ok b) /\ t = (t1 ++ t2)%list.
Proof.
  unfold mbind. destruct m as [t1 [a|e]]; [|discriminate].
  destruct (k a) as [t2 r] eqn:E. intros [= <- ->]. now exists t1, a, t2.
Qed.

Lemma mbind_trace (A B : Type) (m : M A) (k : A -> M B) :
  trace (mbind m k)
  = (trace m ++ match outcome m with
                | Ok a => trace (k a)
                | Raise _ => []
                end)%list.
Proof.
  unfold mbind, trace, outcome. destruct m as [t [a|e]]; cbn [fst snd].
  - now destruct (k a).
  - now rewrite app_nil_r.
Qed.


Lemma mapM_Forall2 (A B : Type) (f : A -> M B) (l : list A)
  (t : list event) (bs : list B) :
  mapM f l = (t, Ok bs) ->
  Forall2 (fun a b => outcome (f a) = Ok b) l bs
  /\ t = flat_map (fun a => trace (f a)) l.
Proof.
  revert t bs. induction l as [|a l IH]; intros t bs H.
  - injection H as <- <-. now split.
  - cbn [mapM] in H.
    apply mbind_ok_trace in H. destruct H as (t1 & b & t2 & Ha & H & ->).
    apply mbind_ok_trace in H. destruct H as (t3 & bs' & t4 & Hl & H & ->).
    injection H as <- <-. destruct (IH _ _ Hl) as [IH1 ->].
    split.
    + constructor; [now rewrite Ha|assumption].
    + cbn [flat_map]. rewrite Ha. cbn [trace fst]. now rewrite app_nil_r.
Qed.

Lemma mapR_Forall2 (A B : Type) (f : A -> result B) (l : list A)
  (bs : list B) :
  mapR f l = Ok bs -> Forall2 (fun a b => f a = Ok b) l bs.
Proof.
  revert bs. induction l as [|a l IH]; intros bs H.
  - injection H as <-. constructor.
  - cbn [mapR] in H. apply bind_ok in H. destruct H as (b & Hb & H).
    apply bind_ok in H. destruct H as (bs' & Hl & H). injection H as <-.
    constructor; auto.
Qed.

Lemma Forall2_map_l (A B C : Type) (h : A -> B) (P : B -> C -> Prop)
  (l : list A) (cs : list C) :
  Forall2 P (map h l) cs -> Forall2 (fun a c => P (h a) c) l cs.
Proof.
  revert cs. induction l as [|a l IH]; intros cs H; inversion H; subst;
    constructor; auto.
Qed.

(** ** One file *)

Lemma preprocess_trace (metadata : string) :
  trace (preprocess_annotator_metadata metadata)
  = [LogInfo "Fixing annotator metadata"].
Proof.
  unfold preprocess_annotator_metadata, trace, lift, emit, mbind.
  reflexivity.
Qed.

(** What a metadata record says of the text it was made from. *)
Lemma preprocess_record (metadata : string) (meta : list (string * json)) :
  outcome (preprocess_annotator_metadata metadata) = Ok meta ->
  exists metadata_json steps num_steps time_taken tools num_tools,
    fix_json_structure metadata = Ok metadata_json
    /\ getitem metadata_json "Steps" = Ok steps
    /\ getitem metadata_json "Number of steps" = Ok num_steps
    /\ getitem metadata_json "How long did this take?" = Ok time_taken
    /\ getitem metadata_json "Tools" = Ok tools
    /\ getitem metadata_json "Number of tools" = Ok num_tools
    /\ meta = [("metadata_steps", steps);
               ("metadata_num_steps", num_steps);
               ("metadata_time_taken", time_taken);
               ("metadata_tools", tools);
               ("metadata_num_tools", num_tools)].
Proof.
  rewrite preprocess_outcome. intros H.
  apply bind_ok in H. destruct H as (v & Hv & H).
  apply bind_ok in H. destruct H as (v1 & H1 & H).
  apply bind_ok in H. destruct H as (v2 & H2 & H).
  apply bind_ok in H. destruct H as (v3 & H3 & H).
  apply bind_ok in H. destruct H as (v4 & H4 & H).
  apply bind_ok in H. destruct H as (v5 & H5 & H).
  injection H as <-. exists v, v1, v2, v3, v4, v5. now repeat split.
Qed.

Lemma to_numeric_dict (v : json) :
  to_numeric (if is_dict v then JNull else v) = to_numeric v.
Proof. now destruct v. Qed.

Lemma cleaned_rows_spec (rows : list RawRecord)
  (metas : list (list (string * json))) (nts : list (option Z))
  (paths : list json) :
  Forall2 (fun r meta =>
             outcome (preprocess_annotator_metadata (annotator_metadata r))
             = Ok meta) rows metas ->
  Forall2 (fun meta nt =>
             astype_Int64 (to_numeric (field "metadata_num_tools" meta))
             = Ok nt) metas nts ->
  Forall2 (fun r p => prepend_bucket (file_name r) = Ok p) rows paths ->
  Forall2 cleaned_row rows (zip4 flattened rows metas nts paths).
Proof.
  intros Hm. revert nts paths.
  induction Hm as [|r meta rows metas Hr _ IH]; intros nts paths Hn Hp.
  - constructor.
  - inversion Hn as [|? nt ? nts' Hnt Hn']; subst.
    inversion Hp as [|? p ? paths' Hpath Hp']; subst.
    cbn [zip4]. constructor; [|now apply IH].
    apply preprocess_record in Hr.
    destruct Hr as (v & v1 & v2 & v3 & v4 & v5 & Hv & H1 & H2 & H3 & H4 & H5 & ->).
    split; [reflexivity|split; [exact Hpath|]].
    exists v, v1, v2, v3, v4, v5.
    repeat (split; [assumption|]).
    repeat split; intros _; try reflexivity. exact Hnt.
Qed.

(** The rows of a frame that [clean_dataset] returns, against the rows
    read. *)
Lemma clean_dataset_rows (rows : list RawRecord) (t : list event)
  (df : list Flat.t) :
  clean_dataset rows = (t, Ok df) ->
  Forall2 cleaned_row rows df
  /\ t = repeat (LogInfo "Fixing annotator metadata") (List.length rows).
Proof.
  unfold clean_dataset. intros H.
  apply mbind_ok_trace in H. destruct H as (t1 & metas & t2 & Hm & H & ->).
  unfold lift in H. injection H as <- H.
  apply bind_ok in H. destruct H as (column & Hcol & H).
  apply bind_ok in H. destruct H as (nts & Hnts & H).
  apply bind_ok in H. destruct H as (paths & Hpaths & H).
  injection H as <-.
  apply mapM_Forall2 in Hm. destruct Hm as [Hm ->]. split.
  - apply cleaned_rows_spec.
    + apply Hm.
    + unfold get_column in Hcol.
      destruct (existsb _ _); [|discriminate]. injection Hcol as <-.
      unfold coerce_num_tools in Hnts. rewrite !map_map in Hnts.
      apply mapR_Forall2, Forall2_map_l in Hnts.
      eapply Forall2_impl; [|exact Hnts].
      intros meta nt E. cbn beta in E. now rewrite to_numeric_dict in E.
    + apply mapR_Forall2, Forall2_map_l in Hpaths. exact Hpaths.
  - rewrite app_nil_r. clear. induction rows as [|r rows IH]; [reflexivity|].
    cbn [flat_map List.length repeat]. rewrite preprocess_trace.
    cbn [app]. now rewrite IH.
Qed.

(** ** The loop over the files *)

Lemma dict_set_fresh (V : Type) (k : string) (v : V) (d : list (string * V)) :
  ~ In k (map fst d) -> dict_set k v d = (d ++ [(k, v)])%list.
Proof.
  induction d as [|[k0 v0] d IH]; intros H; [reflexivity|].
  cbn [dict_set map fst In app] in *.
  destruct (String.eqb_spec k k0) as [->|_]; [tauto|].
  rewrite IH by tauto. reflexivity.
Qed.

Lemma dict_fold_fresh (V : Type) (keys : list string) (vs : list V)
  (c : list (string * V)) :
  NoDup keys -> (forall k, In k keys -> ~ In k (map fst c)) ->
  fold_left (fun d x => dict_set (fst x) (snd x) d) (combine keys vs) c
  = (c ++ combine keys vs)%list.
Proof.
  revert vs c. induction keys as [|k keys IH]; intros vs c Hnd Hc.
  - cbn. now rewrite app_nil_r.
  - destruct vs as [|v vs]; [cbn; now rewrite app_nil_r|].
    inversion Hnd as [|? ? Hk Hnd']; subst.
    cbn [combine fold_left fst snd].
    rewrite dict_set_fresh by (apply Hc; now left).
    rewrite IH; [now rewrite <- app_assoc|assumption|].
    intros k' Hk'. rewrite map_app, in_app_iff. cbn [map fst In].
    intros [H|[<-|[]]]; [|tauto].
    apply (Hc k'); [now right|assumption].
Qed.

(** What the loop leaves in [cleaned_datasets] and in the trace. *)
Lemma load_loop_spec (file_list : list (string * list RawRecord))
  (cleaned : datasets) (t : list event) (dfs : datasets) :
  load_loop file_list cleaned = (t, Ok dfs) ->
  exists frames,
    Forall2 (fun fr df => exists t', clean_dataset (snd fr) = (t', Ok df))
            file_list frames
    /\ dfs = fold_left (fun d x => dict_set (fst x) (snd x) d)
                       (combine (map fst file_list) frames) cleaned
    /\ t = loader_trace file_list.
Proof.
  revert cleaned t. induction file_list as [|[f rows] rest IH];
    intros cleaned t H.
  - injection H as <- <-. exists []. now repeat split.
  - cbn [load_loop] in H.
    apply mbind_ok_trace in H. destruct H as (t1 & df0 & t2 & Hdf & H & ->).
    apply mbind_ok_trace in H. destruct H as (t3 & [] & t4 & E1 & H & ->).
    apply mbind_ok_trace in H. destruct H as (t5 & [] & t6 & E2 & H & ->).
    injection E1 as <-. injection E2 as <-.
    destruct (IH _ _ H) as (frames & Hf & -> & ->).
    exists (df0 :: frames). split; [|split].
    + constructor; [now exists t1|assumption].
    + reflexivity.
    + cbn [loader_trace flat_map snd].
      destruct (clean_dataset_rows _ Hdf) as [_ ->].
      now rewrite <- app_assoc.
Qed.

Lemma Forall2_combine_keys (A B : Type) (P : A -> B -> Prop)
  (l : list (string * A)) (frames : list B) :
  Forall2 (fun fr df => P (snd fr) df) l frames ->
  map fst (combine (map fst l) frames) = map fst l
  /\ Forall2 (fun fr fd => fst fd = fst fr /\ P (snd fr) (snd fd))
             l (combine (map fst l) frames).
Proof.
  induction 1 as [|[f a] b l frames H _ [IH1 IH2]]; [now split|].
  cbn [map fst combine]. split; [now rewrite IH1|].
  constructor; [now split|assumption].
Qed.

Lemma Forall2_In_l (A B : Type) (P : A -> B -> Prop) (l : list A)
  (l' : list B) (a : A) :
  Forall2 P l l' -> In a l -> exists b, In b l' /\ P a b.
Proof.
  induction 1 as [|x y l l' H _ IH]; intros Hin; [destruct Hin|].
  destruct Hin as [->|Hin].
  - exists y. split; [now left|assumption].
  - destruct (IH Hin) as (b & Hb & Hab). exists b. split; [now right|assumption].
Qed.

Lemma loader_ok_loop (file_list : list (string * list RawRecord))
  (t : list event) (dfs : datasets) :
  load_datasets_from_filesystem file_list = (t, Ok dfs) ->
  load_loop file_list [] = (t, Ok dfs).
Proof.
  unfold load_datasets_from_filesystem.
  now destruct (List.length file_list =? 0)%nat.
Qed.

Lemma loader_file_cleaned (file_list : list (string * list RawRecord))
  (t : list event) (dfs : datasets) (f : string) (rows : list RawRecord) :
  load_datasets_from_filesystem file_list = (t, Ok dfs) ->
  In (f, rows) file_list ->
  exists t' df, clean_dataset rows = (t', Ok df).
Proof.
  intros H Hin. apply loader_ok_loop, load_loop_spec in H.
  destruct H as (frames & Hf & _).
  destruct (@Forall2_In_l _ _ _ _ _ _ Hf Hin) as (df & _ & t' & E).
  now exists t', df.
Qed.

(** ** The loader *)

(** X1: when the loader returns, every row of every file it was given has
    been repaired and cleaned: its own metadata parsed, the five keys were
    there, the path could be built and a tool count of the kinds the cast
    accepts was cast.  No row is skipped; one row that fails stops the whole
    run. *)
Theorem loader_cleans_every_row (file_list : list (string * list RawRecord))
  (t : list event) (dfs : datasets) :
  load_datasets_from_filesystem file_list = (t, Ok dfs) ->
  forall f rows r, In (f, rows) file_list -> In r rows ->
    exists row, cleaned_row r row.
Proof.
  intros H f rows r Hf Hr.
  destruct (@loader_file_cleaned _ _ _ _ _ H Hf) as (t' & df & E).
  apply clean_dataset_rows in E. destruct E as [E _].
  destruct (@Forall2_In_l _ _ _ _ _ _ E Hr) as (row & _ & Hrow). now exists row.
Qed.

Lemma loader_cleans_every_row_witness :
  exists row, cleaned_row (row_of (JString "report.pdf") C4_input) row.
Proof.
  eapply (@loader_cleans_every_row
            [("validation_all.csv", [row_of (JString "report.pdf") C4_input])]).
  - vm_compute. reflexivity.
  - left. reflexivity.
  - left. reflexivity.
Defined.

(** X2: a file without data rows stops the loader.  The flattened frame of
    no rows has no columns, so the lookup of the tool-count column raises the
    key error; when the loader returns, every file had at least one row. *)
Theorem loader_needs_rows (file_list : list (string * list RawRecord))
  (t : list event) (dfs : datasets) :
  load_datasets_from_filesystem file_list = (t, Ok dfs) ->
  forall f rows, In (f, rows) file_list -> rows <> [].
Proof.
  intros H f rows Hf ->.
  destruct (@loader_file_cleaned _ _ _ _ _ H Hf) as (t' & df & E).
  vm_compute in E. discriminate.
Qed.

Lemma loader_needs_rows_witness :
  [row_of (JString "report.pdf") C4_input] <> [].
Proof.
  eapply (@loader_needs_rows
            [("validation_all.csv", [row_of (JString "report.pdf") C4_input])]).
  - vm_compute. reflexivity.
  - left. reflexivity.
Defined.



(** X4: a run of the loader that succeeds has logged one line per row,
    written each cleaned frame to the one fixed path
    [resources/cleaned_datasets/1.csv] and printed its columns, file after
    file: every file overwrites the output of the one before. *)
Theorem loader_effects (file_list : list (string * list RawRecord))
  (t : list event) (dfs : datasets) :
  load_datasets_from_filesystem file_list = (t, Ok dfs) ->
  t = loader_trace file_list.
Proof.
  intros H. apply loader_ok_loop, load_loop_spec in H.
  now destruct H as (frames & _ & _ & ->).
Qed.

Lemma loader_effects_witness :
  [LogInfo "Fixing annotator metadata"; LogInfo "Fixing annotator metadata";
   ToCsv "resources/cleaned_datasets/1.csv"; PrintColumns;
   LogInfo "Fixing annotator metadata";
   ToCsv "resources/cleaned_datasets/1.csv"; PrintColumns]
  = loader_trace [("a_all.csv", [row_of JNull C4_input; row_of JNull C1_input]);
                  ("b_all.csv", [row_of JNull C1_input])].
Proof.
  eapply (@loader_effects
            [("a_all.csv", [row_of JNull C4_input; row_of JNull C1_input]);
             ("b_all.csv", [row_of JNull C1_input])]).
  vm_compute. reflexivity.
Defined.

(** X5: in every frame the loader returns, a row has a null file path
    exactly when its file name is null, and otherwise its file name is a
    string and its path the bucket prefix followed by it: a missing file
    name never yields the bare prefix, and a file name that is neither makes
    the loader raise. *)
Theorem loader_file_names (file_list : list (string * list RawRecord))
  (t : list event) (dfs : datasets) :
  load_datasets_from_filesystem file_list = (t, Ok dfs) ->
  forall f df row, In (f, df) dfs -> In row df ->
    (Flat.file_name row = JNull /\ Flat.file_path row = JNull)
    \/ (exists name, Flat.file_name row = JString name
                     /\ Flat.file_path row
                        = JString ("damg7374-a1-store/" ++ name)).
Proof.
  intros H f df row Hdf Hrow. apply loader_ok_loop in H.
  destruct (load_loop_frames _ _ H _ _ Hdf) as [[]|(rows & _ & _ & Hp)].
  specialize (Hp row Hrow).
  destruct (Flat.file_name row) as [| | | |name| |]; try discriminate.
  - left. now injection Hp as <-.
  - right. exists name. now injection Hp as <-.
Qed.

Lemma loader_file_names_witness :
  (Flat.file_name (flattened (row_of JNull C4_input) C4_record None JNull)
   = JNull
   /\ Flat.file_path (flattened (row_of JNull C4_input) C4_record None JNull)
      = JNull)
  \/ (exists name,
        Flat.file_name (flattened (row_of JNull C4_input) C4_record None JNull)
        = JString name
        /\ Flat.file_path
             (flattened (row_of JNull C4_input) C4_record None JNull)
           = JString ("damg7374-a1-store/" ++ name)).
Proof.
  eapply (@loader_file_names [("a_all.csv", [row_of JNull C4_input])]).
  - vm_compute. reflexivity.
  - left. reflexivity.
  - left. reflexivity.
Defined.

Lemma mapM_metadata_with_path (g : RawRecord -> json) (rows : list RawRecord) :
  mapM (fun r => preprocess_annotator_metadata (annotator_metadata r))
       (map (fun r => with_file_path (g r) r) rows)
  = mapM (fun r => preprocess_annotator_metadata (annotator_metadata r)) rows.
Proof.
  induction rows as [|r rows IH]; [reflexivity|].
  cbn [map mapM]. rewrite IH. reflexivity.
Qed.

Lemma zip4_with_path (g : RawRecord -> json) (rows : list RawRecord)
  (metas : list (list (string * json))) (nts : list (option Z))
  (paths : list json) :
  zip4 flattened (map (fun r => with_file_path (g r) r) rows) metas nts paths
  = zip4 flattened rows metas nts paths.
Proof.
  revert metas nts paths. induction rows as [|r rows IH];
    intros [|m metas] [|n nts] [|p paths]; try reflexivity.
  cbn [map zip4]. now rewrite IH.
Qed.

Lemma clean_dataset_with_path (g : RawRecord -> json)
  (rows : list RawRecord) :
  clean_dataset (map (fun r => with_file_path (g r) r) rows)
  = clean_dataset rows.
Proof.
  unfold clean_dataset. rewrite mapM_metadata_with_path, map_map.
  cbn [file_name with_file_path]. unfold mbind.
  destruct (mapM _ rows) as [t [metas|e]]; [|reflexivity].
  unfold lift, bind.
  destruct (get_column "metadata_num_tools" metas); [|reflexivity].
  destruct (coerce_num_tools a); [|reflexivity].
  destruct (mapR prepend_bucket (map file_name rows)); [|reflexivity].
  now rewrite zip4_with_path.
Qed.

(** X6: the loader never reads the [file_path] column of the files: whatever
    the cells of that column are, the events, the exception or the frames
    are the same. *)
Theorem loader_ignores_file_path (g : RawRecord -> json)
  (file_list : list (string * list RawRecord)) :
  load_datasets_from_filesystem
    (map (fun fr => (fst fr, map (fun r => with_file_path (g r) r) (snd fr)))
         file_list)
  = load_datasets_from_filesystem file_list.
Proof.
  unfold load_datasets_from_filesystem. rewrite length_map.
  destruct (List.length file_list =? 0)%nat; [reflexivity|].
  generalize (@nil (string * list Flat.t)).
  induction file_list as [|[f rows] rest IH]; intros cleaned; [reflexivity|].
  cbn [map load_loop fst snd]. rewrite clean_dataset_with_path.
  unfold mbind. destruct (clean_dataset rows) as [t [df|e]]; [|reflexivity].
  cbn [emit]. now rewrite IH.
Qed.

(** ** The cast of a text of digits *)



(** ** The keys of the metadata *)

Lemma getitem_present (d : list (string * json)) (k : string) :
  dict_get k d <> None -> exists v, getitem (JObject d) k = Ok v.
Proof.
  cbn [getitem]. destruct (dict_get k d) as [v|]; [now exists v|congruence].
Qed.

Lemma getitem_missing (d : list (string * json)) (k : string) :
  dict_get k d = None -> getitem (JObject d) k = Raise (KeyError k).
Proof. cbn [getitem]. now intros ->. Qed.

(** X8: the five keys are looked up in the order of the source, so on an
    object that misses several of them the key error names the first one
    missing in that order; the log line is written before. *)
Theorem first_missing_key (metadata : string) (d : list (string * json))
  (found : list string) (key : string) (rest : list string) :
  fix_json_structure metadata = Ok (JObject d) ->
  metadata_keys = (found ++ key :: rest)%list ->
  (forall k, In k found -> dict_get k d <> None) ->
  dict_get key d = None ->
  preprocess_annotator_metadata metadata
  = ([LogInfo "Fixing annotator metadata"], Raise (KeyError key)).
Proof.
  intros Hfix Hkeys Hfound Hkey.
  rewrite (surjective_pairing (preprocess_annotator_metadata metadata)).
  change (fst (preprocess_annotator_metadata metadata))
    with (trace (preprocess_annotator_metadata metadata)).
  change (snd (preprocess_annotator_metadata metadata))
    with (outcome (preprocess_annotator_metadata metadata)).
  rewrite preprocess_trace, preprocess_outcome, Hfix. f_equal.
  cbn [bind]. unfold metadata_keys in Hkeys.
  apply getitem_missing in Hkey.
  assert (Hf : forall k, In k found -> exists v, getitem (JObject d) k = Ok v)
    by (intros k Hk; now apply getitem_present, Hfound).
  clear Hfound Hfix.
  destruct found as [|k1 found]; cbn [app] in Hkeys.
  { injection Hkeys as <- _. now rewrite Hkey. }
  injection Hkeys as <- Hkeys.
  destruct (Hf _ (or_introl eq_refl)) as [v1 ->]. cbn [bind].
  destruct found as [|k2 found]; cbn [app] in Hkeys.
  { injection Hkeys as <- _. now rewrite Hkey. }
  injection Hkeys as <- Hkeys.
  destruct (Hf _ (or_intror (or_introl eq_refl))) as [v2 ->]. cbn [bind].
  destruct found as [|k3 found]; cbn [app] in Hkeys.
  { injection Hkeys as <- _. now rewrite Hkey. }
  injection Hkeys as <- Hkeys.
  destruct (Hf _ (or_intror (or_intror (or_introl eq_refl)))) as [v3 ->].
  cbn [bind].
  destruct found as [|k4 found]; cbn [app] in Hkeys.
  { injection Hkeys as <- _. now rewrite Hkey. }
  injection Hkeys as <- Hkeys.
  destruct (Hf _ (or_intror (or_intror (or_intror (or_introl eq_refl)))))
    as [v4 ->].
  cbn [bind].
  destruct found as [|k5 found]; cbn [app] in Hkeys.
  { injection Hkeys as <- _. now rewrite Hkey. }
  injection Hkeys as _ Hkeys. now destruct found.
Qed.

Lemma first_missing_key_witness :
  preprocess_annotator_metadata (lit "{`Steps`: [], `Number of steps`: 0}")
  = ([LogInfo "Fixing annotator metadata"],
     Raise (KeyError "How long did this take?")).
Proof.
  apply (@first_missing_key
           (lit "{`Steps`: [], `Number of steps`: 0}")
           [("Steps", JArray []); ("Number of steps", JInt 0)]
           ["Steps"; "Number of steps"] "How long did this take?"
           ["Tools"; "Number of tools"]).
  - reflexivity.
  - reflexivity.
  - intros k [<-|[<-|[]]]; discriminate.
  - reflexivity.
Defined.

(** ** The entry point, step by step *)

Lemma run_plan_app (storage : event -> result unit) (p p' : list event) :
  run_plan storage (p ++ p') = (run_plan storage p ;;; run_plan storage p').
Proof.
  induction p as [|ev p IH]; cbn [app run_plan].
  - unfold ret, mbind. now destruct (run_plan storage p').
  - rewrite IH. unfold mbind, emit.
    destruct (is_storage ev); [destruct (storage ev) as [[]|e]|];
      destruct (run_plan storage p) as [t [[]|e']]; cbn [app];
      try reflexivity;
      destruct (run_plan storage p') as [t' r']; reflexivity.
Qed.

Lemma store_all_plan (storage : event -> result unit) (dataframes : datasets) :
  store_all storage dataframes
  = run_plan storage
      (flat_map (fun fd => [ToSql (fst fd) "test_cases";
                            LogInfo ("Created table `test_cases` from "
                                     ++ fst fd)]) dataframes).
Proof.
  induction dataframes as [|[df_name df] rest IH]; [reflexivity|].
  cbn [store_all flat_map app run_plan is_storage fst]. rewrite IH.
  unfold call. reflexivity.
Qed.

Lemma mbind_ext (A B : Type) (m : M A) (k k' : A -> M B) :
  (forall a, k a = k' a) -> mbind m k = mbind m k'.
Proof.
  intros H. unfold mbind. destruct m as [t [a|e]]; [|reflexivity].
  now rewrite H.
Qed.

Lemma mbind_ret_unit (m : M unit) : (m ;;; ret tt) = m.
Proof.
  unfold mbind, ret. destruct m as [t [[]|e]]; [|reflexivity].
  now rewrite app_nil_r.
Qed.

(** [main] is the loader followed by the plan for the frames it returns. *)
Lemma main_plan (storage : event -> result unit)
  (file_list : list (string * list RawRecord)) :
  main storage file_list
  = (dataframes <~ load_datasets_from_filesystem file_list ;;
     run_plan storage (storage_plan dataframes)).
Proof.
  unfold main. apply mbind_ext. intros dataframes.
  unfold storage_plan. cbn [app run_plan is_storage].
  rewrite run_plan_app, <- store_all_plan. cbn [run_plan is_storage].
  now rewrite mbind_ret_unit.
Qed.

Lemma run_plan_ok (storage : event -> result unit) (plan : list event) :
  (forall ev, In ev plan -> is_storage ev = true -> storage ev = Ok tt) ->
  run_plan storage plan = (plan, Ok tt).
Proof.
  induction plan as [|ev plan IH]; intros H; [reflexivity|].
  cbn [run_plan]. rewrite IH by (intros ev' Hin; apply H; now right).
  destruct (is_storage ev) eqn:E; [|reflexivity].
  now rewrite (H ev (or_introl eq_refl) E).
Qed.



Lemma run_plan_trace_In (storage : event -> result unit) (plan : list event)
  (ev : event) :
  In ev (trace (run_plan storage plan)) -> In ev plan.
Proof.
  induction plan as [|ev0 plan IH]; [intros []|].
  cbn [run_plan]. rewrite mbind_trace, in_app_iff.
  intros [H|H].
  - left. destruct (is_storage ev0); cbn in H; tauto.
  - right. apply IH. destruct (outcome _) as [[]|]; [assumption|destruct H].
Qed.

Lemma mbind_Forall (A B : Type) (P : event -> Prop) (m : M A) (k : A -> M B) :
  Forall P (trace m) -> (forall a, Forall P (trace (k a))) ->
  Forall P (trace (mbind m k)).
Proof.
  intros Hm Hk. rewrite mbind_trace. apply Forall_app. split; [assumption|].
  destruct (outcome m); [apply Hk|constructor].
Qed.

Lemma mapM_Forall (A B : Type) (P : event -> Prop) (f : A -> M B)
  (l : list A) :
  (forall a, Forall P (trace (f a))) -> Forall P (trace (mapM f l)).
Proof.
  intros Hf. induction l as [|a l IH]; [constructor|].
  cbn [mapM]. apply mbind_Forall; [apply Hf|]. intros b.
  apply mbind_Forall; [assumption|]. intros bs. constructor.
Qed.

(** The loader's own events: log lines, the write of the cleaned frame, the
    print of the columns.  Whatever the files hold and however the run ends,
    it makes no call into the storage layer. *)
Lemma loader_no_storage (file_list : list (string * list RawRecord)) :
  Forall (fun ev => is_storage ev = false)
         (trace (load_datasets_from_filesystem file_list)).
Proof.
  unfold load_datasets_from_filesystem.
  destruct (List.length file_list =? 0)%nat; [constructor|].
  generalize (@nil (string * list Flat.t)).
  induction file_list as [|[file dataset_df] rest IH]; intros cleaned;
    [constructor|].
  cbn [load_loop]. apply mbind_Forall.
  - unfold clean_dataset. apply mbind_Forall; [|intros metas; constructor].
    apply mapM_Forall. intros r. rewrite preprocess_trace.
    now repeat constructor.
  - intros df. apply mbind_Forall; [now repeat constructor|]. intros _.
    apply mbind_Forall; [now repeat constructor|]. intros _. apply IH.
Qed.

(** ** The entry point *)





(** X11: [main] reaches the storage layer only after the loader has returned
    the frames of all the files: when one row of one file cannot be cleaned,
    no connection string is asked for, no table is created and no frame is
    written, also not the frames of the files cleaned before.  What it then
    does there is a step of the plan for those frames; in particular a frame
    is written to no table but test_cases. *)
Theorem main_stores_after_all_cleaned (storage : event -> result unit)
  (file_list : list (string * list RawRecord)) (ev : event) :
  In ev (trace (main storage file_list)) ->
  is_storage ev = true ->
  exists t dfs,
    load_datasets_from_filesystem file_list = (t, Ok dfs)
    /\ In ev (storage_plan dfs).
Proof.
  rewrite main_plan, mbind_trace, in_app_iff. intros [H|H] Hs.
  - pose proof (loader_no_storage file_list) as Hl.
    rewrite Forall_forall in Hl. specialize (Hl _ H). congruence.
  - destruct (load_datasets_from_filesystem file_list) as [t [dfs|e]];
      cbn [outcome snd] in H; [|destruct H].
    exists t, dfs. split; [reflexivity|].
    now apply run_plan_trace_In in H.
Qed.

Lemma main_stores_after_all_cleaned_witness :
  exists t dfs,
    load_datasets_from_filesystem
      [("a_all.csv", [row_of (JString "report.pdf") C4_input])] = (t, Ok dfs)
    /\ In (ToSql "a_all.csv" "test_cases") (storage_plan dfs).
Proof.
  apply (@main_stores_after_all_cleaned (fun _ => Ok tt)
           [("a_all.csv", [row_of (JString "report.pdf") C4_input])]
           (ToSql "a_all.csv" "test_cases")).
  - vm_compute. tauto.
  - reflexivity.
Defined.

(** ** A run of the loader that fails *)

Lemma mapM_first_raise (A B : Type) (f : A -> M B) (good : list A) (a : A)
  (rest : list A) (e : exn) :
  Forall (fun x => exists b, outcome (f x) = Ok b) good ->
  outcome (f a) = Raise e ->
  mapM f (good ++ a :: rest)
  = ((flat_map (fun x => trace (f x)) good ++ trace (f a))%list, Raise e).
Proof.
  intros Hg Ha. induction Hg as [|x good [b Hx] _ IH]; cbn [app mapM flat_map].
  - destruct (f a) as [t r]. cbn [outcome snd] in Ha. subst r. reflexivity.
  - rewrite IH. destruct (f x) as [t r]. cbn [outcome snd] in Hx. subst r.
    cbn [mbind trace fst]. now rewrite <- app_assoc.
Qed.

(** X12: [apply] goes through the rows in order and stops at the first row
    whose metadata cannot be turned into a record: the frame is not built,
    the exception of that row is the one raised, and the rows after it are
    not looked at (one log line for each row up to it, none after). *)
Theorem clean_dataset_first_bad_row (good : list RawRecord) (r : RawRecord)
  (rest : list RawRecord) (e : exn) :
  Forall (fun x => exists meta,
              outcome (preprocess_annotator_metadata (annotator_metadata x))
              = Ok meta) good ->
  outcome (preprocess_annotator_metadata (annotator_metadata r)) = Raise e ->
  clean_dataset (good ++ r :: rest)
  = (repeat (LogInfo "Fixing annotator metadata") (S (List.length good)),
     Raise e).
Proof.
  intros Hg Hr. unfold clean_dataset.
  rewrite (@mapM_first_raise _ _
             (fun r => preprocess_annotator_metadata (annotator_metadata r))
             good r rest e Hg Hr).
  cbn [mbind]. f_equal. rewrite preprocess_trace. clear.
  induction good as [|x good IH]; [reflexivity|].
  cbn [flat_map List.length repeat]. rewrite preprocess_trace.
  cbn [app]. now rewrite IH.
Qed.

Lemma clean_dataset_first_bad_row_witness :
  clean_dataset
    ([row_of (JString "report.pdf") C4_input]
     ++ row_of JNull "{" :: [row_of JNull C4_input])%list
  = ([LogInfo "Fixing annotator metadata";
      LogInfo "Fixing annotator metadata"], Raise JSONDecodeError).
Proof.
  apply (@clean_dataset_first_bad_row
           [row_of (JString "report.pdf") C4_input] (row_of JNull "{")
           [row_of JNull C4_input] JSONDecodeError).
  - constructor; [|constructor]. exists C4_record. reflexivity.
  - reflexivity.
Defined.

Lemma load_loop_first_raise (good : list (string * list RawRecord))
  (file : string) (rows : list RawRecord)
  (rest : list (string * list RawRecord)) (cleaned : datasets)
  (t : list event) (e : exn) :
  Forall (fun fr => exists t' df, clean_dataset (snd fr) = (t', Ok df)) good ->
  clean_dataset rows = (t, Raise e) ->
  load_loop (good ++ (file, rows) :: rest) cleaned
  = ((loader_trace good ++ t)%list, Raise e).
Proof.
  intros Hg Hr. revert cleaned.
  induction Hg as [|[f0 rows0] good (t0 & df0 & H0) _ IH]; intros cleaned;
    cbn [app load_loop].
  - now rewrite Hr.
  - cbn [snd] in H0. rewrite H0. cbn [mbind emit]. rewrite IH.
    cbn [loader_trace flat_map snd].
    destruct (clean_dataset_rows _ H0) as [_ ->].
    fold (loader_trace good). now rewrite <- !app_assoc.
Qed.

(** X13: the files are cleaned one after the other, and the first file
    whose frame cannot be built ends the run with its exception: no dict is
    returned, the files after it are not read, and the cleaned frames of the
    files before it have already been written to the csv file.  (Writing
    the csv file is an event of this model that does not fail.) *)
Theorem loader_first_bad_file (good : list (string * list RawRecord))
  (file : string) (rows : list RawRecord)
  (rest : list (string * list RawRecord)) (t : list event) (e : exn) :
  Forall (fun fr => exists t' df, clean_dataset (snd fr) = (t', Ok df)) good ->
  clean_dataset rows = (t, Raise e) ->
  load_datasets_from_filesystem (good ++ (file, rows) :: rest)
  = ((loader_trace good ++ t)%list, Raise e).
Proof.
  intros Hg Hr. unfold load_datasets_from_filesystem.
  rewrite length_app. cbn [List.length]. rewrite Nat.add_succ_r.
  cbn [Nat.eqb]. now apply load_loop_first_raise.
Qed.

Lemma loader_first_bad_file_witness :
  load_datasets_from_filesystem
    ([("a_all.csv", [row_of (JString "report.pdf") C4_input])]
     ++ ("b_all.csv", [row_of JNull "{"])
     :: [("c_all.csv", [row_of JNull C4_input])])%list
  = ([LogInfo "Fixing annotator metadata";
      ToCsv "resources/cleaned_datasets/1.csv"; PrintColumns;
      LogInfo "Fixing annotator metadata"], Raise JSONDecodeError).
Proof.
  apply (@loader_first_bad_file
           [("a_all.csv", [row_of (JString "report.pdf") C4_input])]
           "b_all.csv" [row_of JNull "{"]
           [("c_all.csv", [row_of JNull C4_input])]
           [LogInfo "Fixing annotator metadata"] JSONDecodeError).
  - constructor; [|constructor]. eexists. eexists. vm_compute. reflexivity.
  - reflexivity.
Defined.

(** ** Python literals *)

Lemma append_assoc (a b c : string) : (a ++ b) ++ c = a ++ (b ++ c).
Proof. induction a as [|x a IH]; simpl; congruence. Qed.

Lemma swap_app (a b : string) :
  swap_quotes (a ++ b) = swap_quotes a ++ swap_quotes b.
Proof. unfold swap_quotes. induction a as [|x a IH]; simpl; congruence. Qed.

Lemma join_cons (x y : string) (l : list string) :
  join ", " (x :: y :: l) = x ++ String "," (String " " (join ", " (y :: l))).
Proof. reflexivity. Qed.

Lemma swap_join (l : list string) :
  swap_quotes (join ", " l) = join ", " (map swap_quotes l).
Proof.
  induction l as [|x l IH]; [reflexivity|].
  destruct l as [|y l]; [reflexivity|].
  cbn [map] in *. rewrite !join_cons, swap_app, <- IH. reflexivity.
Qed.

(** *** The classes of strings *)

Lemma json_text_plain (s : string) : plain_text s = true -> json_text s = true.
Proof. unfold plain_text. intros H. now apply andb_true_iff in H. Qed.

Lemma json_text_tier2 (s : string) :
  tier2_string s = true -> json_text s = true.
Proof.
  unfold tier2_string. intros H.
  apply andb_true_iff in H. destruct H as [H _].
  now apply andb_true_iff in H.
Qed.

Lemma contains_sq_cons (c : ascii) (s : string) :
  contains "'" (String c s) = (c =? sq)%char || contains "'" s.
Proof.
  cbn [contains startswith]. rewrite andb_true_r.
  now rewrite (Ascii.eqb_sym "'" c).
Qed.

Lemma json_no_dq (s : string) : json_text s = true -> contains DQ s = false.
Proof.
  induction s as [|c s IH]; [reflexivity|]. cbn [json_text].
  intros H. apply andb_true_iff in H. destruct H as [Hc Hs].
  unfold json_char in Hc.
  apply andb_true_iff in Hc. destruct Hc as [_ Hc].
  apply andb_true_iff in Hc. destruct Hc as [Hc _].
  apply andb_true_iff in Hc. destruct Hc as [Hc _].
  apply negb_true_iff in Hc.
  unfold DQ. cbn [contains startswith]. fold DQ.
  now rewrite (Ascii.eqb_sym dq c), Hc, (IH Hs).
Qed.

Lemma no_sq_no_quote (s : string) :
  json_text s = true -> contains "'" s = false -> has_quote s = false.
Proof.
  induction s as [|c s IH]; [reflexivity|].
  cbn [json_text has_quote]. rewrite contains_sq_cons.
  intros H Hq. apply andb_true_iff in H. destruct H as [Hc Hs].
  apply orb_false_iff in Hq. destruct Hq as [Hq1 Hq2].
  unfold json_char in Hc.
  apply andb_true_iff in Hc. destruct Hc as [_ Hc].
  apply andb_true_iff in Hc. destruct Hc as [Hc _].
  apply andb_true_iff in Hc. destruct Hc as [Hc _].
  apply negb_true_iff in Hc.
  unfold is_quote. now rewrite Hc, Hq1, (IH Hs Hq2).
Qed.

Lemma plain_no_quote (s : string) : plain_text s = true -> has_quote s = false.
Proof.
  unfold plain_text. intros H. apply andb_true_iff in H.
  destruct H as [H1 H2]. apply negb_true_iff in H2.
  now apply no_sq_no_quote.
Qed.

Lemma str_repr_plain (s : string) :
  contains "'" s = false -> str_repr s = quoted sq s.
Proof. unfold str_repr. now intros ->. Qed.

Lemma str_repr_apostrophe (s : string) :
  json_text s = true -> contains "'" s = true -> str_repr s = quoted dq s.
Proof.
  unfold str_repr. intros Hj ->. now rewrite (json_no_dq s Hj).
Qed.

Lemma py_ok_weaken (f g : string -> bool) :
  (forall s, f s = true -> g s = true) ->
  forall p, py_ok f p = true -> py_ok g p = true.
Proof.
  intros Hfg p.
  induction p as [s|neg ds|items IH|d IH] using py_induction;
    cbn [py_ok]; intros H.
  - now apply Hfg.
  - assumption.
  - rewrite forallb_forall in *. rewrite Forall_forall in IH.
    intros x Hx. apply IH; [assumption|]. now apply H.
  - apply andb_true_iff in H. destruct H as [Hd H]. rewrite Hd. cbn [andb].
    rewrite forallb_forall in *. rewrite Forall_forall in IH.
    intros x Hx. specialize (H x Hx). apply andb_true_iff in H.
    destruct H as [H1 H2]. rewrite (Hfg _ H1). cbn [andb].
    now apply IH.
Qed.

(** *** Digits *)

Lemma digit_no_quote (c : ascii) : is_digit c = true -> is_quote c = false.
Proof.
  intros H. unfold is_quote.
  now rewrite !(digit_not c) by (assumption || reflexivity).
Qed.

Lemma digits_no_quote (ds : string) :
  digits_only ds = true -> has_quote ds = false.
Proof.
  induction ds as [|c ds IH]; [reflexivity|]. cbn [digits_only has_quote].
  intros H. apply andb_true_iff in H. destruct H as [Hc Hd].
  now rewrite (digit_no_quote _ Hc), IH.
Qed.

Lemma canonical_digits (ds : string) :
  canonical ds = true ->
  exists c ds', ds = String c ds' /\ is_digit c = true
                /\ digits_only ds' = true.
Proof.
  destruct ds as [|c ds']; [discriminate|]. cbn [canonical].
  intros H. exists c, ds'. split; [reflexivity|].
  destruct (Ascii.eqb_spec c "0") as [->|_].
  - apply String.eqb_eq in H. subst ds'. now split.
  - now apply andb_true_iff in H.
Qed.

Lemma int_no_quote (neg : bool) (ds : string) :
  canonical ds = true -> has_quote ((if neg then "-" else "") ++ ds) = false.
Proof.
  intros H. destruct (canonical_digits _ H) as (c & ds' & -> & Hc & Hd).
  assert (Hq : has_quote (String c ds') = false)
    by (cbn [has_quote]; now rewrite (digit_no_quote _ Hc), digits_no_quote).
  now destruct neg.
Qed.

(** *** The decoder on the JSON text of a literal *)

Lemma scanstring_json (s r : string) :
  json_text s = true -> scanstring (s ++ String dq r) = Some (s, r).
Proof.
  induction s as [|c s IH]; intros H.
  - cbn [append scanstring]. now rewrite Ascii.eqb_refl.
  - cbn [json_text] in H. apply andb_true_iff in H. destruct H as [Hc Hs].
    unfold json_char in Hc.
    apply andb_true_iff in Hc. destruct Hc as [_ Hc].
    apply andb_true_iff in Hc. destruct Hc as [Hc H3].
    apply andb_true_iff in Hc. destruct Hc as [H1 H2].
    apply negb_true_iff in H1, H2, H3.
    cbn [append scanstring]. rewrite H1, H2, H3, (IH Hs). reflexivity.
Qed.

Lemma span_digits_app (ds r : string) :
  digits_only ds = true -> closes r = true ->
  span_digits (ds ++ r) = (ds, r).
Proof.
  intros Hd Hr. induction ds as [|c ds IH].
  - destruct r as [|x r]; [reflexivity|]. cbn [append span_digits].
    cbn [closes] in Hr.
    destruct (is_digit x) eqn:E; [|reflexivity].
    now rewrite !(digit_not x) in Hr by (assumption || reflexivity).
  - cbn [digits_only] in Hd. apply andb_true_iff in Hd.
    destruct Hd as [Hc Hd]. cbn [append span_digits].
    now rewrite Hc, (IH Hd).
Qed.

Lemma scan_digits_app (ds r : string) :
  canonical ds = true -> closes r = true ->
  scan_digits (ds ++ r) = Some (ds, r).
Proof.
  intros Hd Hr. destruct ds as [|c ds]; [discriminate|].
  cbn [canonical] in Hd. cbn [append scan_digits].
  destruct (c =? "0")%char eqn:E.
  - apply String.eqb_eq in Hd. subst ds. apply Ascii.eqb_eq in E. now subst c.
  - apply andb_true_iff in Hd. destruct Hd as [Hc Hd].
    now rewrite Hc, (span_digits_app _ _ Hd Hr).
Qed.

Lemma closes_no_frac (r : string) :
  closes r = true -> scan_frac r = ("", r) /\ scan_exp r = ("", r).
Proof.
  destruct r as [|x r]; [now split|]. cbn [closes scan_frac scan_exp].
  intros H. apply orb_true_iff in H. destruct H as [H|H];
    [apply orb_true_iff in H; destruct H as [H|H]|];
    apply Ascii.eqb_eq in H; subst x; now split.
Qed.

Lemma scan_number_app (neg : bool) (ds r : string) :
  canonical ds = true -> closes r = true ->
  scan_number ((if neg then "-" else "") ++ ds ++ r)
  = Some (py_value (PInt neg ds), r).
Proof.
  intros Hd Hr. unfold scan_number, scan_int.
  assert (Hm : scan_minus ((if neg then "-" else "") ++ ds ++ r)
               = (neg, ds ++ r)).
  { destruct neg; [reflexivity|]. cbn [append].
    destruct (canonical_digits _ Hd) as (c & ds' & -> & Hc & _).
    cbn [append scan_minus].
    now rewrite (digit_not c) by (assumption || reflexivity). }
  rewrite Hm, (scan_digits_app _ _ Hd Hr).
  destruct (closes_no_frac _ Hr) as [-> ->]. reflexivity.
Qed.

Lemma quoted_head (q : ascii) (s : string) :
  is_quote q = true -> exists c t, quoted q s = String c t /\ opens c = true.
Proof.
  intros H. exists q, (s ++ String q ""). split; [reflexivity|].
  destruct (quote_cases _ H) as [->| ->]; reflexivity.
Qed.

(** The text of a literal starts with a quote, a sign, a digit or an opening
    bracket, whatever its strings are written between. *)
Lemma py_text_head (str : string -> string) (ok : string -> bool) (p : py) :
  (forall s, exists c t, str s = String c t /\ opens c = true) ->
  py_ok ok p = true ->
  exists c t, py_text str p = String c t /\ opens c = true.
Proof.
  intros Hstr.
  destruct p as [s|neg ds|items|d]; cbn [py_ok py_text]; intros H.
  - apply Hstr.
  - apply andb_true_iff in H. destruct H as [H _].
    destruct (canonical_digits _ H) as (c & ds' & -> & Hc & _).
    destruct neg; [now exists "-"%char, (String c ds')|].
    exists c, ds'. split; [reflexivity|]. unfold opens. rewrite Hc.
    now rewrite !orb_true_r.
  - now eexists _, _.
  - now eexists _, _.
Qed.

Lemma py_json_head (ok : string -> bool) (p : py) :
  py_ok ok p = true -> exists c t, py_json p = String c t /\ opens c = true.
Proof.
  apply py_text_head. intros s. now apply quoted_head.
Qed.

Lemma opens_skip_ws (c : ascii) (t : string) :
  opens c = true -> skip_ws (String c t) = String c t.
Proof.
  intros H. cbn [skip_ws].
  destruct (is_ws c) eqn:E; [|reflexivity]. exfalso.
  unfold is_ws in E. unfold opens in H.
  repeat (apply orb_true_iff in E; destruct E as [E|E]);
    apply Ascii.eqb_eq in E; subst c; discriminate.
Qed.

Lemma opens_not_closing (c : ascii) :
  opens c = true -> (c =? "]")%char = false /\ (c =? "}")%char = false.
Proof.
  intros H. split.
  - destruct (Ascii.eqb_spec c "]") as [->|]; [discriminate|reflexivity].
  - destruct (Ascii.eqb_spec c "}") as [->|]; [discriminate|reflexivity].
Qed.

Lemma array_entry (n : nat) (R : string) :
  (exists c t, R = String c t /\ opens c = true) ->
  match skip_ws R with
  | "" => None
  | String c1 r1 =>
      if (c1 =? "]")%char then Some (JArray [], r1)
      else JSONArray n (skip_ws R) []
  end = JSONArray n R [].
Proof.
  intros (c & t & -> & Ho). rewrite (opens_skip_ws c t Ho).
  now rewrite (proj1 (opens_not_closing c Ho)).
Qed.

Lemma object_entry (n : nat) (R : string) :
  (exists c t, R = String c t /\ opens c = true) ->
  match skip_ws R with
  | "" => None
  | String c1 r1 =>
      if (c1 =? "}")%char then Some (JObject [], r1)
      else JSONObject n (skip_ws R) []
  end = JSONObject n R [].
Proof.
  intros (c & t & -> & Ho). rewrite (opens_skip_ws c t Ho).
  now rewrite (proj2 (opens_not_closing c Ho)).
Qed.

Lemma head_app (s r : string) :
  (exists c t, s = String c t /\ opens c = true) ->
  exists c t, s ++ r = String c t /\ opens c = true.
Proof. intros (c & t & -> & Ho). now exists c, (t ++ r). Qed.

Lemma skip_blank (s : string) :
  (exists c t, s = String c t /\ opens c = true) ->
  skip_ws (String " " s) = s.
Proof.
  intros (c & t & -> & Ho). cbn [skip_ws].
  change (is_ws " ") with true. cbv iota. now apply opens_skip_ws.
Qed.

Lemma join_head (A : Type) (f : A -> string) (l : list A) :
  l <> [] ->
  (forall a, In a l -> exists c t, f a = String c t /\ opens c = true) ->
  exists c t, join ", " (map f l) = String c t /\ opens c = true.
Proof.
  destruct l as [|x l]; [congruence|]. intros _ H.
  destruct l as [|y l]; [apply H; now left|].
  cbn [map]. rewrite join_cons. apply head_app, H. now left.
Qed.

Lemma JSONArray_items (items : list py) :
  items <> [] -> forallb (py_ok json_text) items = true ->
  Forall reads items ->
  forall values rest n,
    2 * length (join ", " (map py_json items)) + 2 <= n ->
    JSONArray n (join ", " (map py_json items) ++ String "]" rest) values
    = Some (JArray (values ++ map py_value items), rest).
Proof.
  intros Hne Hwf Hr. induction Hr as [|x items Hx Hr IH]; [congruence|].
  clear Hne. cbn [forallb] in Hwf. apply andb_true_iff in Hwf.
  destruct Hwf as [Hwx Hwf]. intros values rest n Hn.
  destruct items as [|y items].
  - cbn [map join] in *. destruct n as [|n]; [lia|].
    cbn [JSONArray]. rewrite Hx by (reflexivity || lia).
    cbn [skip_ws]. change (is_ws "]") with false. cbv iota.
    now rewrite Ascii.eqb_refl.
  - cbn [map] in *. rewrite join_cons in *. rewrite append_assoc.
    rewrite length_append in Hn. cbn [length] in Hn.
    destruct n as [|n]; [lia|]. cbn [JSONArray append].
    rewrite Hx by (reflexivity || lia).
    cbn [skip_ws]. change (is_ws ",") with false. cbv iota.
    change ("," =? "]")%char with false. cbv iota. rewrite Ascii.eqb_refl.
    rewrite skip_blank.
    + rewrite IH; [|discriminate|assumption|lia].
      now rewrite <- app_assoc.
    + apply head_app, (join_head py_json (l := y :: items));
        [discriminate|].
      intros a Ha. apply (py_json_head json_text).
      change (forallb (py_ok json_text) (y :: items) = true) in Hwf.
      rewrite forallb_forall in Hwf. now apply Hwf.
Qed.

Lemma pair_text_head (kv : string * py) :
  exists c t, pair_text kv = String c t /\ opens c = true.
Proof.
  unfold pair_text, quoted. cbn [append]. eexists _, _.
  split; reflexivity.
Qed.

Lemma pair_text_unfold (kv : string * py) (tail : string) :
  pair_text kv ++ tail
  = String dq (fst kv ++ String dq (String ":" (String " "
                 (py_json (snd kv) ++ tail)))).
Proof.
  unfold pair_text, quoted. cbn [append]. now rewrite !append_assoc.
Qed.

Lemma pair_text_length (kv : string * py) :
  length (py_json (snd kv)) < length (pair_text kv).
Proof.
  unfold pair_text, quoted. cbn [length]. rewrite !length_append.
  cbn [length]. rewrite length_append. lia.
Qed.

Lemma JSONObject_pairs (d : list (string * py)) :
  d <> [] ->
  forallb (fun kv => json_text (fst kv) && py_ok json_text (snd kv)) d = true ->
  Forall (fun kv => reads (snd kv)) d ->
  forall pairs rest n,
    2 * length (join ", " (map pair_text d)) + 2 <= n ->
    JSONObject n (join ", " (map pair_text d) ++ String "}" rest) pairs
    = Some (JObject (dict_of_pairs
                       (pairs ++ map (fun kv => (fst kv, py_value (snd kv))) d)),
            rest).
Proof.
  intros Hne Hwf Hr. induction Hr as [|x d Hx Hr IH]; [congruence|].
  clear Hne. cbn [forallb] in Hwf. apply andb_true_iff in Hwf.
  destruct Hwf as [Hwx Hwf]. apply andb_true_iff in Hwx.
  destruct Hwx as [Hk Hv].
  intros pairs rest n Hn. pose proof (pair_text_length x) as Hl.
  destruct (py_json_head json_text (snd x) Hv) as (c & t & E & Ho).
  destruct d as [|y d].
  - cbn [map join] in *. destruct n as [|n]; [lia|].
    rewrite pair_text_unfold. cbn [JSONObject].
    rewrite Ascii.eqb_refl, (scanstring_json _ _ Hk).
    cbn [skip_ws]. change (is_ws ":") with false. cbv iota.
    rewrite Ascii.eqb_refl, skip_blank
      by (apply head_app; now exists c, t).
    rewrite Hx by (reflexivity || lia).
    cbn [skip_ws]. change (is_ws "}") with false. cbv iota.
    now rewrite Ascii.eqb_refl.
  - cbn [map] in *. rewrite join_cons in *. rewrite append_assoc.
    rewrite length_append in Hn. cbn [length] in Hn.
    destruct n as [|n]; [lia|].
    rewrite pair_text_unfold. cbn [JSONObject append].
    rewrite Ascii.eqb_refl, (scanstring_json _ _ Hk).
    cbn [skip_ws]. change (is_ws ":") with false. cbv iota.
    rewrite Ascii.eqb_refl, skip_blank
      by (apply head_app; now exists c, t).
    rewrite Hx by (reflexivity || lia).
    cbn [skip_ws]. change (is_ws ",") with false. cbv iota.
    change ("," =? "}")%char with false. cbv iota. rewrite Ascii.eqb_refl.
    rewrite skip_blank.
    + rewrite IH; [|discriminate|assumption|lia].
      now rewrite <- app_assoc.
    + apply head_app, (join_head pair_text (l := y :: d)); [discriminate|].
      intros a _. apply pair_text_head.
Qed.

Lemma existsb_eqb_In (k : string) (ks : list string) :
  existsb (String.eqb k) ks = false -> ~ In k ks.
Proof.
  intros H Hin. assert (E : existsb (String.eqb k) ks = true).
  { apply existsb_exists. exists k. split; [assumption|apply String.eqb_refl]. }
  congruence.
Qed.

Lemma dict_of_pairs_distinct (V : Type) (l : list (string * V)) :
  distinct (map fst l) = true -> dict_of_pairs l = l.
Proof.
  unfold dict_of_pairs. intros H.
  enough (G : forall c, (forall k, In k (map fst l) -> ~ In k (map fst c)) ->
                        fold_left (fun d kv => dict_set (fst kv) (snd kv) d) l c
                        = (c ++ l)%list)
    by (apply (G []); intros k _ []).
  induction l as [|[k v] l IH]; intros c Hc; [now rewrite app_nil_r|].
  cbn [map fst distinct] in H. apply andb_true_iff in H.
  destruct H as [Hk Hd]. apply negb_true_iff, existsb_eqb_In in Hk.
  cbn [fold_left fst snd].
  rewrite dict_set_fresh by (apply Hc; now left).
  rewrite (IH Hd); [now rewrite <- app_assoc|].
  intros k' Hk'. rewrite map_app, in_app_iff. cbn [map fst In].
  intros [Hin|[<-|[]]]; [|contradiction].
  apply (Hc k'); [now right|assumption].
Qed.

Lemma scan_once_number (c : ascii) (t : string) (n : nat) :
  (c =? "-")%char = true \/ is_digit c = true ->
  scan_once (S n) (String c t)
  = match scan_number (String c t) with
    | Some x => Some x
    | None =>
        if startswith "NaN" (String c t) then Some (JFloat "NaN", drop 3 (String c t))
        else if startswith "Infinity" (String c t)
             then Some (JFloat "Infinity", drop 8 (String c t))
        else if startswith "-Infinity" (String c t)
             then Some (JFloat "-Infinity", drop 9 (String c t))
        else None
    end.
Proof.
  intros H.
  assert (Hc : (c =? dq)%char = false /\ (c =? "{")%char = false
               /\ (c =? "[")%char = false /\ ("n" =? c)%char = false
               /\ ("t" =? c)%char = false /\ ("f" =? c)%char = false).
  { destruct H as [H|H].
    - apply Ascii.eqb_eq in H. subst c. now repeat split.
    - rewrite !(Ascii.eqb_sym _ c).
      now rewrite !(digit_not c) by (assumption || reflexivity). }
  destruct Hc as (H1 & H2 & H3 & H4 & H5 & H6).
  cbn [scan_once startswith]. now rewrite H1, H2, H3, H4, H5, H6.
Qed.

(** The decoder reads the JSON text of a literal to the value the literal
    denotes, and stops where the text ends. *)
Lemma scan_py_json (p : py) : py_ok json_text p = true -> reads p.
Proof.
  unfold reads, py_json.
  induction p as [s|neg ds|items IH|d IH] using py_induction;
    cbn [py_ok]; intros H rest n Hrest Hn; cbn [py_text py_value] in *.
  - unfold quoted in *. cbn [length] in Hn. destruct n as [|n]; [lia|].
    cbn [append scan_once]. rewrite Ascii.eqb_refl, append_assoc.
    cbn [append]. now rewrite (scanstring_json _ _ H).
  - apply andb_true_iff in H. destruct H as [H _].
    destruct n as [|n].
    { destruct (canonical_digits _ H) as (c & ds' & -> & _).
      rewrite length_append in Hn. cbn [length] in Hn. lia. }
    rewrite append_assoc.
    assert (Hh : exists c t, (if neg then "-" else "") ++ ds ++ rest
                             = String c t
                             /\ ((c =? "-")%char = true \/ is_digit c = true)).
    { destruct neg; [exists "-"%char, (ds ++ rest); now split; [|left]|].
      destruct (canonical_digits _ H) as (c & ds' & -> & Hc & _).
      exists c, (ds' ++ rest). now split; [|right]. }
    destruct Hh as (c & t & E & Hc). rewrite E, (scan_once_number c t n Hc).
    rewrite <- E, (scan_number_app neg _ _ H Hrest). reflexivity.
  - change (map (py_text (quoted dq)) items) with (map py_json items) in *.
    rewrite length_append in Hn. cbn [length] in Hn.
    rewrite length_append in Hn. cbn [length] in Hn.
    destruct n as [|n]; [lia|].
    rewrite !append_assoc. cbn [append scan_once].
    change ("[" =? dq)%char with false. change ("[" =? "{")%char with false.
    change ("[" =? "[")%char with true. cbv iota.
    destruct items as [|x items]; [reflexivity|].
    rewrite array_entry.
    + rewrite (JSONArray_items (items := x :: items));
        [reflexivity|discriminate|assumption| |lia].
      rewrite Forall_forall in IH. apply Forall_forall.
      intros a Ha rest' n'. apply IH; [assumption|].
      rewrite forallb_forall in H. now apply H.
    + apply head_app, (join_head py_json (l := x :: items));
        [discriminate|].
      intros a Ha. apply (py_json_head json_text).
      rewrite forallb_forall in H. now apply H.
  - apply andb_true_iff in H. destruct H as [Hd H].
    change (map (fun kv => quoted dq (fst kv) ++ ": "
                           ++ py_text (quoted dq) (snd kv)) d)
      with (map pair_text d) in *.
    rewrite length_append in Hn. cbn [length] in Hn.
    rewrite length_append in Hn. cbn [length] in Hn.
    destruct n as [|n]; [lia|].
    rewrite !append_assoc. cbn [append scan_once].
    change ("{" =? dq)%char with false. change ("{" =? "{")%char with true.
    cbv iota.
    destruct d as [|x d]; [reflexivity|].
    rewrite object_entry.
    + rewrite (JSONObject_pairs (d := x :: d));
        [|discriminate|assumption| |lia].
      * cbn [app]. rewrite dict_of_pairs_distinct; [reflexivity|].
        now rewrite map_map.
      * rewrite Forall_forall in IH. apply Forall_forall.
        intros a Ha rest' n'. apply IH; [assumption|].
        rewrite forallb_forall in H. specialize (H a Ha).
        now apply andb_true_iff in H.
    + apply head_app, (join_head pair_text (l := x :: d)); [discriminate|].
      intros a _. apply pair_text_head.
Qed.

Lemma json_loads_py_json (p : py) :
  py_ok json_text p = true -> json_loads (py_json p) = Ok (py_value p).
Proof.
  intros H.
  apply (@json_loads_complete _ (2 * length (py_json p)) _ "");
    [|reflexivity].
  destruct (py_json_head json_text p H) as (c & t & E & Ho).
  assert (Hsk : skip_ws (py_json p) = py_json p)
    by (rewrite E; now apply opens_skip_ws).
  rewrite Hsk.
  pose proof (scan_py_json p H) as G. unfold reads in G.
  specialize (G "" (2 * length (py_json p)) eq_refl (le_n _)).
  now rewrite append_empty in G.
Qed.

(** *** The text of the first attempt *)

Lemma py_text_ext (f g : string -> string) (good : string -> bool)
  (p : py) :
  (forall s, good s = true -> f s = g s) ->
  py_ok good p = true -> py_text f p = py_text g p.
Proof.
  intros Hfg.
  induction p as [s|neg ds|items IH|d IH] using py_induction;
    cbn [py_ok py_text]; intros H.
  - now apply Hfg.
  - reflexivity.
  - do 3 f_equal. apply map_ext_in. intros x Hx.
    rewrite Forall_forall in IH. apply IH; [assumption|].
    rewrite forallb_forall in H. now apply H.
  - apply andb_true_iff in H. destruct H as [_ H].
    do 3 f_equal. apply map_ext_in. intros x Hx.
    rewrite forallb_forall in H. specialize (H x Hx).
    apply andb_true_iff in H. destruct H as [H1 H2].
    rewrite (Hfg _ H1). do 2 f_equal.
    rewrite Forall_forall in IH. now apply IH.
Qed.

Lemma swap_py_text (str : string -> string) (good : string -> bool) (p : py) :
  py_ok good p = true ->
  swap_quotes (py_text str p) = py_text (fun s => swap_quotes (str s)) p.
Proof.
  induction p as [s|neg ds|items IH|d IH] using py_induction;
    cbn [py_ok py_text]; intros H.
  - reflexivity.
  - apply andb_true_iff in H. destruct H as [H _].
    apply swap_no_quote, int_no_quote, H.
  - rewrite !swap_app, swap_join, map_map. do 3 f_equal.
    apply map_ext_in. intros x Hx.
    rewrite Forall_forall in IH. apply IH; [assumption|].
    rewrite forallb_forall in H. now apply H.
  - apply andb_true_iff in H. destruct H as [_ H].
    rewrite !swap_app, swap_join, map_map. do 3 f_equal.
    apply map_ext_in. intros x Hx.
    rewrite forallb_forall in H. specialize (H x Hx).
    apply andb_true_iff in H. destruct H as [H1 H2].
    rewrite !swap_app. do 2 f_equal.
    rewrite Forall_forall in IH. now apply IH.
Qed.

Lemma swap_quoted (q : ascii) (s : string) :
  swap_quotes (quoted q s) = quoted (swap_quote q) (swap_quotes s).
Proof.
  unfold quoted, swap_quotes. cbn [map_chars].
  fold (swap_quotes (s ++ String q "")). rewrite swap_app. reflexivity.
Qed.

Lemma swap_str_plain (s : string) :
  plain_text s = true -> swap_quotes (str_repr s) = quoted dq s.
Proof.
  intros H. pose proof (plain_no_quote s H) as Hq.
  unfold plain_text in H. apply andb_true_iff in H. destruct H as [_ H].
  apply negb_true_iff in H.
  now rewrite (str_repr_plain s H), swap_quoted, (swap_no_quote s Hq).
Qed.

Lemma swap_str_apostrophe (s : string) :
  json_text s = true -> contains "'" s = true ->
  swap_quotes (str_repr s) = quoted sq (swap_quotes s).
Proof.
  intros Hj Hs. now rewrite (str_repr_apostrophe s Hj Hs), swap_quoted.
Qed.

Lemma py_tier1_text (good : string -> bool) (p : py) :
  py_ok good p = true ->
  py_tier1 p = py_text (fun s => swap_quotes (str_repr s)) p.
Proof. apply swap_py_text. Qed.

(** Without a single-quote in its strings, the text with its quotes
    exchanged is the JSON text of the literal. *)
Lemma py_tier1_plain (p : py) :
  py_ok plain_text p = true -> py_tier1 p = py_json p.
Proof.
  intros H. rewrite (py_tier1_text plain_text p H).
  apply (py_text_ext _ _ plain_text); [|assumption].
  apply swap_str_plain.
Qed.

Lemma py_ok_plain (p : py) :
  py_ok json_text p = true -> has_apostrophe p = false ->
  py_ok plain_text p = true.
Proof.
  unfold has_apostrophe.
  induction p as [s|neg ds|items IH|d IH] using py_induction;
    cbn [py_ok py_any]; intros H Ha.
  - unfold plain_text. now rewrite H, Ha.
  - assumption.
  - rewrite forallb_forall in *. rewrite Forall_forall in IH.
    intros x Hx. apply IH; [assumption|now apply H|].
    destruct (py_any (contains "'") x) eqn:E; [|reflexivity].
    assert (existsb (py_any (contains "'")) items = true)
      by (apply existsb_exists; now exists x).
    congruence.
  - apply andb_true_iff in H. destruct H as [Hd H]. rewrite Hd. cbn [andb].
    rewrite forallb_forall in *. rewrite Forall_forall in IH.
    intros x Hx. specialize (H x Hx). apply andb_true_iff in H.
    destruct H as [H1 H2].
    assert (E : contains "'" (fst x) || py_any (contains "'") (snd x) = false).
    { destruct (contains "'" (fst x) || py_any (contains "'") (snd x)) eqn:E;
        [|reflexivity].
      assert (existsb (fun kv => contains "'" (fst kv)
                                 || py_any (contains "'") (snd kv)) d = true)
        by (apply existsb_exists; now exists x).
      congruence. }
    apply orb_false_iff in E. destruct E as [E1 E2].
    unfold plain_text at 1. rewrite H1, E1. cbn [negb andb].
    now apply IH.
Qed.

(** *** The first attempt on a literal with a single-quote *)

Lemma scan_once_agree (n m : nat) (s : string) (v v' : json) (r r' : string) :
  scan_once n s = Some (v, r) -> scan_once m s = Some (v', r') ->
  v' = v /\ r' = r.
Proof.
  intros H H'.
  destruct (proj1 (scan_fuel n) _ _ _ H) as [_ G].
  destruct (proj1 (scan_fuel m) _ _ _ H') as [_ G'].
  specialize (G (2 * length s) ltac:(lia)).
  specialize (G' (2 * length s) ltac:(lia)).
  rewrite G in G'. now injection G' as <- <-.
Qed.

(** With whatever fuel, the decoder gives the value of the literal or
    nothing. *)
Lemma reads_any_fuel (p : py) (n : nat) (rest : string) :
  reads p -> closes rest = true ->
  scan_once n (py_json p ++ rest) = None
  \/ scan_once n (py_json p ++ rest) = Some (py_value p, rest).
Proof.
  intros Hp Hr.
  destruct (scan_once n (py_json p ++ rest)) as [[v r]|] eqn:E; [|now left].
  right. specialize (Hp rest _ Hr (le_n _)).
  destruct (scan_once_agree _ _ _ Hp E) as [-> ->]. reflexivity.
Qed.

Lemma scan_once_sq (n : nat) (t : string) : scan_once n (String sq t) = None.
Proof. destruct n; reflexivity. Qed.

Lemma JSONObject_sq (n : nat) (t : string) (pairs : list (string * json)) :
  JSONObject n (String sq t) pairs = None.
Proof. destruct n; reflexivity. Qed.

Lemma tier1_str_head (s : string) :
  exists c t, swap_quotes (str_repr s) = String c t /\ opens c = true.
Proof.
  unfold str_repr.
  destruct (contains "'" s && negb (contains DQ s)); rewrite swap_quoted;
    now apply quoted_head.
Qed.

Lemma py_tier1_head (good : string -> bool) (p : py) :
  py_ok good p = true ->
  exists c t, py_text (fun s => swap_quotes (str_repr s)) p = String c t
              /\ opens c = true.
Proof. apply py_text_head. apply tier1_str_head. Qed.

Lemma JSONArray_fails (items : list py) :
  forallb (py_ok json_text) items = true ->
  Forall (fun x => py_ok json_text x = true -> has_apostrophe x = true ->
                   forall n rest,
                     scan_once n (py_text (fun s => swap_quotes (str_repr s)) x
                                  ++ rest) = None) items ->
  existsb has_apostrophe items = true ->
  forall values rest n,
    JSONArray n (join ", " (map (py_text (fun s => swap_quotes (str_repr s)))
                                items) ++ String "]" rest) values = None.
Proof.
  intros Hwf Hf. induction Hf as [|x items Hx Hf IH]; [discriminate|].
  cbn [forallb] in Hwf. apply andb_true_iff in Hwf.
  destruct Hwf as [Hwx Hwf]. cbn [existsb]. intros Ha values rest n.
  destruct n as [|n]; [reflexivity|].
  destruct items as [|y items].
  - cbn [existsb] in Ha. rewrite orb_false_r in Ha.
    cbn [map join JSONArray]. now rewrite (Hx Hwx Ha).
  - cbn [map]. rewrite join_cons, append_assoc. cbn [JSONArray append].
    destruct (has_apostrophe x) eqn:Ex; [now rewrite (Hx Hwx eq_refl)|].
    cbn [orb] in Ha.
    pose proof (py_ok_plain x Hwx Ex) as Hp.
    rewrite <- (py_tier1_text json_text x Hwx), (py_tier1_plain x Hp).
    match goal with
    | |- context [scan_once n (py_json x ++ ?tail)] =>
        destruct (reads_any_fuel n tail (scan_py_json x Hwx) eq_refl)
          as [-> | ->]; [reflexivity|]
    end.
    cbn [skip_ws]. change (is_ws ",") with false. cbv iota.
    change ("," =? "]")%char with false. cbv iota. rewrite Ascii.eqb_refl.
    rewrite skip_blank; [now apply IH|].
    apply head_app,
      (join_head (py_text (fun s => swap_quotes (str_repr s)))
                 (l := y :: items)); [discriminate|].
    intros a Ha'. apply (py_tier1_head json_text).
    change (forallb (py_ok json_text) (y :: items) = true) in Hwf.
    rewrite forallb_forall in Hwf. now apply Hwf.
Qed.

Lemma tier1_pair_head (kv : string * py) :
  exists c t,
    swap_quotes (str_repr (fst kv)) ++ ": "
    ++ py_text (fun s => swap_quotes (str_repr s)) (snd kv) = String c t
    /\ opens c = true.
Proof. apply head_app, tier1_str_head. Qed.

Lemma JSONObject_fails (d : list (string * py)) :
  forallb (fun kv => json_text (fst kv) && py_ok json_text (snd kv)) d = true ->
  Forall (fun kv => py_ok json_text (snd kv) = true ->
                    has_apostrophe (snd kv) = true ->
                    forall n rest,
                      scan_once n
                        (py_text (fun s => swap_quotes (str_repr s)) (snd kv)
                         ++ rest) = None) d ->
  existsb (fun kv => contains "'" (fst kv) || has_apostrophe (snd kv)) d
  = true ->
  forall pairs rest n,
    JSONObject n
      (join ", "
         (map (fun kv => swap_quotes (str_repr (fst kv)) ++ ": "
                         ++ py_text (fun s => swap_quotes (str_repr s))
                                    (snd kv)) d)
       ++ String "}" rest) pairs = None.
Proof.
  intros Hwf Hf. induction Hf as [|x d Hx Hf IH]; [discriminate|].
  cbn [forallb] in Hwf. apply andb_true_iff in Hwf.
  destruct Hwf as [Hwx Hwf]. apply andb_true_iff in Hwx.
  destruct Hwx as [Hk Hv]. cbn [existsb]. intros Ha pairs rest n.
  destruct n as [|n]; [reflexivity|].
  set (T := py_text (fun s => swap_quotes (str_repr s))) in *.
  assert (Hpair : forall tail,
             JSONObject (S n)
               ((swap_quotes (str_repr (fst x)) ++ ": " ++ T (snd x)) ++ tail)
               pairs
             = if contains "'" (fst x) then None
               else match scan_once n (T (snd x) ++ tail) with
                    | None => None
                    | Some (value, r3) =>
                        match skip_ws r3 with
                        | "" => None
                        | String c2 r4 =>
                            if (c2 =? "}")%char
                            then Some (JObject
                                         (dict_of_pairs
                                            (pairs ++ [(fst x, value)])), r4)
                            else if (c2 =? ",")%char
                                 then JSONObject n (skip_ws r4)
                                        (pairs ++ [(fst x, value)])
                                 else None
                        end
                    end).
  { intros tail. destruct (contains "'" (fst x)) eqn:Ek.
    - rewrite (swap_str_apostrophe _ Hk Ek). unfold quoted. cbn [append].
      apply JSONObject_sq.
    - assert (Hpl : plain_text (fst x) = true)
        by (unfold plain_text; now rewrite Hk, Ek).
      rewrite (swap_str_plain _ Hpl). unfold quoted.
      rewrite !append_assoc. cbn [append JSONObject].
      rewrite Ascii.eqb_refl, append_assoc. cbn [append].
      rewrite (scanstring_json _ _ Hk).
      cbn [skip_ws]. change (is_ws ":") with false. cbv iota.
      rewrite Ascii.eqb_refl, skip_blank; [reflexivity|].
      apply head_app. apply (py_tier1_head json_text). exact Hv. }
  destruct d as [|y d].
  - cbn [existsb] in Ha. rewrite orb_false_r in Ha.
    cbn [map join]. rewrite Hpair.
    destruct (contains "'" (fst x)) eqn:Ek; [reflexivity|].
    cbn [orb] in Ha. now rewrite (Hx Hv Ha).
  - cbn [map]. rewrite join_cons, append_assoc. rewrite Hpair.
    destruct (contains "'" (fst x)) eqn:Ek; [reflexivity|].
    cbn [orb] in Ha.
    destruct (has_apostrophe (snd x)) eqn:Ex; [now rewrite (Hx Hv eq_refl)|].
    cbn [orb] in Ha.
    pose proof (py_ok_plain (snd x) Hv Ex) as Hp.
    unfold T at 1.
    rewrite <- (py_tier1_text json_text (snd x) Hv), (py_tier1_plain _ Hp).
    cbn [append].
    match goal with
    | |- context [scan_once n (py_json (snd x) ++ ?tail)] =>
        destruct (reads_any_fuel n tail (scan_py_json (snd x) Hv) eq_refl)
          as [-> | ->]; [reflexivity|]
    end.
    cbn [skip_ws]. change (is_ws ",") with false. cbv iota.
    change ("," =? "}")%char with false. cbv iota. rewrite Ascii.eqb_refl.
    rewrite skip_blank; [now apply IH|].
    apply head_app,
      (join_head (fun kv => swap_quotes (str_repr (fst kv)) ++ ": "
                            ++ T (snd kv)) (l := y :: d)); [discriminate|].
    intros a _. apply tier1_pair_head.
Qed.

(** The text the first attempt makes of a literal with a single-quote in a
    string is no JSON: the string that [repr] wrote between double-quotes is
    now between single-quotes, and the decoder stops there. *)
Lemma tier1_fails (p : py) :
  py_ok json_text p = true -> has_apostrophe p = true ->
  forall n rest,
    scan_once n (py_text (fun s => swap_quotes (str_repr s)) p ++ rest) = None.
Proof.
  unfold has_apostrophe.
  induction p as [s|neg ds|items IH|d IH] using py_induction;
    cbn [py_ok py_any py_text]; intros H Ha n rest.
  - rewrite (swap_str_apostrophe s H Ha). unfold quoted. cbn [append].
    apply scan_once_sq.
  - discriminate.
  - destruct n as [|n]; [reflexivity|].
    rewrite !append_assoc. cbn [append scan_once].
    change ("[" =? dq)%char with false. change ("[" =? "{")%char with false.
    change ("[" =? "[")%char with true. cbv iota.
    destruct items as [|x items]; [discriminate|].
    rewrite array_entry.
    + now apply JSONArray_fails.
    + apply head_app,
        (join_head (py_text (fun s => swap_quotes (str_repr s)))
                   (l := x :: items)); [discriminate|].
      intros a Ha'. apply (py_tier1_head json_text).
      rewrite forallb_forall in H. now apply H.
  - apply andb_true_iff in H. destruct H as [Hd H].
    destruct n as [|n]; [reflexivity|].
    rewrite !append_assoc. cbn [append scan_once].
    change ("{" =? dq)%char with false. change ("{" =? "{")%char with true.
    cbv iota.
    destruct d as [|x d]; [discriminate|].
    rewrite object_entry.
    + now apply JSONObject_fails.
    + apply head_app,
        (join_head (fun kv => swap_quotes (str_repr (fst kv)) ++ ": "
                              ++ py_text (fun s => swap_quotes (str_repr s))
                                         (snd kv)) (l := x :: d));
        [discriminate|].
      intros a _. apply tier1_pair_head.
Qed.

Lemma json_loads_tier1_fails (p : py) :
  py_ok json_text p = true -> has_apostrophe p = true ->
  json_loads (py_tier1 p) = Raise JSONDecodeError.
Proof.
  intros H Ha. rewrite (py_tier1_text json_text p H).
  unfold json_loads.
  destruct (py_tier1_head json_text p H) as (c & t & E & Ho).
  assert (Hsk : skip_ws (py_text (fun s => swap_quotes (str_repr s)) p)
                = py_text (fun s => swap_quotes (str_repr s)) p)
    by (rewrite E; now apply opens_skip_ws).
  rewrite Hsk.
  pose proof (tier1_fails p H Ha
                (json_fuel (py_text (fun s => swap_quotes (str_repr s)) p))
                "") as G.
  rewrite append_empty in G. now rewrite G.
Qed.

(** *** The text of the second attempt *)

Lemma head_contraction_app (a b : string) :
  head_contraction a = true -> head_contraction (a ++ b) = true.
Proof. now destruct a. Qed.

Lemma requote_keep (a b : string) :
  contractions_only a = true -> requote (a ++ b) = a ++ requote b.
Proof.
  induction a as [|c a IH]; [reflexivity|].
  cbn [contractions_only append requote]. intros H.
  apply andb_true_iff in H. destruct H as [H1 H2].
  rewrite (IH H2). f_equal.
  destruct (c =? sq)%char; [|reflexivity].
  cbn [negb orb] in H1. now rewrite (head_contraction_app a b H1).
Qed.

Lemma no_sq_contractions (s : string) :
  contains "'" s = false -> contractions_only s = true.
Proof.
  induction s as [|c s IH]; [reflexivity|].
  rewrite contains_sq_cons. cbn [contractions_only]. intros H.
  apply orb_false_iff in H. destruct H as [-> H]. now rewrite (IH H).
Qed.

Lemma requote_closing (tail : string) :
  head_contraction tail = false ->
  requote (String sq tail) = String dq (requote tail).
Proof.
  intros H. cbn [requote]. rewrite H.
  now rewrite Ascii.eqb_refl.
Qed.

(** Whichever quotes [repr] chose for a string, the second attempt leaves it
    between double-quotes and unchanged. *)
Lemma requote_str (s tail : string) :
  tier2_string s = true -> head_contraction tail = false ->
  requote (str_repr s ++ tail) = quoted dq s ++ requote tail.
Proof.
  unfold tier2_string. intros H Ht.
  apply andb_true_iff in H. destruct H as [H H3].
  apply andb_true_iff in H. destruct H as [H1 H2].
  destruct (contains "'" s) eqn:Es.
  - rewrite (str_repr_apostrophe s H1 Es). unfold quoted.
    cbn [append]. rewrite !append_assoc. cbn [append requote].
    change (dq =? sq)%char with false. cbn [andb].
    rewrite (requote_keep s _ H2). cbn [requote].
    change (dq =? sq)%char with false. reflexivity.
  - cbn [orb] in H3. apply negb_true_iff in H3.
    rewrite (str_repr_plain s Es). unfold quoted.
    cbn [append]. rewrite !append_assoc. cbn [append].
    assert (Hh : head_contraction (s ++ String sq tail) = false)
      by (destruct s; [reflexivity|exact H3]).
    cbn [requote]. rewrite Hh, Ascii.eqb_refl. cbn [negb andb].
    now rewrite (requote_keep s _ H2), (requote_closing tail Ht).
Qed.

Lemma requote_join (A : Type) (f g : A -> string) (l : list A) :
  Forall (fun a => forall tail, head_contraction tail = false ->
                     requote (f a ++ tail) = g a ++ requote tail) l ->
  forall tail, head_contraction tail = false ->
    requote (join ", " (map f l) ++ tail)
    = join ", " (map g l) ++ requote tail.
Proof.
  induction 1 as [|x l Hx Hl IH]; intros tail Ht; [reflexivity|].
  destruct l as [|y l]; [now apply Hx|].
  cbn [map] in *. rewrite !join_cons, !append_assoc. cbn [append].
  rewrite Hx by reflexivity. cbn [requote].
  change ("," =? sq)%char with false. change (" " =? sq)%char with false.
  cbn [andb]. now rewrite IH.
Qed.

Lemma requote_py_repr (p : py) :
  py_ok tier2_string p = true ->
  forall tail, head_contraction tail = false ->
    requote (py_repr p ++ tail) = py_json p ++ requote tail.
Proof.
  unfold py_repr, py_json.
  induction p as [s|neg ds|items IH|d IH] using py_induction;
    cbn [py_ok py_text]; intros H tail Ht.
  - now apply requote_str.
  - apply andb_true_iff in H. destruct H as [H _].
    apply requote_keep.
    pose proof (int_no_quote neg ds H) as Hq.
    clear -Hq. induction ((if neg then "-" else "") ++ ds) as [|c s IH];
      [reflexivity|].
    cbn [has_quote] in Hq. apply orb_false_iff in Hq. destruct Hq as [Hc Hs].
    unfold is_quote in Hc. apply orb_false_iff in Hc. destruct Hc as [_ Hc].
    cbn [contractions_only]. now rewrite Hc, (IH Hs).
  - rewrite !append_assoc. cbn [append requote].
    change ("[" =? sq)%char with false. cbn [andb]. f_equal.
    rewrite (requote_join (py_text str_repr) (py_text (quoted dq)));
      [|
       |reflexivity].
    + cbn [requote]. change ("]" =? sq)%char with false. reflexivity.
    + rewrite Forall_forall in *. intros x Hx. apply IH; [assumption|].
      rewrite forallb_forall in H. now apply H.
  - apply andb_true_iff in H. destruct H as [_ H].
    rewrite !append_assoc. cbn [append requote].
    change ("{" =? sq)%char with false. cbn [andb]. f_equal.
    rewrite (requote_join
               (fun kv => str_repr (fst kv) ++ ": "
                          ++ py_text str_repr (snd kv))
               (fun kv => quoted dq (fst kv) ++ ": "
                          ++ py_text (quoted dq) (snd kv)));
      [|
       |reflexivity].
    + cbn [requote]. change ("}" =? sq)%char with false. reflexivity.
    + rewrite Forall_forall in *. intros x Hx tail' Ht'.
      rewrite forallb_forall in H. specialize (H x Hx).
      apply andb_true_iff in H. destruct H as [H1 H2].
      rewrite !append_assoc. rewrite (requote_str _ _ H1) by reflexivity.
      cbn [append requote].
      change (":" =? sq)%char with false. change (" " =? sq)%char with false.
      cbn [andb]. now rewrite (IH x Hx H2 tail' Ht').
Qed.

(** *** Both attempts *)

Lemma tier1_reads (p : py) :
  py_ok plain_text p = true ->
  contains "TMP1" (py_repr p) = false ->
  fix_json_structure (py_repr p) = Ok (py_value p).
Proof.
  intros Hwf Hs. unfold fix_json_structure.
  rewrite (tier1_text_swap _ Hs).
  change (map_chars swap_quote (py_repr p)) with (py_tier1 p).
  rewrite (py_tier1_plain p Hwf), json_loads_py_json; [reflexivity|].
  exact (py_ok_weaken plain_text json_text json_text_plain p Hwf).
Qed.

Lemma tier2_reads (p : py) :
  py_ok tier2_string p = true ->
  has_apostrophe p = true ->
  sentinel_free (py_repr p) = true ->
  fix_json_structure (py_repr p) = Ok (py_value p).
Proof.
  intros Hwf Ha Hs. unfold fix_json_structure.
  pose proof (py_ok_weaken tier2_string json_text json_text_tier2 p Hwf) as Hj.
  assert (H1 : contains "TMP1" (py_repr p) = false).
  { unfold sentinel_free in Hs. apply andb_true_iff in Hs.
    destruct Hs as [Hs _]. apply andb_true_iff in Hs. destruct Hs as [Hs _].
    now apply negb_true_iff in Hs. }
  rewrite (tier1_text_swap _ H1).
  change (map_chars swap_quote (py_repr p)) with (py_tier1 p).
  rewrite (json_loads_tier1_fails p Hj Ha), (tier2_text_requote _ Hs).
  pose proof (requote_py_repr p Hwf "" eq_refl) as E.
  rewrite !append_empty in E. rewrite E. now apply json_loads_py_json.
Qed.

Lemma repairable_reads (p : py) :
  repairable p = true -> fix_json_structure (py_repr p) = Ok (py_value p).
Proof.
  unfold repairable. destruct (has_apostrophe p) eqn:Ea; intros H;
    apply andb_true_iff in H; destruct H as [H1 H2].
  - now apply tier2_reads.
  - apply negb_true_iff in H2. now apply tier1_reads.
Qed.

(** ** Metadata as [repr] writes it *)



(** X15: when a string of the metadata holds a single-quote, [repr] writes
    that string between double-quotes and the others between single-quotes;
    the first attempt fails on such a text and the second one reads it back
    as the value it denotes, provided every single-quote starts 's, 't or '(,
    no string written between single-quotes starts with s, t or an opening
    parenthesis, and the text holds none of the three sentinels. *)
Theorem python_literal_with_contractions (p : py) :
  py_ok tier2_string p = true ->
  has_apostrophe p = true ->
  py_depth p <= 100 ->
  sentinel_free (py_repr p) = true ->
  json_loads (tier1_text (py_repr p)) = Raise JSONDecodeError
  /\ fix_json_structure (py_repr p) = Ok (py_value p).
Proof.
  intros Hwf Ha _ Hs. split; [|now apply tier2_reads].
  assert (H1 : contains "TMP1" (py_repr p) = false).
  { unfold sentinel_free in Hs. apply andb_true_iff in Hs.
    destruct Hs as [Hs _]. apply andb_true_iff in Hs. destruct Hs as [Hs _].
    now apply negb_true_iff in Hs. }
  rewrite (tier1_text_swap _ H1).
  apply json_loads_tier1_fails; [|assumption].
  exact (py_ok_weaken tier2_string json_text json_text_tier2 p Hwf).
Qed.

Lemma python_literal_with_contractions_witness :
  json_loads
    (tier1_text
       (lit "{'Steps': [`Find what's needed`, `Don't stop`], 'Number of steps': 2, 'Tools': 'Web browser'}"))
  = Raise JSONDecodeError
  /\ fix_json_structure
       (lit "{'Steps': [`Find what's needed`, `Don't stop`], 'Number of steps': 2, 'Tools': 'Web browser'}")
     = Ok (JObject [("Steps", JArray [JString "Find what's needed";
                                      JString "Don't stop"]);
                    ("Number of steps", JInt 2);
                    ("Tools", JString "Web browser")]).
Proof.
  apply (python_literal_with_contractions
           (PDict [("Steps", PList [PStr "Find what's needed";
                                    PStr "Don't stop"]);
                   ("Number of steps", PInt false "2");
                   ("Tools", PStr "Web browser")])).
  - reflexivity.
  - reflexivity.
  - vm_compute. lia.
  - reflexivity.
Defined.

Lemma dict_get_map (A B : Type) (f : A -> B) (k : string)
  (d : list (string * A)) :
  dict_get k (map (fun kv => (fst kv, f (snd kv))) d)
  = option_map f (dict_get k d).
Proof.
  induction d as [|[k0 v0] d IH]; [reflexivity|].
  cbn [map dict_get fst snd]. now destruct (k =? k0)%string.
Qed.

Lemma preprocess_dict_record (d : list (string * py))
  (steps num_steps time_taken tools num_tools : py) :
  repairable (PDict d) = true ->
  dict_get "Steps" d = Some steps ->
  dict_get "Number of steps" d = Some num_steps ->
  dict_get "How long did this take?" d = Some time_taken ->
  dict_get "Tools" d = Some tools ->
  dict_get "Number of tools" d = Some num_tools ->
  preprocess_annotator_metadata (py_repr (PDict d))
  = ([LogInfo "Fixing annotator metadata"],
     Ok [("metadata_steps", py_value steps);
         ("metadata_num_steps", py_value num_steps);
         ("metadata_time_taken", py_value time_taken);
         ("metadata_tools", py_value tools);
         ("metadata_num_tools", py_value num_tools)]).
Proof.
  intros Hr H1 H2 H3 H4 H5.
  rewrite (surjective_pairing (preprocess_annotator_metadata _)).
  change (fst (preprocess_annotator_metadata (py_repr (PDict d))))
    with (trace (preprocess_annotator_metadata (py_repr (PDict d)))).
  change (snd (preprocess_annotator_metadata (py_repr (PDict d))))
    with (outcome (preprocess_annotator_metadata (py_repr (PDict d)))).
  rewrite preprocess_trace, preprocess_outcome. f_equal.
  rewrite (repairable_reads _ Hr). cbn [bind py_value getitem].
  now rewrite !dict_get_map, H1, H2, H3, H4, H5.
Qed.

(** X16: for a metadata cell that is such a text of a dict holding the five
    keys, [preprocess_annotator_metadata] returns the record of the values
    written under them, whatever other keys the dict holds and in whatever
    order they are written. *)
Theorem preprocess_python_dict (d : list (string * py))
  (steps num_steps time_taken tools num_tools : py) :
  repairable (PDict d) = true ->
  py_depth (PDict d) <= 100 ->
  dict_get "Steps" d = Some steps ->
  dict_get "Number of steps" d = Some num_steps ->
  dict_get "How long did this take?" d = Some time_taken ->
  dict_get "Tools" d = Some tools ->
  dict_get "Number of tools" d = Some num_tools ->
  preprocess_annotator_metadata (py_repr (PDict d))
  = ([LogInfo "Fixing annotator metadata"],
     Ok [("metadata_steps", py_value steps);
         ("metadata_num_steps", py_value num_steps);
         ("metadata_time_taken", py_value time_taken);
         ("metadata_tools", py_value tools);
         ("metadata_num_tools", py_value num_tools)]).
Proof. intros Hr _. now apply preprocess_dict_record. Qed.

Lemma preprocess_python_dict_witness :
  preprocess_annotator_metadata
    (lit "{'Tools': ['1. Web browser'], 'Number of tools': '1', 'Steps': `1. Find what's needed`, 'Number of steps': '1', 'How long did this take?': '5 minutes'}")
  = ([LogInfo "Fixing annotator metadata"],
     Ok [("metadata_steps", JString "1. Find what's needed");
         ("metadata_num_steps", JString "1");
         ("metadata_time_taken", JString "5 minutes");
         ("metadata_tools", JArray [JString "1. Web browser"]);
         ("metadata_num_tools", JString "1")]).
Proof.
  apply (@preprocess_python_dict
           [("Tools", PList [PStr "1. Web browser"]);
            ("Number of tools", PStr "1");
            ("Steps", PStr "1. Find what's needed");
            ("Number of steps", PStr "1");
            ("How long did this take?", PStr "5 minutes")]
           (PStr "1. Find what's needed") (PStr "1") (PStr "5 minutes")
           (PList [PStr "1. Web browser"]) (PStr "1")).
  - reflexivity.
  - vm_compute. lia.
  - reflexivity.
  - reflexivity.
  - reflexivity.
  - reflexivity.
  - reflexivity.
Defined.

(** ** Rows the loader can clean *)

Lemma mapM_all_ok (A B : Type) (f : A -> M B) (l : list A) :
  Forall (fun a => exists b, outcome (f a) = Ok b) l ->
  exists bs, mapM f l = (flat_map (fun a => trace (f a)) l, Ok bs)
             /\ Forall2 (fun a b => outcome (f a) = Ok b) l bs.
Proof.
  induction 1 as [|a l [b Hb] _ (bs & E & IH)].
  - exists []. now split.
  - exists (b :: bs). split; [|now constructor].
    cbn [mapM flat_map]. rewrite E. destruct (f a) as [t r].
    cbn [outcome snd] in Hb. subst r. cbn [mbind ret trace fst].
    now rewrite app_nil_r.
Qed.

Lemma mapR_all_ok (A B : Type) (f : A -> result B) (l : list A) :
  Forall (fun a => exists b, f a = Ok b) l -> exists bs, mapR f l = Ok bs.
Proof.
  induction 1 as [|a l [b Hb] _ (bs & E)]; [now exists []|].
  exists (b :: bs). cbn [mapR]. now rewrite Hb, E.
Qed.

Lemma castable_cast (v : json) :
  castable v = true ->
  is_dict v = false /\ exists z, astype_Int64 (to_numeric v) = Ok z.
Proof.
  destruct v as [|b|z|x|s|l|d]; cbn [castable is_dict]; intros H;
    try discriminate; (split; [reflexivity|]).
  - now exists None.
  - exists (Some z). cbn [to_numeric astype_Int64 integer_value].
    cbn [Z.leb Z.compare]. change (10 ^ 0)%Z with 1%Z.
    now rewrite Z.mul_1_r, (float_exact_int64 z H).
  - cbn [to_numeric]. destruct (floatify s) as [x|] eqn:E;
      [|now exists None].
    apply andb_true_iff in H. destruct H as [Hd He].
    rewrite (floatify_digits s Hd) in E. injection E as <-.
    exists (Some (Z_of_digits 0 s)). cbn [astype_Int64 integer_value].
    cbn [Z.leb Z.compare]. change (10 ^ 0)%Z with 1%Z.
    now rewrite Z.mul_1_r, (float_exact_int64 _ He).
  - now exists None.
Qed.

Lemma cleanable_record (r : RawRecord) :
  cleanable r ->
  (exists meta,
      outcome (preprocess_annotator_metadata (annotator_metadata r)) = Ok meta
      /\ castable (field "metadata_num_tools" meta) = true)
  /\ (file_name r = JNull \/ exists name, file_name r = JString name).
Proof.
  intros [(d & v1 & v2 & v3 & v4 & v5 & -> & Hr & _ & _
           & H1 & H2 & H3 & H4 & H5 & Hc) Hn].
  split; [|exact Hn].
  rewrite (preprocess_dict_record d Hr H1 H2 H3 H4 H5).
  eexists. split; [reflexivity|exact Hc].
Qed.

Lemma clean_dataset_returns (rows : list RawRecord) :
  rows <> [] -> Forall cleanable rows ->
  exists df,
    clean_dataset rows
    = (repeat (LogInfo "Fixing annotator metadata") (List.length rows), Ok df).
Proof.
  intros Hne Hc. apply (Forall_impl _ cleanable_record) in Hc.
  unfold clean_dataset.
  destruct (@mapM_all_ok _ _
              (fun r => preprocess_annotator_metadata (annotator_metadata r))
              rows) as (metas & -> & Hm).
  { eapply Forall_impl; [|exact Hc]. intros r [(meta & E & _) _].
    now exists meta. }
  assert (Hcast : Forall (fun meta =>
                            castable (field "metadata_num_tools" meta) = true)
                         metas).
  { clear Hne. induction Hm as [|r meta rows metas Hr Hm IH]; [constructor|].
    inversion Hc as [|? ? [(meta' & E & Hcast) _] Hc']; subst.
    constructor; [|now apply IH]. rewrite Hr in E. now injection E as <-. }
  assert (Hmne : metas <> [])
    by (intros ->; inversion Hm; subst; congruence).
  assert (Ht : flat_map
                 (fun a => trace (preprocess_annotator_metadata
                                    (annotator_metadata a))) rows
               = repeat (LogInfo "Fixing annotator metadata")
                        (List.length rows)).
  { clear. induction rows as [|r rows IH]; [reflexivity|].
    cbn [flat_map List.length repeat]. rewrite preprocess_trace.
    cbn [app]. now rewrite IH. }
  rewrite Ht. cbn [mbind lift]. unfold get_column.
  assert (Hex : existsb (fun v => negb (is_dict v))
                        (map (field "metadata_num_tools") metas) = true).
  { destruct metas as [|meta metas]; [congruence|].
    inversion Hcast as [|? ? H1 _]; subst.
    cbn [map existsb]. now rewrite (proj1 (castable_cast _ H1)). }
  rewrite Hex. cbn [bind]. unfold coerce_num_tools.
  destruct (@mapR_all_ok _ _ astype_Int64
              (map to_numeric
                 (map (fun v => if is_dict v then JNull else v)
                      (map (field "metadata_num_tools") metas))))
    as (nts & ->).
  { rewrite !map_map. apply Forall_map.
    eapply Forall_impl; [|exact Hcast]. intros meta H.
    rewrite to_numeric_dict. apply (castable_cast _ H). }
  cbn [bind].
  destruct (@mapR_all_ok _ _ prepend_bucket (map file_name rows))
    as (paths & ->).
  { apply Forall_map. eapply Forall_impl; [|exact Hc].
    intros r [_ [-> | [name ->]]]; now eexists. }
  cbn [bind]. rewrite app_nil_r. now eexists.
Qed.

Lemma load_loop_returns (file_list : list (string * list RawRecord))
  (cleaned : datasets) :
  Forall (fun fr => snd fr <> [] /\ Forall cleanable (snd fr)) file_list ->
  exists dfs, load_loop file_list cleaned = (loader_trace file_list, Ok dfs).
Proof.
  intros H. revert cleaned.
  induction H as [|[f rows] rest [Hne Hc] _ IH]; intros cleaned.
  - now exists cleaned.
  - cbn [snd] in *. destruct (clean_dataset_returns Hne Hc) as (df & E).
    destruct (IH (dict_set f df cleaned)) as (dfs & E').
    exists dfs. cbn [load_loop]. rewrite E. cbn [mbind emit]. rewrite E'.
    cbn [loader_trace flat_map snd]. fold (loader_trace rest).
    now rewrite <- !app_assoc.
Qed.

Lemma loader_returns_loop (file_list : list (string * list RawRecord)) :
  file_list <> [] ->
  Forall (fun fr => snd fr <> [] /\ Forall cleanable (snd fr)) file_list ->
  exists dfs,
    load_datasets_from_filesystem file_list
    = (loader_trace file_list, Ok dfs).
Proof.
  intros Hne H. unfold load_datasets_from_filesystem.
  destruct file_list as [|fr file_list]; [congruence|].
  cbn [List.length Nat.eqb]. now apply load_loop_returns.
Qed.

(** X17: the loader returns whenever there is a file, every file has a
    row, and every row has a file name that is a string or empty and a
    metadata text that is the [repr] of a dict [fix_json_structure] reads
    back, with the five keys, integers of 64 bits and a tool count that is a
    list, a text that spells no number, a text of digits or an integer
    (within what float64 holds exactly): on such rows no step of the
    cleaning raises.  (Reading and writing the files are events of this
    model that do not fail.) *)
Theorem loader_returns (file_list : list (string * list RawRecord)) :
  file_list <> [] ->
  Forall (fun fr => snd fr <> [] /\ Forall cleanable (snd fr)) file_list ->
  exists dfs,
    load_datasets_from_filesystem file_list
    = (loader_trace file_list, Ok dfs).
Proof. apply loader_returns_loop. Qed.

Lemma loader_returns_witness :
  exists dfs,
    load_datasets_from_filesystem
      [("a_all.csv",
        [row_of (JString "report.pdf")
           (lit "{'Steps': `1. Find what's needed`, 'Number of steps': '1', 'How long did this take?': '5 minutes', 'Tools': ['Web browser'], 'Number of tools': '1'}");
         row_of JNull
           "{'Steps': '1. Search', 'Number of steps': 1, 'How long did this take?': '5 minutes', 'Tools': 'None', 'Number of tools': 0}"])]
    = (loader_trace
         [("a_all.csv",
           [row_of (JString "report.pdf")
              (lit "{'Steps': `1. Find what's needed`, 'Number of steps': '1', 'How long did this take?': '5 minutes', 'Tools': ['Web browser'], 'Number of tools': '1'}");
            row_of JNull
              "{'Steps': '1. Search', 'Number of steps': 1, 'How long did this take?': '5 minutes', 'Tools': 'None', 'Number of tools': 0}"])],
       Ok dfs).
Proof.
  apply (@loader_returns
           [("a_all.csv",
             [row_of (JString "report.pdf")
                (lit "{'Steps': `1. Find what's needed`, 'Number of steps': '1', 'How long did this take?': '5 minutes', 'Tools': ['Web browser'], 'Number of tools': '1'}");
              row_of JNull
                "{'Steps': '1. Search', 'Number of steps': 1, 'How long did this take?': '5 minutes', 'Tools': 'None', 'Number of tools': 0}"])]).
  - discriminate.
  - constructor; [|constructor]. split; [discriminate|].
    constructor; [|constructor; [|constructor]].
    + split; [|right; now exists "report.pdf"].
      exists [("Steps", PStr "1. Find what's needed");
              ("Number of steps", PStr "1");
              ("How long did this take?", PStr "5 minutes");
              ("Tools", PList [PStr "Web browser"]);
              ("Number of tools", PStr "1")],
        (PStr "1. Find what's needed"), (PStr "1"), (PStr "5 minutes"),
        (PList [PStr "Web browser"]), (PStr "1").
      split; [reflexivity|]. split; [reflexivity|].
      split; [vm_compute; lia|]. now repeat split.
    + split; [|now left].
      exists [("Steps", PStr "1. Search");
              ("Number of steps", PInt false "1");
              ("How long did this take?", PStr "5 minutes");
              ("Tools", PStr "None");
              ("Number of tools", PInt false "0")],
        (PStr "1. Search"), (PInt false "1"), (PStr "5 minutes"),
        (PStr "None"), (PInt false "0").
      split; [reflexivity|]. split; [reflexivity|].
      split; [vm_compute; lia|]. now repeat split.
Defined.

(** ** The whole run *)

Lemma loader_keys (file_list : list (string * list RawRecord))
  (t : list event) (dfs : datasets) :
  NoDup (map fst file_list) ->
  load_datasets_from_filesystem file_list = (t, Ok dfs) ->
  map fst dfs = map fst file_list.
Proof.
  intros Hnd H. apply loader_ok_loop, load_loop_spec in H.
  destruct H as (frames & Hf & -> & _).
  rewrite dict_fold_fresh by (auto; intros k _ []). cbn [app].
  apply (@Forall2_combine_keys _ _ (fun _ _ => True)).
  eapply Forall2_impl; [|exact Hf]. now intros.
Qed.

(** X18: the whole of [main] on data it can clean, with a storage layer
    that does not fail: it ends normally, having cleaned every file and then
    written one frame per file to the table test_cases, in the order of the
    file list, each write followed by its log line, before the final log
    line.  (Reading and writing the files are events of this model that do
    not fail.) *)
Theorem main_completes (storage : event -> result unit)
  (file_list : list (string * list RawRecord)) :
  file_list <> [] ->
  NoDup (map fst file_list) ->
  Forall (fun fr => snd fr <> [] /\ Forall cleanable (snd fr)) file_list ->
  (forall ev, is_storage ev = true -> storage ev = Ok tt) ->
  exists dfs,
    map fst dfs = map fst file_list
    /\ main storage file_list
       = ((loader_trace file_list ++ storage_plan dfs)%list, Ok tt).
Proof.
  intros Hne Hnd Hc Hs.
  destruct (@loader_returns_loop file_list Hne Hc) as (dfs & E).
  exists dfs. split; [exact (@loader_keys _ _ _ Hnd E)|].
  rewrite main_plan, E. cbn [mbind].
  now rewrite run_plan_ok by (intros ev _; apply Hs).
Qed.

Lemma main_completes_witness :
  exists dfs,
    map fst dfs = ["a_all.csv"; "b_all.csv"]
    /\ main (fun _ => Ok tt)
         [("a_all.csv",
           [row_of (JString "report.pdf")
              (lit "{'Steps': `1. Find what's needed`, 'Number of steps': '1', 'How long did this take?': '5 minutes', 'Tools': ['Web browser'], 'Number of tools': '1'}")]);
          ("b_all.csv",
           [row_of JNull
              "{'Steps': '1. Search', 'Number of steps': 1, 'How long did this take?': '5 minutes', 'Tools': 'None', 'Number of tools': 0}"])]
       = (([LogInfo "Fixing annotator metadata";
            ToCsv "resources/cleaned_datasets/1.csv"; PrintColumns;
            LogInfo "Fixing annotator metadata";
            ToCsv "resources/cleaned_datasets/1.csv"; PrintColumns]
           ++ storage_plan dfs)%list, Ok tt).
Proof.
  apply (@main_completes (fun _ => Ok tt)
           [("a_all.csv",
             [row_of (JString "report.pdf")
                (lit "{'Steps': `1. Find what's needed`, 'Number of steps': '1', 'How long did this take?': '5 minutes', 'Tools': ['Web browser'], 'Number of tools': '1'}")]);
            ("b_all.csv",
             [row_of JNull
                "{'Steps': '1. Search', 'Number of steps': 1, 'How long did this take?': '5 minutes', 'Tools': 'None', 'Number of tools': 0}"])]).
  - discriminate.
  - constructor; [intros [H|[]]; discriminate|].
    constructor; [intros []|constructor].
  - constructor; [|constructor; [|constructor]].
    + split; [discriminate|]. constructor; [|constructor].
      split; [|right; now exists "report.pdf"].
      exists [("Steps", PStr "1. Find what's needed");
              ("Number of steps", PStr "1");
              ("How long did this take?", PStr "5 minutes");
              ("Tools", PList [PStr "Web browser"]);
              ("Number of tools", PStr "1")],
        (PStr "1. Find what's needed"), (PStr "1"), (PStr "5 minutes"),
        (PList [PStr "Web browser"]), (PStr "1").
      split; [reflexivity|]. split; [reflexivity|].
      split; [vm_compute; lia|]. now repeat split.
    + split; [discriminate|]. constructor; [|constructor].
      split; [|now left].
      exists [("Steps", PStr "1. Search");
              ("Number of steps", PInt false "1");
              ("How long did this take?", PStr "5 minutes");
              ("Tools", PStr "None");
              ("Number of tools", PInt false "0")],
        (PStr "1. Search"), (PInt false "1"), (PStr "5 minutes"),
        (PStr "None"), (PInt false "0").
      split; [reflexivity|]. split; [reflexivity|].
      split; [vm_compute; lia|]. now repeat split.
  - reflexivity.
Defined.
